(** * Alphabet <-> Number quiz: a shallow embedding of [script.js]

    The development follows the source file class by class:
    [QuestionGenerator], [Timer], [ScoreTracker] and [QuizGame].  The
    browser is represented by what the code observes of it: clock
    readings are passed in as arguments, the scheduler's pending
    [setInterval] / [setTimeout] closures are explicit fields, and the
    calls made on the [UIManager] are collected in a log. *)

From Stdlib Require Import ZArith List String Ascii Bool Lia DecimalString.
From Stdlib Require Import Floats.
Import ListNotations.

Open Scope string_scope.
Open Scope list_scope.
Open Scope Z_scope.

(** ** The JavaScript built-ins the code relies on *)

Module Js.

(** A string-or-absent argument: [None] stands for [null] and
    [undefined], the two absent values the code guards against. *)
Definition value := option string.

(** [!v] is false exactly for a non-empty string. *)
Definition truthy (v : value) : bool :=
  match v with
  | Some s => negb (s =? "")%string
  | None => false
  end.

(** Strings are sequences of 7-bit ASCII characters, and on such
    strings [trim] and [toUpperCase] below are exactly
    [String.prototype.trim] and [String.prototype.toUpperCase]: the
    white space in that range is TAB, LF, VT, FF, CR and SPACE, and
    the letters with an upper case are a to z.  Characters above 127
    are kept as opaque letters without case that are not white space;
    JavaScript treats some of them otherwise (it trims U+00A0 and
    U+FEFF, and maps U+0131 to I and U+017F to S), so a property that
    depends on what these two built-ins do to its input is stated for
    ASCII input ([Spec.asciiOnly]). *)
Definition isWhiteSpace (c : ascii) : bool :=
  let n := nat_of_ascii c in
  (((9 <=? n) && (n <=? 13)) || (n =? 32))%nat.

Fixpoint dropWhile {A : Type} (p : A -> bool) (l : list A) : list A :=
  match l with
  | [] => []
  | x :: l' => if p x then dropWhile p l' else l
  end.

Fixpoint takeWhile {A : Type} (p : A -> bool) (l : list A) : list A :=
  match l with
  | [] => []
  | x :: l' => if p x then x :: takeWhile p l' else []
  end.

Definition trimChars (l : list ascii) : list ascii :=
  rev (dropWhile isWhiteSpace (rev (dropWhile isWhiteSpace l))).

(** [s.trim()] *)
Definition trim (s : string) : string :=
  string_of_list_ascii (trimChars (list_ascii_of_string s)).

Definition upperChar (c : ascii) : ascii :=
  let n := nat_of_ascii c in
  if ((97 <=? n) && (n <=? 122))%nat then ascii_of_nat (n - 32) else c.

(** [s.toUpperCase()] *)
Definition toUpperCase (s : string) : string :=
  string_of_list_ascii (map upperChar (list_ascii_of_string s)).

Definition isDigit (c : ascii) : bool :=
  let n := nat_of_ascii c in ((48 <=? n) && (n <=? 57))%nat.

Definition digitValue (c : ascii) : Z := Z.of_nat (nat_of_ascii c - 48).

Definition digitsValue (ds : list ascii) : Z :=
  fold_left (fun acc c => 10 * acc + digitValue c) ds 0.

(** [parseInt(s, 10)]: skip leading white space, read an optional sign,
    then the longest run of decimal digits; [None] is [NaN].  The
    result is kept as the exact integer (the rounding of integers
    beyond 2^53 to a double is not represented). *)
Definition parseInt10 (s : string) : option Z :=
  let l := dropWhile isWhiteSpace (list_ascii_of_string s) in
  let '(sign, body) :=
    match l with
    | "-"%char :: r => (-1, r)
    | "+"%char :: r => (1, r)
    | _ => (1, l)
    end in
  match takeWhile isDigit body with
  | [] => None
  | ds => Some (sign * digitsValue ds)
  end.

(** [n.toString()] for an integer-valued number. *)
Definition numberToString (n : Z) : string :=
  NilZero.string_of_int (Z.to_int n).

(** The double that holds a count (an array length). *)
Definition numberOfNat (n : nat) : float :=
  PrimFloat.of_uint63 (Uint63.of_Z (Z.of_nat n)).

(** [Math.round(x)] for a finite double: the integer closest to [x],
    a tie going to the larger one, computed on the exact value
    [m * 2^e] the double denotes. *)
Definition mathRound (x : float) : Z :=
  match Prim2SF x with
  | S754_finite s m e =>
      let v := if s then Z.neg m else Z.pos m in
      if 0 <=? e then v * 2 ^ e
      else (2 * v + 2 ^ (- e)) / 2 ^ (1 - e)
  | _ => 0
  end.

End Js.

(** ** Configuration *)

Module CONFIG.
Definition TOTAL_QUESTIONS : nat := 10.
Definition QUESTION_TIME_LIMIT : Z := 10.
Definition MIN_NUMBER : Z := 1.
Definition MAX_NUMBER : Z := 26.
End CONFIG.

(** ** Questions *)

Module Question.
Record t : Type := mk {
  id : string;
  type : string;
  prompt : string;
  correctAnswer : string;
  displayValue : string
}.
End Question.

(** ** class QuestionGenerator *)

Module QuestionGenerator.

Definition questionTypes : list string :=
  ["alphabet-to-number"; "number-to-alphabet"].

Definition alphabet : string := "ABCDEFGHIJKLMNOPQRSTUVWXYZ".

(** [alphabet[i]] as a one-character string (empty when out of range,
    which the callers below never reach). *)
Definition letterAt (i : nat) : string :=
  match String.get i alphabet with
  | Some c => String c ""
  | None => ""
  end.

(** What one call of [generateQuestion] draws from the environment:
    the two [Math.random()] rolls and the text of the fresh id. *)
Record Draw : Type := mkDraw {
  typeRoll : nat;
  valueRoll : nat;
  idText : string
}.

Definition generateAlphabetToNumberQuestion (questionId : string) (roll : nat)
  : Question.t :=
  let randomIndex := (roll mod 26)%nat in
  let letter := letterAt randomIndex in
  let correctNumber := Z.of_nat randomIndex + 1 in
  Question.mk questionId "alphabet-to-number"
    ("What number is the letter " ++ letter ++ "?")%string
    (Js.numberToString correctNumber)
    letter.

Definition generateNumberToAlphabetQuestion (questionId : string) (roll : nat)
  : Question.t :=
  let randomNumber := ((roll mod 26) + 1)%nat in
  let correctLetter := letterAt (randomNumber - 1) in
  Question.mk questionId "number-to-alphabet"
    ("What letter is number "
       ++ Js.numberToString (Z.of_nat randomNumber) ++ "?")%string
    correctLetter
    (Js.numberToString (Z.of_nat randomNumber)).

Definition getRandomQuestionType (roll : nat) : string :=
  nth (roll mod List.length questionTypes) questionTypes "".

Definition generateQuestion (d : Draw) : Question.t :=
  let questionType := getRandomQuestionType (typeRoll d) in
  let questionId := idText d in
  if (questionType =? "alphabet-to-number")%string
  then generateAlphabetToNumberQuestion questionId (valueRoll d)
  else generateNumberToAlphabetQuestion questionId (valueRoll d).

Definition normalizeAnswer (answer : string) : string :=
  Js.toUpperCase (Js.trim answer).

Definition validateAnswer (userAnswer correctAnswer : Js.value) : bool :=
  match userAnswer, correctAnswer with
  | Some u, Some c =>
      if negb (Js.truthy userAnswer) || negb (Js.truthy correctAnswer)
      then false
      else (normalizeAnswer u =? normalizeAnswer c)%string
  | _, _ => false
  end.

(** [/^[A-Z]$/.test(c)] on a one-character string *)
Definition isUpperLetter (c : ascii) : bool :=
  let n := nat_of_ascii c in ((65 <=? n) && (n <=? 90))%nat.

Definition isValidLetter (input : Js.value) : bool :=
  match input with
  | Some s =>
      if negb (Js.truthy input) then false
      else
        let normalized := Js.toUpperCase (Js.trim s) in
        match normalized with
        | String c "" => isUpperLetter c
        | _ => false
        end
  | None => false
  end.

Definition isValidNumber (input : Js.value) : bool :=
  match input with
  | Some s =>
      if negb (Js.truthy input) then false
      else
        let trimmed := Js.trim s in
        match Js.parseInt10 trimmed with
        | None => false
        | Some number =>
            (Js.numberToString number =? trimmed)%string
            && (CONFIG.MIN_NUMBER <=? number)
            && (number <=? CONFIG.MAX_NUMBER)
        end
  | None => false
  end.

Record Validation : Type := mkValidation {
  isValid : bool;
  errorMessage : option string
}.

Definition isBlank (input : Js.value) : bool :=
  match input with
  | Some s => negb (Js.truthy input) || (Js.trim s =? "")%string
  | None => true
  end.

Definition validateInput (input : Js.value) (expectedType : string)
  : Validation :=
  if isBlank input then mkValidation false (Some "Please enter an answer")
  else if (expectedType =? "letter")%string then
    if negb (isValidLetter input)
    then mkValidation false (Some "Please enter a single letter (A-Z)")
    else mkValidation true None
  else if (expectedType =? "number")%string then
    if negb (isValidNumber input)
    then mkValidation false (Some "Please enter a number between 1 and 26")
    else mkValidation true None
  else mkValidation true None.

End QuestionGenerator.

(** ** class Timer *)

Module Timer.

Set Implicit Arguments.

Section WithCallbacks.

(** The functions a caller hands to [start].  The timer never looks
    inside them: every invocation is reported to the caller as a
    [Call], in the order the code makes it. *)
Variable callback : Type.

Inductive Call : Type :=
| TickCall (f : callback) (timeRemaining : Z)
| CompleteCall (f : callback).

(** The fields of the object, with two readings of the scheduler:
    [intervalId] is [true] while a [setInterval] of this timer is
    armed, and [pendingTimeouts] counts the zero-delay [setTimeout]
    closures of [start] that have not run yet.  [startTime] is a
    clock reading in milliseconds ([null] before the first start,
    which arithmetic reads as 0). *)
Record t : Type := mk {
  duration : Z;
  timeRemaining : Z;
  intervalId : bool;
  isRunning : bool;
  onTickCallback : option callback;
  onCompleteCallback : option callback;
  startTime : Z;
  pausedTime : Z;
  isPaused : bool;
  pendingTimeouts : nat
}.

Definition new : t :=
  {| duration := 0; timeRemaining := 0; intervalId := false;
     isRunning := false; onTickCallback := None;
     onCompleteCallback := None; startTime := 0; pausedTime := 0;
     isPaused := false; pendingTimeouts := 0 |}.

Definition stop (tm : t) : t :=
  {| duration := duration tm;
     timeRemaining := 0;
     intervalId := false;
     isRunning := false;
     onTickCallback := None;
     onCompleteCallback := None;
     startTime := startTime tm;
     pausedTime := pausedTime tm;
     isPaused := false;
     pendingTimeouts := pendingTimeouts tm |}.

Definition tickCalls (f : option callback) (remaining : Z) : list Call :=
  match f with
  | Some g => [TickCall g remaining]
  | None => []
  end.

Definition completeCalls (f : option callback) : list Call :=
  match f with
  | Some g => [CompleteCall g]
  | None => []
  end.

(** [start(duration, onCompleteCallback, onTickCallback)] at clock
    reading [now].  The [catch] blocks of the timer ([handleTimerError])
    run only when arming the interval fails or a completion callback
    throws; the scheduler here always arms and the callbacks are
    opaque, so they have no counterpart. *)
Definition start (dur : Z) (onComplete onTick : option callback)
    (now : Z) (tm : t) : t * list Call :=
  let tm := if isRunning tm then stop tm else tm in
  let calls := tickCalls onTick dur in
  let zero := dur <=? 0 in
  ({| duration := dur;
      timeRemaining := dur;
      intervalId := if zero then intervalId tm else true;
      isRunning := true;
      onTickCallback := onTick;
      onCompleteCallback := onComplete;
      startTime := now;
      pausedTime := 0;
      isPaused := false;
      pendingTimeouts :=
        if zero then S (pendingTimeouts tm) else pendingTimeouts tm |},
   calls).

Definition pause (now : Z) (tm : t) : t :=
  if isRunning tm && negb (isPaused tm) then
    {| duration := duration tm;
       timeRemaining := timeRemaining tm;
       intervalId := false;
       isRunning := isRunning tm;
       onTickCallback := onTickCallback tm;
       onCompleteCallback := onCompleteCallback tm;
       startTime := startTime tm;
       pausedTime := now;
       isPaused := true;
       pendingTimeouts := pendingTimeouts tm |}
  else tm.

Definition resume (now : Z) (tm : t) : t :=
  if isRunning tm && isPaused tm then
    let currentTime := now in
    let pauseDuration := currentTime - pausedTime tm in
    {| duration := duration tm;
       timeRemaining := timeRemaining tm;
       intervalId := true;
       isRunning := isRunning tm;
       onTickCallback := onTickCallback tm;
       onCompleteCallback := onCompleteCallback tm;
       startTime := startTime tm + pauseDuration;
       pausedTime := pausedTime tm;
       isPaused := false;
       pendingTimeouts := pendingTimeouts tm |}
  else tm.

Definition handleTimerComplete (tm : t) : t * list Call :=
  let callback := onCompleteCallback tm in
  (stop tm, completeCalls callback).

Definition setTimeRemaining (r : Z) (tm : t) : t :=
  {| duration := duration tm;
     timeRemaining := r;
     intervalId := intervalId tm;
     isRunning := isRunning tm;
     onTickCallback := onTickCallback tm;
     onCompleteCallback := onCompleteCallback tm;
     startTime := startTime tm;
     pausedTime := pausedTime tm;
     isPaused := isPaused tm;
     pendingTimeouts := pendingTimeouts tm |}.

(** [tick()] at clock reading [now]; [Z.div] is the floor of the
    quotient. *)
Definition tick (now : Z) (tm : t) : t * list Call :=
  if negb (isRunning tm) || isPaused tm then (tm, [])
  else
    let currentTime := now in
    let elapsedTime := (currentTime - startTime tm) / 1000 in
    let remaining := Z.max 0 (duration tm - elapsedTime) in
    let tm := setTimeRemaining remaining tm in
    let calls := tickCalls (onTickCallback tm) remaining in
    if remaining <=? 0 then
      let '(tm, done) := handleTimerComplete tm in (tm, calls ++ done)
    else (tm, calls).

Definition getTimeRemaining (tm : t) : Z := timeRemaining tm.

Definition getElapsedTime (now : Z) (tm : t) : Z :=
  if negb (isRunning tm) then 0
  else
    let currentTime := if isPaused tm then pausedTime tm else now in
    (currentTime - startTime tm) / 1000.

Definition isActive (tm : t) : bool := isRunning tm.

Definition isPausedState (tm : t) : bool := isPaused tm.

Definition getDuration (tm : t) : Z := duration tm.

Definition addTime (seconds : Z) (now : Z) (tm : t) : t * list Call :=
  if isRunning tm then
    let dur := duration tm + seconds in
    let remaining := Z.max 0 (dur - getElapsedTime now tm) in
    let tm :=
      {| duration := dur;
         timeRemaining := remaining;
         intervalId := intervalId tm;
         isRunning := isRunning tm;
         onTickCallback := onTickCallback tm;
         onCompleteCallback := onCompleteCallback tm;
         startTime := startTime tm;
         pausedTime := pausedTime tm;
         isPaused := isPaused tm;
         pendingTimeouts := pendingTimeouts tm |} in
    (tm, tickCalls (onTickCallback tm) remaining)
  else (tm, []).

(** What the scheduler can do to a timer: run the armed interval's
    closure (which calls [tick]) at some clock reading, or run a
    pending zero-delay closure of [start] (which calls
    [handleTimerComplete]).  Both carry the clock reading at which
    they happen; the timer reads it only in [tick]. *)
Inductive Fire : Type :=
| IntervalFires (now : Z)
| TimeoutFires (now : Z).

Definition consumeTimeout (tm : t) : t :=
  {| duration := duration tm;
     timeRemaining := timeRemaining tm;
     intervalId := intervalId tm;
     isRunning := isRunning tm;
     onTickCallback := onTickCallback tm;
     onCompleteCallback := onCompleteCallback tm;
     startTime := startTime tm;
     pausedTime := pausedTime tm;
     isPaused := isPaused tm;
     pendingTimeouts := pred (pendingTimeouts tm) |}.

Definition fire (ev : Fire) (tm : t) : t * list Call :=
  match ev with
  | IntervalFires now => if intervalId tm then tick now tm else (tm, [])
  | TimeoutFires _ =>
      match pendingTimeouts tm with
      | O => (tm, [])
      | S _ => handleTimerComplete (consumeTimeout tm)
      end
  end.

(** The scheduler's firings applied in order, with the calls they
    make. *)
Fixpoint fireAll (evs : list Fire) (tm : t) : t * list Call :=
  match evs with
  | [] => (tm, [])
  | ev :: evs' =>
      let '(tm1, calls1) := fire ev tm in
      let '(tm2, calls2) := fireAll evs' tm1 in
      (tm2, calls1 ++ calls2)
  end.

(** One uninterrupted run: [start], then only scheduler firings. *)
Definition runFrom (dur : Z) (onComplete onTick : option callback)
    (now : Z) (evs : list Fire) (tm : t) : t * list Call :=
  let '(tm1, calls1) := start dur onComplete onTick now tm in
  let '(tm2, calls2) := fireAll evs tm1 in
  (tm2, calls1 ++ calls2).

Definition tickValues (calls : list Call) : list Z :=
  flat_map (fun c => match c with
                     | TickCall _ r => [r]
                     | CompleteCall _ => []
                     end) calls.

Definition completions (calls : list Call) : nat :=
  List.length (filter (fun c => match c with
                                | CompleteCall _ => true
                                | TickCall _ _ => false
                                end) calls).

(** [handleTimerError(error)]: the timer stops itself, then looks for
    the completion callback in the field [stop] has just cleared. *)
Definition handleTimerError (tm : t) : t * list Call :=
  let tm := stop tm in
  (tm, completeCalls (onCompleteCallback tm)).

(** Everything a timer can undergo: the calls of its owner and the
    firings of the scheduler. *)
Inductive Op : Type :=
| Start (dur : Z) (onComplete onTick : option callback) (now : Z)
| Stop
| Pause (now : Z)
| Resume (now : Z)
| AddTime (seconds now : Z)
| Fires (ev : Fire)
| Fails.

Definition apply (op : Op) (tm : t) : t * list Call :=
  match op with
  | Start dur onComplete onTick now => start dur onComplete onTick now tm
  | Stop => (stop tm, [])
  | Pause now => (pause now tm, [])
  | Resume now => (resume now tm, [])
  | AddTime seconds now => addTime seconds now tm
  | Fires ev => fire ev tm
  | Fails => handleTimerError tm
  end.

Fixpoint applyAll (ops : list Op) (tm : t) : t * list Call :=
  match ops with
  | [] => (tm, [])
  | op :: ops' =>
      let '(tm1, calls1) := apply op tm in
      let '(tm2, calls2) := applyAll ops' tm1 in
      (tm2, calls1 ++ calls2)
  end.

End WithCallbacks.

Arguments new : clear implicits.
Arguments Stop {callback}.
Arguments Pause {callback}.
Arguments Resume {callback}.
Arguments AddTime {callback}.
Arguments Fires {callback}.
Arguments Fails {callback}.

Unset Implicit Arguments.

End Timer.

(** ** Exceptions

    A method that can [throw] is a state transformer that returns
    either the error or a result, together with the state reached when
    it stopped. *)

Module Throwing.

Inductive Error : Type := MkError (message : string).

Definition M (S A : Type) : Type := S -> (Error + A) * S.

Definition ret {S A : Type} (a : A) : M S A := fun s => (inr a, s).

Definition throw {S A : Type} (e : Error) : M S A := fun s => (inl e, s).

Definition bind {S A B : Type} (m : M S A) (k : A -> M S B) : M S B :=
  fun s =>
    match m s with
    | (inl e, s') => (inl e, s')
    | (inr a, s') => k a s'
    end.

Definition get {S : Type} : M S S := fun s => (inr s, s).

Definition put {S : Type} (s : S) : M S unit := fun _ => (inr tt, s).

Definition threw {A : Type} (r : Error + A) : bool :=
  match r with
  | inl _ => true
  | inr _ => false
  end.

End Throwing.

Notation "x <- m ;; k" := (Throwing.bind m (fun x => k))
  (at level 61, m at next level, right associativity).

(** ** class ScoreTracker *)

Module AnswerRecord.
Record t : Type := mk {
  questionNumber : nat;
  questionId : string;
  questionType : string;
  questionText : string;
  displayValue : string;
  correctAnswer : string;
  userAnswer : string;
  isCorrect : bool;
  timeUsed : Z;
  timedOut : bool;
  timestamp : Z
}.
End AnswerRecord.

Module ScoreTracker.

Record t : Type := mk {
  answerRecords : list AnswerRecord.t;
  startTime : option Z;
  endTime : option Z;
  totalQuestions : nat
}.

Definition new : t := mk [] None None 0.

Definition initialize (total : nat) (now : Z) (st : t) : t :=
  mk [] (Some now) None total.

(** [userAnswer || ''] *)
Definition orEmpty (v : Js.value) : string :=
  match v with
  | Some s => s
  | None => ""
  end.

Definition push (r : AnswerRecord.t) (st : t) : t :=
  mk (answerRecords st ++ [r]) (startTime st) (endTime st)
     (totalQuestions st).

(** [recordAnswer(question, userAnswer, isCorrect, timeUsed, timedOut)]
    with [now] the reading of [new Date()]. *)
Definition recordAnswer (question : option Question.t)
    (userAnswer : Js.value) (isCorrect : bool) (timeUsed : Z)
    (timedOut : bool) (now : Z) : Throwing.M t unit :=
  match question with
  | None => Throwing.throw (Throwing.MkError "Question object is required")
  | Some q =>
      st <- Throwing.get ;;
      let answerRecord :=
        {| AnswerRecord.questionNumber := List.length (answerRecords st) + 1;
           AnswerRecord.questionId := Question.id q;
           AnswerRecord.questionType := Question.type q;
           AnswerRecord.questionText := Question.prompt q;
           AnswerRecord.displayValue := Question.displayValue q;
           AnswerRecord.correctAnswer := Question.correctAnswer q;
           AnswerRecord.userAnswer := orEmpty userAnswer;
           AnswerRecord.isCorrect := isCorrect;
           AnswerRecord.timeUsed :=
             Z.max 0 (Z.min timeUsed CONFIG.QUESTION_TIME_LIMIT);
           AnswerRecord.timedOut := timedOut;
           AnswerRecord.timestamp := now |} in
      Throwing.put (push answerRecord st)
  end.

Definition completeQuiz (now : Z) (st : t) : t :=
  mk (answerRecords st) (startTime st) (Some now) (totalQuestions st).

Record Score : Type := mkScore {
  correct : nat;
  incorrect : nat;
  timeout : nat;
  total : nat;
  percentage : Z
}.

(** [Math.round((correct / total) * 100)], the division and the
    product taken in double precision as the code takes them. *)
Definition percentageOf (correct total : nat) : Z :=
  if (0 <? total)%nat
  then Js.mathRound
         (PrimFloat.mul
            (PrimFloat.div (Js.numberOfNat correct) (Js.numberOfNat total))
            (Js.numberOfNat 100))
  else 0.

Definition getScore (st : t) : Score :=
  let correct :=
    List.length (filter (fun record => AnswerRecord.isCorrect record)
                        (answerRecords st)) in
  let incorrect :=
    List.length
      (filter (fun record => negb (AnswerRecord.isCorrect record)
                             && negb (AnswerRecord.timedOut record))
              (answerRecords st)) in
  let timeout :=
    List.length (filter (fun record => AnswerRecord.timedOut record)
                        (answerRecords st)) in
  let total := List.length (answerRecords st) in
  {| correct := correct;
     incorrect := incorrect;
     timeout := timeout;
     total := total;
     percentage := percentageOf correct total |}.

Definition getAnswerStatus (record : AnswerRecord.t) : string :=
  if AnswerRecord.timedOut record then "timeout"
  else if AnswerRecord.isCorrect record then "correct" else "incorrect".

Definition reset (st : t) : t := mk [] None None 0.

(** [this.answerRecords.filter(record => !record.timedOut)] *)
Definition answeredQuestions (st : t) : list AnswerRecord.t :=
  filter (fun record => negb (AnswerRecord.timedOut record))
         (answerRecords st).

(** [getTotalQuizTime()]; [None] is [null]. *)
Definition getTotalQuizTime (st : t) : option Z :=
  match startTime st, endTime st with
  | Some s, Some e => Some ((e - s) / 1000)
  | _, _ => None
  end.

(** [array.reduce(f)] without an initial value, on a non-empty array. *)
Definition reduce1 {A : Type} (f : A -> A -> A) (first : A) (rest : list A)
  : A :=
  fold_left f rest first.

Definition getFastestAnswer (st : t) : option AnswerRecord.t :=
  match answeredQuestions st with
  | [] => None
  | first :: rest =>
      Some (reduce1
              (fun fastest record =>
                 if AnswerRecord.timeUsed record
                    <? AnswerRecord.timeUsed fastest
                 then record else fastest)
              first rest)
  end.

Definition getSlowestAnswer (st : t) : option AnswerRecord.t :=
  match answeredQuestions st with
  | [] => None
  | first :: rest =>
      Some (reduce1
              (fun slowest record =>
                 if AnswerRecord.timeUsed slowest
                    <? AnswerRecord.timeUsed record
                 then record else slowest)
              first rest)
  end.

Record TypeStats : Type := mkTypeStats {
  typeCorrect : nat;
  typeTotal : nat;
  typePercentage : Z
}.

Definition statsOfType (type : string) (st : t) : TypeStats :=
  let typeRecords :=
    filter (fun record => (AnswerRecord.questionType record =? type)%string)
           (answerRecords st) in
  let correct :=
    List.length (filter (fun record => AnswerRecord.isCorrect record)
                        typeRecords) in
  let total := List.length typeRecords in
  mkTypeStats correct total (percentageOf correct total).

(** [getAccuracyByQuestionType()]: the object, as its two entries. *)
Definition getAccuracyByQuestionType (st : t) : list (string * TypeStats) :=
  map (fun type => (type, statsOfType type st))
      ["alphabet-to-number"; "number-to-alphabet"].

Record TimeDistribution : Type := mkTimeDistribution {
  fast : nat;
  medium : nat;
  slow : nat
}.

Definition getTimeDistribution (st : t) : TimeDistribution :=
  match answeredQuestions st with
  | [] => mkTimeDistribution 0 0 0
  | answered =>
      mkTimeDistribution
        (List.length
           (filter (fun record => AnswerRecord.timeUsed record <=? 3)
                   answered))
        (List.length
           (filter (fun record => (3 <? AnswerRecord.timeUsed record)
                                  && (AnswerRecord.timeUsed record <=? 7))
                   answered))
        (List.length
           (filter (fun record => 7 <? AnswerRecord.timeUsed record)
                   answered))
  end.

Definition getIncorrectAnswers (st : t) : list AnswerRecord.t :=
  filter (fun record => negb (AnswerRecord.isCorrect record))
         (answerRecords st).

Definition getTimedOutQuestions (st : t) : list AnswerRecord.t :=
  filter (fun record => AnswerRecord.timedOut record) (answerRecords st).

Definition getCorrectAnswers (st : t) : list AnswerRecord.t :=
  filter (fun record => AnswerRecord.isCorrect record) (answerRecords st).

Definition isQuizComplete (st : t) : bool :=
  (totalQuestions st <=? List.length (answerRecords st))%nat.

Definition getCurrentQuestionNumber (st : t) : nat :=
  List.length (answerRecords st) + 1.

(** The double that holds an integer number of seconds. *)
Definition numberOfZ (z : Z) : float :=
  if z <? 0 then PrimFloat.opp (Js.numberOfNat (Z.to_nat (- z)))
  else Js.numberOfNat (Z.to_nat z).

(** One entry of [getDetailedResults()]: the record with its status
    and [(record.timeUsed / CONFIG.QUESTION_TIME_LIMIT) * 100]. *)
Record DetailedResult : Type := mkDetailedResult {
  record : AnswerRecord.t;
  status : string;
  timePercentage : float
}.

Definition getDetailedResults (st : t) : list DetailedResult :=
  map (fun record =>
         mkDetailedResult record (getAnswerStatus record)
           (PrimFloat.mul
              (PrimFloat.div (numberOfZ (AnswerRecord.timeUsed record))
                             (numberOfZ CONFIG.QUESTION_TIME_LIMIT))
              (Js.numberOfNat 100)))
      (answerRecords st).

End ScoreTracker.

(** ** class QuizGame *)

Module QuizGame.

(** The two bound methods handed to the timer. *)
Inductive Callback : Type :=
| HandleTimerComplete
| HandleTimerTick.

Inductive Status : Type :=
| NotStarted
| Active
| Completed
| InError.

Definition isActiveStatus (s : Status) : bool :=
  match s with
  | Active => true
  | _ => false
  end.

(** The calls made on the [UIManager], which only renders. *)
Inductive UiCall : Type :=
| ShowSection (sectionName : string)
| DisplayQuestion (question : option Question.t) (questionNumber : nat)
| UpdateTimer (timeRemaining : option Z)
| ShowFeedback (isCorrect : bool) (correctAnswer : string)
               (userAnswer : Js.value)
| ShowTimeoutFeedback (correctAnswer : string)
| DisableQuizControls
| ShowInputError (errorMessage : option string)
| RenderResults (score : ScoreTracker.Score)
| ResetUi.

(** The module-level [gameState] object; only [QuizGame] writes it. *)
Record GameState : Type := mkGameState {
  currentQuestionIndex : nat;
  questions : list Question.t;
  status : Status;
  startTime : option Z;
  endTime : option Z
}.

(** The controller with the objects it owns.  [uiManager] is the log
    of calls made so far, oldest first, and [pendingAdvances] counts
    the two-second [setTimeout] closures (advance to the next
    question) that have not run yet. *)
Record t : Type := mk {
  timer : Timer.t Callback;
  scoreTracker : ScoreTracker.t;
  uiManager : list UiCall;
  currentQuestion : option Question.t;
  currentQuestionStartTime : option Z;
  isWaitingForNextQuestion : bool;
  gameState : GameState;
  pendingAdvances : nat
}.

Definition new : t :=
  {| timer := Timer.new Callback;
     scoreTracker := ScoreTracker.new;
     uiManager := [];
     currentQuestion := None;
     currentQuestionStartTime := None;
     isWaitingForNextQuestion := false;
     gameState := mkGameState 0 [] NotStarted None None;
     pendingAdvances := 0 |}.

Definition setTimer (tm : Timer.t Callback) (g : t) : t :=
  mk tm (scoreTracker g) (uiManager g) (currentQuestion g)
     (currentQuestionStartTime g) (isWaitingForNextQuestion g)
     (gameState g) (pendingAdvances g).

Definition setScoreTracker (st : ScoreTracker.t) (g : t) : t :=
  mk (timer g) st (uiManager g) (currentQuestion g)
     (currentQuestionStartTime g) (isWaitingForNextQuestion g)
     (gameState g) (pendingAdvances g).

Definition ui (c : UiCall) (g : t) : t :=
  mk (timer g) (scoreTracker g) (uiManager g ++ [c]) (currentQuestion g)
     (currentQuestionStartTime g) (isWaitingForNextQuestion g)
     (gameState g) (pendingAdvances g).

Definition setCurrentQuestion (q : option Question.t) (g : t) : t :=
  mk (timer g) (scoreTracker g) (uiManager g) q
     (currentQuestionStartTime g) (isWaitingForNextQuestion g)
     (gameState g) (pendingAdvances g).

Definition setCurrentQuestionStartTime (s : option Z) (g : t) : t :=
  mk (timer g) (scoreTracker g) (uiManager g) (currentQuestion g)
     s (isWaitingForNextQuestion g) (gameState g) (pendingAdvances g).

Definition setWaiting (b : bool) (g : t) : t :=
  mk (timer g) (scoreTracker g) (uiManager g) (currentQuestion g)
     (currentQuestionStartTime g) b (gameState g) (pendingAdvances g).

Definition setGameState (gs : GameState) (g : t) : t :=
  mk (timer g) (scoreTracker g) (uiManager g) (currentQuestion g)
     (currentQuestionStartTime g) (isWaitingForNextQuestion g)
     gs (pendingAdvances g).

Definition setPendingAdvances (n : nat) (g : t) : t :=
  mk (timer g) (scoreTracker g) (uiManager g) (currentQuestion g)
     (currentQuestionStartTime g) (isWaitingForNextQuestion g)
     (gameState g) n.

Definition setStatus (s : Status) (g : t) : t :=
  let gs := gameState g in
  setGameState
    (mkGameState (currentQuestionIndex gs) (questions gs) s
                 (startTime gs) (endTime gs)) g.

Definition setIndex (i : nat) (g : t) : t :=
  let gs := gameState g in
  setGameState
    (mkGameState i (questions gs) (status gs) (startTime gs) (endTime gs)) g.

Definition setEndTime (e : option Z) (g : t) : t :=
  let gs := gameState g in
  setGameState
    (mkGameState (currentQuestionIndex gs) (questions gs) (status gs)
                 (startTime gs) e) g.

(** [setTimeout(() => { gameState.currentQuestionIndex++;
    this.nextQuestion(); }, 2000)] *)
Definition scheduleAdvance (g : t) : t :=
  setPendingAdvances (S (pendingAdvances g)) g.

Definition isSome {A : Type} (o : option A) : bool :=
  match o with
  | Some _ => true
  | None => false
  end.

Definition handleError (message : string) (g : t) : t :=
  let g := ui (ShowInputError (Some message)) g in
  if isActiveStatus (status (gameState g))
  then setStatus InError (setTimer (Timer.stop (timer g)) g)
  else g.

Definition handleTimerTick (timeRemaining : option Z) (g : t) : t :=
  ui (UpdateTimer timeRemaining) g.

(** The guard shared by [submitAnswer] and [handleTimerComplete]. *)
Definition blocked (g : t) : bool :=
  isWaitingForNextQuestion g
  || negb (isActiveStatus (status (gameState g)))
  || negb (isSome (currentQuestion g)).

Definition correctAnswerOf (q : option Question.t) : string :=
  match q with
  | Some q => Question.correctAnswer q
  | None => ""
  end.

(** [handleTimerComplete()], the timeout of the current question;
    [now] is the reading of [new Date()].  Its [catch] only logs. *)
Definition handleTimerComplete (now : Z) (g : t) : t :=
  if blocked g then g
  else
    let timeUsed := CONFIG.QUESTION_TIME_LIMIT in
    match ScoreTracker.recordAnswer (currentQuestion g) (Some "") false
            timeUsed true now (scoreTracker g) with
    | (inl _, st) => setScoreTracker st g
    | (inr _, st) =>
        let g := setScoreTracker st g in
        let g := ui (ShowTimeoutFeedback
                       (correctAnswerOf (currentQuestion g))) g in
        let g := ui DisableQuizControls g in
        let g := setWaiting true g in
        scheduleAdvance g
    end.

(** A timer call reaching the function it names; JavaScript passes
    the arguments the function does not declare silently. *)
Definition invoke (now : Z) (c : Timer.Call Callback) (g : t) : t :=
  match c with
  | Timer.TickCall HandleTimerTick r => handleTimerTick (Some r) g
  | Timer.CompleteCall HandleTimerTick => handleTimerTick None g
  | Timer.TickCall HandleTimerComplete _ => handleTimerComplete now g
  | Timer.CompleteCall HandleTimerComplete => handleTimerComplete now g
  end.

Definition runCalls (now : Z) (calls : list (Timer.Call Callback)) (g : t)
  : t :=
  fold_left (fun g c => invoke now c g) calls g.

Definition endQuiz (now : Z) (g : t) : t :=
  let g := setTimer (Timer.stop (timer g)) g in
  let g := setStatus Completed g in
  let g := setEndTime (Some now) g in
  let g := setScoreTracker (ScoreTracker.completeQuiz now (scoreTracker g)) g in
  ui (RenderResults (ScoreTracker.getScore (scoreTracker g))) g.

(** [nextQuestion()].  Its last statement logs
    [this.currentQuestion.prompt], which throws when
    [gameState.questions] has no entry at the index; the [catch]
    then calls [handleError]. *)
Definition nextQuestion (now : Z) (g : t) : t :=
  if (CONFIG.TOTAL_QUESTIONS <=? currentQuestionIndex (gameState g))%nat
  then endQuiz now g
  else
    let g := setTimer (Timer.stop (timer g)) g in
    let g := setCurrentQuestion
               (nth_error (questions (gameState g))
                          (currentQuestionIndex (gameState g))) g in
    let questionNumber := (currentQuestionIndex (gameState g) + 1)%nat in
    let g := ui (DisplayQuestion (currentQuestion g) questionNumber) g in
    let g := setCurrentQuestionStartTime (Some now) g in
    let g := setWaiting false g in
    let '(tm, calls) :=
      Timer.start CONFIG.QUESTION_TIME_LIMIT (Some HandleTimerComplete)
                  (Some HandleTimerTick) now (timer g) in
    let g := runCalls now calls (setTimer tm g) in
    match currentQuestion g with
    | Some _ => g
    | None => handleError "Failed to load next question. Please try again." g
    end.

Definition expectedTypeOf (q : Question.t) : string :=
  if (Question.type q =? "alphabet-to-number")%string
  then "number" else "letter".

Definition orZero (o : option Z) : Z :=
  match o with
  | Some z => z
  | None => 0
  end.

(** [submitAnswer(answer)] at the reading [now] of [Date.now()]. *)
Definition submitAnswer (answer : Js.value) (now : Z) (g : t) : t :=
  if blocked g then g
  else if negb (Timer.isActive (timer g))
          || (Timer.getTimeRemaining (timer g) <=? 0) then g
  else
    match currentQuestion g with
    | None => g
    | Some question =>
        let expectedType := expectedTypeOf question in
        let validation :=
          QuestionGenerator.validateInput answer expectedType in
        if negb (QuestionGenerator.isValid validation)
        then ui (ShowInputError (QuestionGenerator.errorMessage validation)) g
        else
          let timeUsed := (now - orZero (currentQuestionStartTime g)) / 1000 in
          let g := setTimer (Timer.stop (timer g)) g in
          let isCorrect :=
            QuestionGenerator.validateAnswer
              answer (Some (Question.correctAnswer question)) in
          match ScoreTracker.recordAnswer (currentQuestion g) answer
                  isCorrect timeUsed false now (scoreTracker g) with
          | (inl _, st) =>
              handleError "Failed to process answer. Please try again."
                          (setScoreTracker st g)
          | (inr _, st) =>
              let g := setScoreTracker st g in
              let g := ui (ShowFeedback isCorrect
                             (Question.correctAnswer question) answer) g in
              let g := ui DisableQuizControls g in
              let g := setWaiting true g in
              scheduleAdvance g
          end
    end.

Definition generateAllQuestions (draws : nat -> QuestionGenerator.Draw)
  : list Question.t :=
  map (fun i => QuestionGenerator.generateQuestion (draws i))
      (seq 0 CONFIG.TOTAL_QUESTIONS).

Definition resetGameState (g : t) : t :=
  let g := setGameState (mkGameState 0 [] NotStarted None None) g in
  let g := setCurrentQuestion None g in
  let g := setCurrentQuestionStartTime None g in
  let g := setWaiting false g in
  let g := setScoreTracker (ScoreTracker.reset (scoreTracker g)) g in
  ui ResetUi g.

(** [startQuiz()]; [draws i] is what generating question [i] draws. *)
Definition startQuiz (now : Z) (draws : nat -> QuestionGenerator.Draw)
    (g : t) : t :=
  let g := resetGameState g in
  let g := setScoreTracker
             (ScoreTracker.initialize CONFIG.TOTAL_QUESTIONS now
                                      (scoreTracker g)) g in
  let g := setGameState
             (mkGameState 0 (generateAllQuestions draws) Active
                          (Some now) (endTime (gameState g))) g in
  let g := ui (ShowSection "quiz") g in
  nextQuestion now g.

Definition restartQuiz (g : t) : t :=
  let g := setTimer (Timer.stop (timer g)) g in
  let g := resetGameState g in
  ui (ShowSection "start") g.

Definition pauseQuiz (now : Z) (g : t) : t :=
  if isActiveStatus (status (gameState g)) && Timer.isActive (timer g)
  then setTimer (Timer.pause now (timer g)) g
  else g.

Definition resumeQuiz (now : Z) (g : t) : t :=
  if isActiveStatus (status (gameState g)) && Timer.isPausedState (timer g)
  then setTimer (Timer.resume now (timer g)) g
  else g.

Definition fireTime (ev : Timer.Fire) : Z :=
  match ev with
  | Timer.IntervalFires now => now
  | Timer.TimeoutFires now => now
  end.

(** Everything that can happen to a controller: the calls of the page
    ([startQuiz], [restartQuiz], [submitAnswer], [pauseQuiz],
    [resumeQuiz]), the window listeners of [setupFocusHandling]
    (which call [timer.pause()] and [timer.resume()] directly), and
    the scheduler running one of the closures the code has armed. *)
Inductive Event : Type :=
| StartQuiz (now : Z) (draws : nat -> QuestionGenerator.Draw)
| RestartQuiz
| SubmitAnswer (answer : Js.value) (now : Z)
| PauseQuiz (now : Z)
| ResumeQuiz (now : Z)
| WindowHidden (now : Z)
| WindowShown (now : Z)
| TimerFires (ev : Timer.Fire)
| FeedbackDelayElapsed (now : Z).

Definition timerFires (ev : Timer.Fire) (g : t) : t :=
  let '(tm, calls) := Timer.fire ev (timer g) in
  runCalls (fireTime ev) calls (setTimer tm g).

Definition feedbackDelayElapsed (now : Z) (g : t) : t :=
  match pendingAdvances g with
  | O => g
  | S n =>
      let g := setPendingAdvances n g in
      let g := setIndex (S (currentQuestionIndex (gameState g))) g in
      nextQuestion now g
  end.

Definition step (g : t) (e : Event) : t :=
  match e with
  | StartQuiz now draws => startQuiz now draws g
  | RestartQuiz => restartQuiz g
  | SubmitAnswer answer now => submitAnswer answer now g
  | PauseQuiz now => pauseQuiz now g
  | ResumeQuiz now => resumeQuiz now g
  | WindowHidden now => setTimer (Timer.pause now (timer g)) g
  | WindowShown now => setTimer (Timer.resume now (timer g)) g
  | TimerFires ev => timerFires ev g
  | FeedbackDelayElapsed now => feedbackDelayElapsed now g
  end.

Definition run (g : t) (evs : list Event) : t := fold_left step evs g.

(** The events that leave the current question in place: everything
    except starting, restarting and the advance to the next question. *)
Definition sameQuestion (e : Event) : bool :=
  match e with
  | StartQuiz _ _ | RestartQuiz | FeedbackDelayElapsed _ => false
  | _ => true
  end.

Definition records (g : t) : list AnswerRecord.t :=
  ScoreTracker.answerRecords (scoreTracker g).

End QuizGame.

(** ** The page: the functions between the input field and the controller *)

Module Page.

(** [s.replace(/[^...]/g, '')]: the characters of [s] that [keep]
    accepts. *)
Definition keepChars (keep : ascii -> bool) (s : string) : string :=
  string_of_list_ascii (filter keep (list_ascii_of_string s)).

(** [/[a-zA-Z]/] *)
Definition isLetter (c : ascii) : bool :=
  let n := nat_of_ascii c in
  (((65 <=? n) && (n <=? 90)) || ((97 <=? n) && (n <=? 122)))%nat.

(** [sanitizeInput(input, expectedType)] *)
Definition sanitizeInput (input : Js.value) (expectedType : string) : string :=
  match input with
  | None => ""
  | Some s =>
      if negb (Js.truthy input) then ""
      else
        let sanitized := Js.trim s in
        if (expectedType =? "number")%string then
          let sanitized := keepChars Js.isDigit sanitized in
          if (sanitized =? "")%string then ""
          else
            match Js.parseInt10 sanitized with
            | None => ""
            | Some number =>
                if (number <? 1) || (26 <? number) then ""
                else Js.numberToString number
            end
        else if (expectedType =? "letter")%string then
          match keepChars isLetter sanitized with
          | String c _ => String (Js.upperChar c) ""
          | EmptyString => ""
          end
        else sanitized
  end.

(** The script declares the global [getCurrentQuestion()] twice.  This
    is the first declaration, which reads [gameState]; the second one
    replaces it before any code runs. *)
Definition getCurrentQuestionShadowed (g : QuizGame.t) : option Question.t :=
  let gs := QuizGame.gameState g in
  if negb (QuizGame.isActiveStatus (QuizGame.status gs))
     || (List.length (QuizGame.questions gs)
         <=? QuizGame.currentQuestionIndex gs)%nat
  then None
  else nth_error (QuizGame.questions gs) (QuizGame.currentQuestionIndex gs).

(** [getCurrentQuestion()] as every caller gets it: the second
    declaration, which reads the controller ([window.quizGame], the
    controller of the page). *)
Definition getCurrentQuestion (g : QuizGame.t) : option Question.t :=
  QuizGame.currentQuestion g.

(** The calls that show or clear the message under the input field. *)
Inductive Feedback : Type :=
| ShowInputValidationFeedback (message : option string) (type : string)
| ClearInputValidationFeedback.

(** [processAnswerSubmission()], with [rawAnswer] the value of the
    input field and [now] the clock reading; it returns the controller
    and the feedback calls it made. *)
Definition processAnswerSubmission (rawAnswer : string) (now : Z)
    (g : QuizGame.t) : QuizGame.t * list Feedback :=
  if negb (Js.truthy (Some rawAnswer))
     || negb (Js.truthy (Some (Js.trim rawAnswer)))
  then (g, [ShowInputValidationFeedback
              (Some "Please enter an answer before submitting") "error"])
  else
    match getCurrentQuestion g with
    | None =>
        (g, [ShowInputValidationFeedback
               (Some "No question is currently active. Please refresh the page.")
               "error"])
    | Some currentQuestion =>
        if negb (QuizGame.isActiveStatus
                   (QuizGame.status (QuizGame.gameState g)))
        then (g, [ShowInputValidationFeedback
                    (Some "The quiz is not currently active.") "error"])
        else if negb (Timer.isActive (QuizGame.timer g))
                || (Timer.getTimeRemaining (QuizGame.timer g) <=? 0)
        then (g, [ShowInputValidationFeedback
                    (Some "Time has expired for this question") "error"])
        else
          let expectedType := QuizGame.expectedTypeOf currentQuestion in
          let sanitizedAnswer := sanitizeInput (Some rawAnswer) expectedType in
          let validation :=
            QuestionGenerator.validateInput (Some sanitizedAnswer)
                                            expectedType in
          if negb (QuestionGenerator.isValid validation)
          then (g, [ShowInputValidationFeedback
                      (QuestionGenerator.errorMessage validation) "error"])
          else
            (QuizGame.submitAnswer (Some sanitizedAnswer) now g,
             [ClearInputValidationFeedback])
    end.

(** The module-level [submissionState]; [debounceTimeout] is [true]
    while the closure that clears [isProcessing] is pending. *)
Record SubmissionState : Type := mkSubmissionState {
  lastSubmissionTime : Z;
  submissionCount : Z;
  isProcessing : bool;
  debounceTimeout : bool
}.

Definition initialSubmissionState : SubmissionState :=
  mkSubmissionState 0 0 false false.

Module SUBMISSION_LIMITS.
Definition DEBOUNCE_MS : Z := 500.
Definition MAX_RAPID_SUBMISSIONS : Z := 5.
Definition RAPID_SUBMISSION_WINDOW : Z := 2000.
Definition COOLDOWN_PERIOD : Z := 3000.
End SUBMISSION_LIMITS.

Definition setSubmissionCount (n : Z) (s : SubmissionState)
  : SubmissionState :=
  mkSubmissionState (lastSubmissionTime s) n (isProcessing s)
                    (debounceTimeout s).

(** [Math.ceil(x / 1000)] *)
Definition ceilSeconds (x : Z) : Z := - ((- x) / 1000).

(** [handleRapidSubmissionProtection(callback)] at the reading [now]
    of [Date.now()]: whether the callback is run, the state left
    behind, and the feedback shown.  When the callback is run, the
    closure that clears [isProcessing] is armed after it. *)
Definition handleRapidSubmissionProtection (now : Z) (s : SubmissionState)
  : bool * SubmissionState * list Feedback :=
  let s :=
    if SUBMISSION_LIMITS.RAPID_SUBMISSION_WINDOW <? now - lastSubmissionTime s
    then setSubmissionCount 0 s else s in
  let timeSinceLastSubmission := now - lastSubmissionTime s in
  if (SUBMISSION_LIMITS.MAX_RAPID_SUBMISSIONS <=? submissionCount s)
     && (timeSinceLastSubmission <? SUBMISSION_LIMITS.COOLDOWN_PERIOD)
  then
    let remainingCooldown :=
      ceilSeconds (SUBMISSION_LIMITS.COOLDOWN_PERIOD
                   - timeSinceLastSubmission) in
    (false, s,
     [ShowInputValidationFeedback
        (Some ("Too many rapid submissions. Please wait "
               ++ Js.numberToString remainingCooldown ++ " seconds.")%string)
        "warning"])
  else
    let s :=
      if SUBMISSION_LIMITS.MAX_RAPID_SUBMISSIONS <=? submissionCount s
      then setSubmissionCount 0 s else s in
    if now - lastSubmissionTime s <? SUBMISSION_LIMITS.DEBOUNCE_MS
    then (false, s, [])
    else if isProcessing s
    then (false, s,
          [ShowInputValidationFeedback
             (Some "Please wait, processing your previous answer...")
             "warning"])
    else
      (true,
       mkSubmissionState now (submissionCount s + 1) true true,
       []).

(** The closure armed by an accepted submission, run by the scheduler. *)
Definition processingTimeoutFires (s : SubmissionState) : SubmissionState :=
  if debounceTimeout s
  then mkSubmissionState (lastSubmissionTime s) (submissionCount s)
                         false false
  else s.

(** The page with its controller. *)
Record t : Type := mk {
  quizGame : QuizGame.t;
  submissionState : SubmissionState;
  feedback : list Feedback
}.

(** [handleSubmitAnswer()], with the value of the input field. *)
Definition handleSubmitAnswer (rawAnswer : string) (now : Z) (p : t) : t :=
  let '(isAllowed, s, shown) :=
    handleRapidSubmissionProtection now (submissionState p) in
  if isAllowed then
    let '(g, shown') := processAnswerSubmission rawAnswer now (quizGame p) in
    mk g s (feedback p ++ shown ++ shown')
  else mk (quizGame p) s (feedback p ++ shown).

(** What the user and the scheduler do to the throttle. *)
Inductive ThrottleEvent : Type :=
| Submission (now : Z)
| ProcessingTimeout.

(** The throttle run over a sequence of events, with the readings of
    the submissions it let through, oldest first. *)
Fixpoint throttle (evs : list ThrottleEvent) (s : SubmissionState)
  : SubmissionState * list Z :=
  match evs with
  | [] => (s, [])
  | Submission now :: evs' =>
      let '(isAllowed, s1, _) := handleRapidSubmissionProtection now s in
      let '(s2, times) := throttle evs' s1 in
      (s2, if isAllowed then now :: times else times)
  | ProcessingTimeout :: evs' => throttle evs' (processingTimeoutFires s)
  end.

End Page.

(** ** Vocabulary of the specification *)

Module Spec.

(** The canonical decimal renderings of the integers 1 to 26. *)
Definition canonicalNumbers : list string :=
  ["1"; "2"; "3"; "4"; "5"; "6"; "7"; "8"; "9"; "10"; "11"; "12"; "13";
   "14"; "15"; "16"; "17"; "18"; "19"; "20"; "21"; "22"; "23"; "24";
   "25"; "26"].

(** Two raw answers that are both non-empty and both blank. *)
Definition bothBlank (a b : string) : Prop :=
  a <> "" /\ b <> "" /\ Js.trim a = "" /\ Js.trim b = "".

(** [round(100 * correct / total)] on the exact quotient, a tie going
    up, and 0 for an empty log. *)
Definition roundedPercentage (correct total : nat) : Z :=
  if (total =? 0)%nat then 0
  else (2 * (100 * Z.of_nat correct) + Z.of_nat total)
       / (2 * Z.of_nat total).

(** Each value is at most the one before it, starting below [prev]. *)
Fixpoint descending (prev : Z) (l : list Z) : Prop :=
  match l with
  | [] => True
  | x :: l' => x <= prev /\ descending x l'
  end.

(** The clock never goes back: the readings of the firings are in
    order and none is earlier than [lo]. *)
Fixpoint clockFrom (lo : Z) (evs : list Timer.Fire) : Prop :=
  match evs with
  | [] => True
  | ev :: evs' =>
      lo <= QuizGame.fireTime ev /\ clockFrom (QuizGame.fireTime ev) evs'
  end.

(** A firing that ends a run of [d] seconds started at [now0]: the
    deferred completion when [d] is 0, otherwise an interval firing
    at least [d] whole seconds after the start. *)
Definition completing (d now0 : Z) (ev : Timer.Fire) : bool :=
  match ev with
  | Timer.IntervalFires now => (0 <? d) && (now0 + 1000 * d <=? now)
  | Timer.TimeoutFires _ => d <=? 0
  end.

(** The two percentages agree for every number of correct answers out
    of [total]. *)
Definition percentageAgrees (total : nat) : bool :=
  forallb (fun correct =>
             ScoreTracker.percentageOf correct total
             =? roundedPercentage correct total)
          (seq 0 (S total)).

(** A log filled through [recordAnswer], one record per outcome. *)
Definition sampleQuestion : Question.t :=
  QuestionGenerator.generateQuestion (QuestionGenerator.mkDraw 0 12 "q_0").

Fixpoint recordMany (outcomes : list bool) (st : ScoreTracker.t)
  : ScoreTracker.t :=
  match outcomes with
  | [] => st
  | ok :: rest =>
      recordMany rest
        (snd (ScoreTracker.recordAnswer (Some sampleQuestion)
                (Some (if ok then "13" else "1")) ok 2 false 0 st))
  end.

(** Forty answers, 23 of them correct and none timed out. *)
Definition log23of40 : ScoreTracker.t :=
  recordMany (repeat true 23 ++ repeat false 17) ScoreTracker.new.

(** A timer counting down [d] seconds from the reading [s], with the
    interval armed and the two callbacks in place. *)
Definition counting {callback : Type} (onComplete onTick : callback)
    (d s : Z) (tm : Timer.t callback) : Prop :=
  Timer.isRunning tm = true
  /\ Timer.isPaused tm = false
  /\ Timer.intervalId tm = true
  /\ Timer.onTickCallback tm = Some onTick
  /\ Timer.onCompleteCallback tm = Some onComplete
  /\ Timer.duration tm = d
  /\ Timer.startTime tm = s
  /\ Timer.pendingTimeouts tm = 0%nat.

(** A stopped timer: nothing armed and no callback kept. *)
Definition stopped {callback : Type} (tm : Timer.t callback) : Prop :=
  Timer.isRunning tm = false
  /\ Timer.intervalId tm = false
  /\ Timer.onTickCallback tm = None
  /\ Timer.onCompleteCallback tm = None.

(** From [g] to [g']: either the log and the latch are as they were, or
    the latch went from open to closed and the log grew by one record. *)
Definition atMostOneMore (g g' : QuizGame.t) : Prop :=
  (QuizGame.records g' = QuizGame.records g
   /\ QuizGame.isWaitingForNextQuestion g'
      = QuizGame.isWaitingForNextQuestion g)
  \/ (QuizGame.isWaitingForNextQuestion g = false
      /\ QuizGame.isWaitingForNextQuestion g' = true
      /\ exists r, QuizGame.records g' = QuizGame.records g ++ [r]).

(** What holds of every controller state the events can produce: the
    latch is closed only with the timer stopped, an active session
    with a running timer has a current question, and the tick callback
    of the timer is never the timeout handler. *)
Definition reachableInvariant (g : QuizGame.t) : Prop :=
  (QuizGame.isWaitingForNextQuestion g = true ->
   Timer.isRunning (QuizGame.timer g) = false)
  /\ (QuizGame.status (QuizGame.gameState g) = QuizGame.Active ->
      Timer.isRunning (QuizGame.timer g) = true ->
      QuizGame.currentQuestion g <> None)
  /\ Timer.onTickCallback (QuizGame.timer g)
     <> Some QuizGame.HandleTimerComplete.

(** A fixed sequence of draws, and the quiz it starts at reading 0. *)
Definition sampleDraws (i : nat) : QuestionGenerator.Draw :=
  QuestionGenerator.mkDraw i (3 * i + 1) "q".

Definition startedQuiz : QuizGame.t :=
  QuizGame.run QuizGame.new [QuizGame.StartQuiz 0 sampleDraws].

(** Playing [n] questions: each is answered by [answer] (or left to
    time out when [answer] gives nothing), then the feedback delay
    elapses. *)
Fixpoint play (n : nat) (answer : Question.t -> Js.value) (now : Z)
    (g : QuizGame.t) : QuizGame.t :=
  match n with
  | O => g
  | S n' =>
      let g1 :=
        match QuizGame.currentQuestion g with
        | Some q =>
            match answer q with
            | Some a => QuizGame.submitAnswer (Some a) (now + 3000) g
            | None =>
                QuizGame.timerFires (Timer.IntervalFires (now + 10000)) g
            end
        | None => g
        end in
      play n' answer (now + 12000)
           (QuizGame.feedbackDelayElapsed (now + 12000) g1)
  end.

(** A string of 7-bit ASCII characters, on which the model of the
    built-ins is exact. *)
Definition asciiOnly (s : string) : bool :=
  forallb (fun c => (nat_of_ascii c <? 128)%nat) (list_ascii_of_string s).

(** What makes a question well formed: one of the two kinds, a correct
    answer that passes the validation of its kind, matches itself and
    is left alone by [sanitizeInput], and a number between 1 and 26
    that is the position of the letter in the alphabet. *)
Definition wellFormedQuestion (q : Question.t) : Prop :=
  let alphabetToNumber := (Question.type q =? "alphabet-to-number")%string in
  let number :=
    if alphabetToNumber then Question.correctAnswer q
    else Question.displayValue q in
  let letter :=
    if alphabetToNumber then Question.displayValue q
    else Question.correctAnswer q in
  In (Question.type q) QuestionGenerator.questionTypes
  /\ QuestionGenerator.isValid
       (QuestionGenerator.validateInput (Some (Question.correctAnswer q))
                                        (QuizGame.expectedTypeOf q)) = true
  /\ QuestionGenerator.validateAnswer (Some (Question.correctAnswer q))
                                      (Some (Question.correctAnswer q)) = true
  /\ Page.sanitizeInput (Some (Question.correctAnswer q))
                        (QuizGame.expectedTypeOf q)
     = Question.correctAnswer q
  /\ match Js.parseInt10 number with
     | Some position =>
         1 <= position <= 26
         /\ QuestionGenerator.letterAt (Z.to_nat position - 1) = letter
         /\ Js.numberToString position = number
     | None => False
     end.

(** Each reading is at least [gap] after the one before it, the first
    at least [gap] after [prev]. *)
Fixpoint spacedFrom (gap prev : Z) (times : list Z) : Prop :=
  match times with
  | [] => True
  | time :: times' => prev + gap <= time /\ spacedFrom gap time times'
  end.

(** The states of a timer: paused only while running, the interval
    armed only while running and not paused, and, when not running,
    no time left and no callback kept. *)
Definition timerStateMachine {callback : Type} (tm : Timer.t callback)
  : Prop :=
  (Timer.isPaused tm = true -> Timer.isRunning tm = true)
  /\ (Timer.intervalId tm = true ->
      Timer.isRunning tm = true /\ Timer.isPaused tm = false)
  /\ (Timer.isRunning tm = false ->
      Timer.timeRemaining tm = 0
      /\ Timer.onTickCallback tm = None
      /\ Timer.onCompleteCallback tm = None).

Definition isStart {callback : Type} (op : Timer.Op callback) : bool :=
  match op with
  | Timer.Start _ _ _ _ => true
  | _ => false
  end.

Definition startsNonNegative {callback : Type} (op : Timer.Op callback)
  : Prop :=
  match op with
  | Timer.Start dur _ _ _ => 0 <= dur
  | _ => True
  end.

(** A call made to one of the two given callbacks, each in its role. *)
Definition callsOnly {callback : Type} (onComplete onTick : option callback)
    (call : Timer.Call callback) : Prop :=
  match call with
  | Timer.TickCall f _ => onTick = Some f
  | Timer.CompleteCall f => onComplete = Some f
  end.

(** The record [r] describes the question [q]. *)
Definition recordOfQuestion (q : Question.t) (r : AnswerRecord.t) : Prop :=
  AnswerRecord.questionId r = Question.id q
  /\ AnswerRecord.questionType r = Question.type q
  /\ AnswerRecord.questionText r = Question.prompt q
  /\ AnswerRecord.displayValue r = Question.displayValue q
  /\ AnswerRecord.correctAnswer r = Question.correctAnswer q.

(** The kind of input the question of a record expects. *)
Definition expectedTypeOfRecord (r : AnswerRecord.t) : string :=
  if (AnswerRecord.questionType r =? "alphabet-to-number")%string
  then "number" else "letter".

(** A record that agrees with itself: a time between 0 and the limit,
    one of the two kinds, and either a timeout (incorrect, no answer,
    the full time) or an answer that is valid for the kind and marked
    correct exactly when it matches the correct answer. *)
Definition consistentRecord (r : AnswerRecord.t) : Prop :=
  0 <= AnswerRecord.timeUsed r <= CONFIG.QUESTION_TIME_LIMIT
  /\ In (AnswerRecord.questionType r) QuestionGenerator.questionTypes
  /\ (if AnswerRecord.timedOut r
      then AnswerRecord.isCorrect r = false
           /\ AnswerRecord.userAnswer r = ""
           /\ AnswerRecord.timeUsed r = CONFIG.QUESTION_TIME_LIMIT
      else AnswerRecord.isCorrect r
           = QuestionGenerator.validateAnswer
               (Some (AnswerRecord.userAnswer r))
               (Some (AnswerRecord.correctAnswer r))
           /\ QuestionGenerator.isValid
                (QuestionGenerator.validateInput
                   (Some (AnswerRecord.userAnswer r))
                   (expectedTypeOfRecord r)) = true).

(** How many records a session can hold, given where it is. *)
Definition countsInvariant (g : QuizGame.t) : Prop :=
  let n := List.length (QuizGame.records g) in
  let i := QuizGame.currentQuestionIndex (QuizGame.gameState g) in
  (n <= CONFIG.TOTAL_QUESTIONS)%nat
  /\ (n <= S i)%nat
  /\ (QuizGame.isWaitingForNextQuestion g = false -> (n <= i)%nat)
  /\ (QuizGame.status (QuizGame.gameState g) = QuizGame.Active ->
      QuizGame.isWaitingForNextQuestion g = false ->
      (i < CONFIG.TOTAL_QUESTIONS)%nat).

(** The records are numbered from 1 in order and each is consistent. *)
Definition recordsInvariant (g : QuizGame.t) : Prop :=
  forall (i : nat) (r : AnswerRecord.t),
    nth_error (QuizGame.records g) i = Some r ->
    AnswerRecord.questionNumber r = S i /\ consistentRecord r.

(** The questions are well formed, and in an active session the
    current question is the one of ten the index points at. *)
Definition questionsInvariant (g : QuizGame.t) : Prop :=
  Forall wellFormedQuestion (QuizGame.questions (QuizGame.gameState g))
  /\ (forall q, QuizGame.currentQuestion g = Some q -> wellFormedQuestion q)
  /\ (QuizGame.status (QuizGame.gameState g) = QuizGame.Active ->
      QuizGame.currentQuestion g
      = nth_error (QuizGame.questions (QuizGame.gameState g))
                  (QuizGame.currentQuestionIndex (QuizGame.gameState g))
      /\ List.length (QuizGame.questions (QuizGame.gameState g))
         = CONFIG.TOTAL_QUESTIONS).

Definition sessionInvariant (g : QuizGame.t) : Prop :=
  countsInvariant g /\ recordsInvariant g /\ questionsInvariant g.

(** Every answer the player gives to one of [questions] passes the
    input validation of the question's kind. *)
Definition answersValidly (answer : Question.t -> Js.value)
    (questions : list Question.t) : Prop :=
  Forall (fun q =>
            forall a, answer q = Some a ->
                      QuestionGenerator.isValid
                        (QuestionGenerator.validateInput
                           (Some a) (QuizGame.expectedTypeOf q)) = true)
         questions.

(** The record [play] leaves for the question [q]: the answer given
    after three seconds, or a timeout. *)
Definition playedRecord (answer : Question.t -> Js.value)
    (q : Question.t) (r : AnswerRecord.t) : Prop :=
  recordOfQuestion q r
  /\ match answer q with
     | Some a =>
         AnswerRecord.timedOut r = false
         /\ AnswerRecord.userAnswer r = a
         /\ AnswerRecord.isCorrect r
            = QuestionGenerator.validateAnswer
                (Some a) (Some (Question.correctAnswer q))
         /\ AnswerRecord.timeUsed r = 3
     | None =>
         AnswerRecord.timedOut r = true
         /\ AnswerRecord.userAnswer r = ""
         /\ AnswerRecord.isCorrect r = false
         /\ AnswerRecord.timeUsed r = CONFIG.QUESTION_TIME_LIMIT
     end.

(** Whether the player's answer to [q] matches the correct one. *)
Definition answeredCorrectly (answer : Question.t -> Js.value)
    (q : Question.t) : bool :=
  match answer q with
  | Some a =>
      QuestionGenerator.validateAnswer
        (Some a) (Some (Question.correctAnswer q))
  | None => false
  end.

(** The controller shows question [k] of [questions] since the reading
    [now] and awaits the answer, with the first [k] questions played. *)
Definition awaiting (answer : Question.t -> Js.value)
    (questions : list Question.t) (k : nat) (now : Z) (g : QuizGame.t)
  : Prop :=
  QuizGame.status (QuizGame.gameState g) = QuizGame.Active
  /\ QuizGame.currentQuestionIndex (QuizGame.gameState g) = k
  /\ QuizGame.questions (QuizGame.gameState g) = questions
  /\ QuizGame.isWaitingForNextQuestion g = false
  /\ QuizGame.currentQuestion g = nth_error questions k
  /\ QuizGame.currentQuestionStartTime g = Some now
  /\ QuizGame.pendingAdvances g = 0%nat
  /\ counting QuizGame.HandleTimerComplete QuizGame.HandleTimerTick
              CONFIG.QUESTION_TIME_LIMIT now (QuizGame.timer g)
  /\ Timer.timeRemaining (QuizGame.timer g) = CONFIG.QUESTION_TIME_LIMIT
  /\ Forall2 (playedRecord answer) (firstn k questions) (QuizGame.records g)
  /\ map AnswerRecord.questionNumber (QuizGame.records g) = seq 1 k.

(** A player who gives the correct answer when shown a letter and
    lets the questions that show a number time out. *)
Definition answersLetters (q : Question.t) : Js.value :=
  if (Question.type q =? "alphabet-to-number")%string
  then Some (Question.correctAnswer q) else None.

(** The invariant of an answer record. *)
Definition recordInvariant (r : AnswerRecord.t) : Prop :=
  AnswerRecord.timedOut r = true ->
  AnswerRecord.isCorrect r = false
  /\ AnswerRecord.userAnswer r = ""
  /\ AnswerRecord.timeUsed r = CONFIG.QUESTION_TIME_LIMIT.

End Spec.

(** * Properties *)

(** ** Strings *)

Section StringFacts.

Lemma dropWhile_idem {A : Type} (p : A -> bool) (l : list A) :
  Js.dropWhile p (Js.dropWhile p l) = Js.dropWhile p l.
Proof.
  induction l as [|x l IH]; simpl; [reflexivity|].
  destruct (p x) eqn:Hp; [exact IH|].
  simpl. now rewrite Hp.
Qed.

Lemma dropWhile_head {A : Type} (p : A -> bool) (l : list A) h t :
  Js.dropWhile p l = h :: t -> p h = false.
Proof.
  induction l as [|x l IH]; simpl; [discriminate|].
  destruct (p x) eqn:Hp; [exact IH|].
  intros E. injection E as -> _. exact Hp.
Qed.

Lemma dropWhile_snoc {A : Type} (p : A -> bool) (l : list A) x :
  p x = false -> Js.dropWhile p (l ++ [x]) = Js.dropWhile p l ++ [x].
Proof.
  intros Hx. induction l as [|y l IH]; simpl.
  - now rewrite Hx.
  - destruct (p y); [exact IH | reflexivity].
Qed.

Lemma dropWhile_map {A : Type} (p : A -> bool) (f : A -> A) (l : list A) :
  (forall x, p (f x) = p x) ->
  Js.dropWhile p (map f l) = map f (Js.dropWhile p l).
Proof.
  intros Hf. induction l as [|y l IH]; simpl; [reflexivity|].
  rewrite Hf. destruct (p y); [exact IH | reflexivity].
Qed.

Lemma trimChars_cases (l : list ascii) :
  Js.trimChars l = []
  \/ exists h z, Js.isWhiteSpace h = false
                 /\ Js.dropWhile Js.isWhiteSpace z = z
                 /\ Js.trimChars l = h :: rev z.
Proof.
  unfold Js.trimChars.
  destruct (Js.dropWhile Js.isWhiteSpace l) as [|h t] eqn:E.
  - left. reflexivity.
  - right. pose proof (dropWhile_head _ _ _ _ E) as Hh.
    exists h, (Js.dropWhile Js.isWhiteSpace (rev t)).
    split; [exact Hh|]. split; [apply dropWhile_idem|].
    simpl rev. rewrite dropWhile_snoc by exact Hh.
    rewrite rev_app_distr. reflexivity.
Qed.

Lemma trimChars_idem (l : list ascii) :
  Js.trimChars (Js.trimChars l) = Js.trimChars l.
Proof.
  destruct (trimChars_cases l) as [E | (h & z & Hh & Hz & E)]; rewrite E.
  - reflexivity.
  - unfold Js.trimChars. simpl Js.dropWhile. rewrite Hh.
    simpl rev. rewrite rev_involutive.
    rewrite dropWhile_snoc by exact Hh.
    rewrite Hz, rev_app_distr. reflexivity.
Qed.

Lemma isWhiteSpace_upperChar (c : ascii) :
  Js.isWhiteSpace (Js.upperChar c) = Js.isWhiteSpace c.
Proof. destruct c as [[] [] [] [] [] [] [] []]; reflexivity. Qed.

Lemma upperChar_idem (c : ascii) :
  Js.upperChar (Js.upperChar c) = Js.upperChar c.
Proof. destruct c as [[] [] [] [] [] [] [] []]; reflexivity. Qed.

Lemma trimChars_map_upper (l : list ascii) :
  Js.trimChars (map Js.upperChar l) = map Js.upperChar (Js.trimChars l).
Proof.
  unfold Js.trimChars.
  rewrite (dropWhile_map _ _ _ isWhiteSpace_upperChar).
  rewrite <- map_rev.
  rewrite (dropWhile_map _ _ _ isWhiteSpace_upperChar).
  now rewrite map_rev.
Qed.

Lemma normalizeAnswer_chars (s : string) :
  QuestionGenerator.normalizeAnswer s
  = string_of_list_ascii
      (map Js.upperChar (Js.trimChars (list_ascii_of_string s))).
Proof.
  unfold QuestionGenerator.normalizeAnswer, Js.toUpperCase, Js.trim.
  now rewrite list_ascii_of_string_of_list_ascii.
Qed.

Lemma normalizeAnswer_idem (s : string) :
  QuestionGenerator.normalizeAnswer (QuestionGenerator.normalizeAnswer s)
  = QuestionGenerator.normalizeAnswer s.
Proof.
  rewrite (normalizeAnswer_chars (QuestionGenerator.normalizeAnswer s)).
  rewrite (normalizeAnswer_chars s).
  rewrite list_ascii_of_string_of_list_ascii.
  rewrite trimChars_map_upper, trimChars_idem, map_map.
  f_equal. apply map_ext. intros c. apply upperChar_idem.
Qed.

Lemma normalizeAnswer_empty_iff (s : string) :
  QuestionGenerator.normalizeAnswer s = "" <-> Js.trim s = "".
Proof.
  rewrite normalizeAnswer_chars. unfold Js.trim.
  destruct (Js.trimChars (list_ascii_of_string s)); simpl.
  - tauto.
  - split; discriminate.
Qed.

Lemma trim_empty : Js.trim "" = "".
Proof. reflexivity. Qed.

Lemma string_eqb_empty (s : string) : (s =? "")%string = true <-> s = "".
Proof. apply String.eqb_eq. Qed.

Lemma truthy_some (s : string) : Js.truthy (Some s) = true <-> s <> "".
Proof.
  unfold Js.truthy. destruct (String.eqb_spec s ""); simpl; split;
    congruence.
Qed.

End StringFacts.

(** The comparison made by [validateAnswer] on two strings. *)
Lemma validateAnswer_strings (a b : string) :
  QuestionGenerator.validateAnswer (Some a) (Some b) = true
  <-> a <> "" /\ b <> ""
      /\ QuestionGenerator.normalizeAnswer a
         = QuestionGenerator.normalizeAnswer b.
Proof.
  unfold QuestionGenerator.validateAnswer.
  destruct (Js.truthy (Some a)) eqn:Ha; destruct (Js.truthy (Some b)) eqn:Hb;
    simpl; rewrite ?String.eqb_eq;
    try apply truthy_some in Ha; try apply truthy_some in Hb.
  - tauto.
  - assert (b = "") by
      (destruct (String.eqb_spec b ""); [assumption|];
       apply truthy_some in n; congruence).
    split; [discriminate | tauto].
  - assert (a = "") by
      (destruct (String.eqb_spec a ""); [assumption|];
       apply truthy_some in n; congruence).
    split; [discriminate | tauto].
  - assert (a = "") by
      (destruct (String.eqb_spec a ""); [assumption|];
       apply truthy_some in n; congruence).
    split; [discriminate | tauto].
Qed.

(** An absent argument never matches. *)
Lemma validateAnswer_absent (v : Js.value) :
  QuestionGenerator.validateAnswer None v = false
  /\ QuestionGenerator.validateAnswer v None = false
  /\ QuestionGenerator.validateAnswer (Some "") v = false
  /\ QuestionGenerator.validateAnswer v (Some "") = false.
Proof.
  repeat split; destruct v as [s|]; try reflexivity.
  unfold QuestionGenerator.validateAnswer.
  destruct (Js.truthy (Some s)); reflexivity.
Qed.

(** C3 does not hold for all strings: two blank answers match each
    other, but their normal forms, being empty, do not. *)
Lemma C3_blank_answers_differ :
  QuestionGenerator.validateAnswer (Some " ") (Some " ")
  <> QuestionGenerator.validateAnswer
       (Some (QuestionGenerator.normalizeAnswer " "))
       (Some (QuestionGenerator.normalizeAnswer " ")).
Proof. vm_compute. discriminate. Qed.

(** C3 (amended): unless [a] and [b] are both non-empty and blank,
    [validateAnswer] gives the same verdict on [a], [b] as on their
    normal forms; and every non-empty [x] matches itself. *)
Theorem C3_validateAnswer_normalized (a b x : string) :
  ~ Spec.bothBlank a b ->
  x <> "" ->
  QuestionGenerator.validateAnswer (Some a) (Some b)
  = QuestionGenerator.validateAnswer
      (Some (QuestionGenerator.normalizeAnswer a))
      (Some (QuestionGenerator.normalizeAnswer b))
  /\ QuestionGenerator.validateAnswer (Some x) (Some x) = true.
Proof.
  intros Hab Hx. split.
  - apply eq_true_iff_eq.
    rewrite !validateAnswer_strings, !normalizeAnswer_idem.
    rewrite !normalizeAnswer_empty_iff.
    unfold Spec.bothBlank in Hab.
    split.
    + intros (Ha & Hb & E). repeat split; try assumption.
      * intros Ta. apply Hab. repeat split; try assumption.
        apply normalizeAnswer_empty_iff. rewrite <- E.
        now apply normalizeAnswer_empty_iff.
      * intros Tb. apply Hab. repeat split; try assumption.
        apply normalizeAnswer_empty_iff. rewrite E.
        now apply normalizeAnswer_empty_iff.
    + intros (Ha & Hb & E). repeat split; try assumption.
      * intros ->. apply Ha. reflexivity.
      * intros ->. apply Hb. reflexivity.
  - apply validateAnswer_strings. repeat split; assumption.
Qed.

Lemma C3_validateAnswer_normalized_witness :
  QuestionGenerator.validateAnswer (Some " m") (Some "M ")
  = QuestionGenerator.validateAnswer
      (Some (QuestionGenerator.normalizeAnswer " m"))
      (Some (QuestionGenerator.normalizeAnswer "M "))
  /\ QuestionGenerator.validateAnswer (Some "13") (Some "13") = true.
Proof.
  apply (C3_validateAnswer_normalized " m" "M " "13").
  - unfold Spec.bothBlank. vm_compute. intros (_ & _ & H & _). discriminate H.
  - discriminate.
Defined.

(** When both answers are non-empty and blank the two verdicts are
    [true] and [false]. *)
Lemma validateAnswer_bothBlank (a b : string) :
  Spec.bothBlank a b ->
  QuestionGenerator.validateAnswer (Some a) (Some b) = true
  /\ QuestionGenerator.validateAnswer
       (Some (QuestionGenerator.normalizeAnswer a))
       (Some (QuestionGenerator.normalizeAnswer b)) = false.
Proof.
  intros (Ha & Hb & Ta & Tb). split.
  - apply validateAnswer_strings. repeat split; try assumption.
    apply normalizeAnswer_empty_iff in Ta, Tb. congruence.
  - apply normalizeAnswer_empty_iff in Ta. rewrite Ta.
    apply validateAnswer_absent.
Qed.


(** ** Well-formed numbers *)

Lemma canonicalNumbers_complete (n : Z) :
  1 <= n <= 26 -> In (Js.numberToString n) Spec.canonicalNumbers.
Proof.
  intros Hn.
  replace n with (Z.of_nat (Z.to_nat n)) by lia.
  assert (Hk : (Z.to_nat n <= 26)%nat) by lia.
  assert (H0 : (1 <= Z.to_nat n)%nat) by lia.
  revert Hk H0. generalize (Z.to_nat n) as k. intros k Hk H0.
  destruct k as [|k]; [lia|].
  do 26 (destruct k as [|k]; [vm_compute; tauto|]).
  lia.
Qed.

Lemma canonicalNumbers_parse (s : string) :
  In s Spec.canonicalNumbers ->
  exists n, 1 <= n <= 26 /\ s = Js.numberToString n
            /\ Js.parseInt10 s = Some n.
Proof.
  unfold Spec.canonicalNumbers. intros H.
  repeat (destruct H as [H|H];
          [subst s; eexists; split; [|split];
           [| |vm_compute; reflexivity]; [lia | reflexivity]|]).
  destruct H.
Qed.

(** C7: [isValidNumber] accepts a string exactly when, once trimmed, it
    is the decimal rendering of an integer between 1 and 26; these
    renderings are the 26 strings of [Spec.canonicalNumbers]. *)
Theorem C7_isValidNumber_iff (s : string) :
  (QuestionGenerator.isValidNumber (Some s) = true
   <-> exists n, 1 <= n <= 26 /\ Js.trim s = Js.numberToString n)
  /\ (QuestionGenerator.isValidNumber (Some s) = true
      <-> In (Js.trim s) Spec.canonicalNumbers).
Proof.
  assert (Hfwd : QuestionGenerator.isValidNumber (Some s) = true ->
                 exists n, 1 <= n <= 26 /\ Js.trim s = Js.numberToString n).
  { unfold QuestionGenerator.isValidNumber.
    destruct (Js.truthy (Some s)); simpl; [|discriminate].
    destruct (Js.parseInt10 (Js.trim s)) as [number|]; [|discriminate].
    unfold CONFIG.MIN_NUMBER, CONFIG.MAX_NUMBER.
    rewrite !andb_true_iff, String.eqb_eq, !Z.leb_le.
    intros [[E H1] H2]. exists number. split; [lia | now symmetry]. }
  assert (Hbwd : In (Js.trim s) Spec.canonicalNumbers ->
                 QuestionGenerator.isValidNumber (Some s) = true).
  { intros Hin.
    assert (Hs : Js.truthy (Some s) = true).
    { apply truthy_some. intros ->. revert Hin. vm_compute.
      intuition discriminate. }
    destruct (canonicalNumbers_parse _ Hin) as (n & Hn & E & P).
    unfold QuestionGenerator.isValidNumber. rewrite Hs. simpl.
    rewrite P. unfold CONFIG.MIN_NUMBER, CONFIG.MAX_NUMBER.
    rewrite !andb_true_iff, String.eqb_eq, !Z.leb_le.
    repeat split; try lia. now symmetry. }
  split; split.
  - exact Hfwd.
  - intros (n & Hn & E). apply Hbwd. rewrite E.
    now apply canonicalNumbers_complete.
  - intros H. destruct (Hfwd H) as (n & Hn & E). rewrite E.
    now apply canonicalNumbers_complete.
  - exact Hbwd.
Qed.

(** Neither an absent nor an empty input is a number. *)
Lemma isValidNumber_absent :
  QuestionGenerator.isValidNumber None = false
  /\ QuestionGenerator.isValidNumber (Some "") = false.
Proof. split; reflexivity. Qed.

(** Renderings that are not canonical are refused: a leading zero, a
    sign, a decimal point, trailing text, and the neighbours of the
    range. *)
Lemma isValidNumber_refuses :
  map (fun s => QuestionGenerator.isValidNumber (Some s))
      ["013"; "+5"; "-5"; "5.0"; "5 apples"; "0"; "27"; "1e1"; "  "]
  = [false; false; false; false; false; false; false; false; false].
Proof. vm_compute. reflexivity. Qed.

(** ** Validation of the input *)

Lemma validateInput_invalid_message (input : Js.value) (expectedType : string) :
  QuestionGenerator.isValid
    (QuestionGenerator.validateInput input expectedType) = false ->
  exists message,
    QuestionGenerator.errorMessage
      (QuestionGenerator.validateInput input expectedType) = Some message.
Proof.
  unfold QuestionGenerator.validateInput.
  destruct (QuestionGenerator.isBlank input); simpl; [eauto|].
  destruct (expectedType =? "letter")%string.
  - destruct (QuestionGenerator.isValidLetter input); simpl;
      [discriminate | eauto].
  - destruct (expectedType =? "number")%string; [|discriminate].
    destruct (QuestionGenerator.isValidNumber input); simpl;
      [discriminate | eauto].
Qed.

(** C10: with an expected type that is neither ["letter"] nor
    ["number"], every input string that is not blank (something is
    left of it after trimming) is accepted, with no message and no
    check of its form. *)
Theorem C10_validateInput_unknown_type (s expectedType : string) :
  Js.trim s <> "" ->
  expectedType <> "letter" ->
  expectedType <> "number" ->
  QuestionGenerator.validateInput (Some s) expectedType
  = QuestionGenerator.mkValidation true None.
Proof.
  intros Ht Hl Hn. unfold QuestionGenerator.validateInput,
    QuestionGenerator.isBlank.
  assert (Hs : s <> "") by (intros ->; apply Ht, trim_empty).
  apply truthy_some in Hs. rewrite Hs. simpl.
  apply String.eqb_neq in Ht, Hl, Hn. now rewrite Ht, Hl, Hn.
Qed.

Lemma C10_validateInput_unknown_type_witness :
  QuestionGenerator.validateInput (Some "4x!") "word"
  = QuestionGenerator.mkValidation true None.
Proof.
  apply (C10_validateInput_unknown_type "4x!" "word").
  - vm_compute. discriminate.
  - discriminate.
  - discriminate.
Defined.


(** ** Recording answers *)

(** C8: [recordAnswer] throws exactly when the question is absent, and
    then leaves the tracker as it was; otherwise it appends one record,
    numbered one more than the length of the log, whose time is the
    given one clamped between 0 and the time limit. *)
Theorem C8_recordAnswer (st : ScoreTracker.t) (question : option Question.t)
    (userAnswer : Js.value) (isCorrect : bool) (timeUsed : Z)
    (timedOut : bool) (now : Z) :
  let '(result, st') :=
    ScoreTracker.recordAnswer question userAnswer isCorrect timeUsed
                              timedOut now st in
  (Throwing.threw result = true <-> question = None)
  /\ (Throwing.threw result = true ->
      result = inl (Throwing.MkError "Question object is required")
      /\ st' = st)
  /\ (Throwing.threw result = false ->
      exists r,
        ScoreTracker.answerRecords st' = ScoreTracker.answerRecords st ++ [r]
        /\ AnswerRecord.questionNumber r
           = S (List.length (ScoreTracker.answerRecords st))
        /\ AnswerRecord.timeUsed r
           = Z.max 0 (Z.min timeUsed CONFIG.QUESTION_TIME_LIMIT)
        /\ 0 <= AnswerRecord.timeUsed r <= CONFIG.QUESTION_TIME_LIMIT
        /\ (0 <= timeUsed <= CONFIG.QUESTION_TIME_LIMIT ->
            AnswerRecord.timeUsed r = timeUsed)
        /\ AnswerRecord.isCorrect r = isCorrect
        /\ AnswerRecord.timedOut r = timedOut
        /\ AnswerRecord.userAnswer r = ScoreTracker.orEmpty userAnswer).
Proof.
  destruct question as [q|]; cbn.
  - split; [split; discriminate|]. split; [discriminate|]. intros _.
    eexists. split; [reflexivity|]. cbn.
    unfold CONFIG.QUESTION_TIME_LIMIT.
    repeat split; lia.
  - split; [split; reflexivity|]. split; [tauto | discriminate].
Qed.

(** What [recordAnswer] does with a question at hand. *)
Lemma recordAnswer_some (st : ScoreTracker.t) (q : Question.t)
    (userAnswer : Js.value) (isCorrect : bool) (timeUsed : Z)
    (timedOut : bool) (now : Z) :
  exists r,
    ScoreTracker.recordAnswer (Some q) userAnswer isCorrect timeUsed
                              timedOut now st
    = (inr tt, ScoreTracker.push r st)
    /\ AnswerRecord.isCorrect r = isCorrect
    /\ AnswerRecord.timedOut r = timedOut
    /\ AnswerRecord.userAnswer r = ScoreTracker.orEmpty userAnswer
    /\ AnswerRecord.timeUsed r
       = Z.max 0 (Z.min timeUsed CONFIG.QUESTION_TIME_LIMIT).
Proof. eexists. split; [cbv; reflexivity|]. cbn. tauto. Qed.

(** ** The score *)

(** The four counts of [getScore] are the counts of the specification,
    for every log. *)
Lemma getScore_counts (st : ScoreTracker.t) :
  let records := ScoreTracker.answerRecords st in
  let score := ScoreTracker.getScore st in
  ScoreTracker.correct score
  = count_occ Bool.bool_dec (map AnswerRecord.isCorrect records) true
  /\ ScoreTracker.timeout score
     = count_occ Bool.bool_dec (map AnswerRecord.timedOut records) true
  /\ ScoreTracker.incorrect score
     = count_occ Bool.bool_dec
         (map (fun r => orb (AnswerRecord.isCorrect r)
                            (AnswerRecord.timedOut r)) records) false
  /\ ScoreTracker.total score = List.length records
  /\ (records = [] -> ScoreTracker.percentage score = 0).
Proof.
  cbn zeta. unfold ScoreTracker.getScore. cbn.
  repeat split.
  - induction (ScoreTracker.answerRecords st) as [|r l IH]; cbn;
      [reflexivity|]. destruct (AnswerRecord.isCorrect r); cbn; now rewrite IH.
  - induction (ScoreTracker.answerRecords st) as [|r l IH]; cbn;
      [reflexivity|]. destruct (AnswerRecord.timedOut r); cbn; now rewrite IH.
  - induction (ScoreTracker.answerRecords st) as [|r l IH]; cbn;
      [reflexivity|].
    destruct (AnswerRecord.isCorrect r), (AnswerRecord.timedOut r); cbn;
      now rewrite IH.
  - intros ->. reflexivity.
Qed.

(** Up to 39 records the double-precision percentage is the rounded
    exact one. *)
Lemma percentageOf_below_40 (correct total : nat) :
  (correct <= total)%nat -> (total < 40)%nat ->
  ScoreTracker.percentageOf correct total
  = Spec.roundedPercentage correct total.
Proof.
  intros Hc Ht.
  assert (Hall : forallb Spec.percentageAgrees (seq 0 40) = true)
    by (vm_compute; reflexivity).
  rewrite forallb_forall in Hall.
  specialize (Hall total). unfold Spec.percentageAgrees in Hall.
  rewrite forallb_forall in Hall.
  apply Z.eqb_eq, Hall; apply in_seq; lia.
Qed.

Lemma filter_length_le {A : Type} (p : A -> bool) (l : list A) :
  (List.length (filter p l) <= List.length l)%nat.
Proof.
  induction l as [|x l IH]; cbn; [lia|]. destruct (p x); cbn; lia.
Qed.

(** Hence, for every log of fewer than 40 records (a quiz has 10),
    [getScore] returns the percentage of the specification. *)
Lemma getScore_percentage_below_40 (st : ScoreTracker.t) :
  (List.length (ScoreTracker.answerRecords st) < 40)%nat ->
  ScoreTracker.percentage (ScoreTracker.getScore st)
  = Spec.roundedPercentage
      (ScoreTracker.correct (ScoreTracker.getScore st))
      (ScoreTracker.total (ScoreTracker.getScore st)).
Proof.
  intros H. unfold ScoreTracker.getScore. cbn.
  apply percentageOf_below_40; [apply filter_length_le | exact H].
Qed.

Lemma getScore_percentage_below_40_witness :
  let st := Spec.recordMany [true; true; false] ScoreTracker.new in
  ScoreTracker.percentage (ScoreTracker.getScore st)
  = Spec.roundedPercentage
      (ScoreTracker.correct (ScoreTracker.getScore st))
      (ScoreTracker.total (ScoreTracker.getScore st)).
Proof.
  intros st. apply (getScore_percentage_below_40 st). vm_compute. lia.
Defined.

(** C9, at a log of 40 records with 23 correct: the counts are right,
    but [(23 / 40) * 100] is the double 57.49999999999999, which
    [Math.round] takes to 57, whereas 100 * 23 / 40 is 57.5, which
    rounds to 58. *)
Theorem C9_getScore_23_of_40 :
  ScoreTracker.getScore Spec.log23of40
  = ScoreTracker.mkScore 23 17 0 40 57
  /\ Spec.roundedPercentage 23 40 = 58.
Proof. split; vm_compute; reflexivity. Qed.


(** ** The timer: pause and resume *)






(** ** The timer: one uninterrupted run *)

Section TimerRun.

Variable callback : Type.
Variables onComplete onTick : callback.

(** A stopped timer makes no call, whatever the scheduler still runs. *)
Lemma fireAll_stopped (evs : list Timer.Fire) (tm : Timer.t callback) :
  Spec.stopped tm ->
  snd (Timer.fireAll evs tm) = []
  /\ Timer.isRunning (fst (Timer.fireAll evs tm)) = false.
Proof.
  revert tm. induction evs as [|ev evs IH]; intros tm Hs.
  - split; [reflexivity | apply Hs].
  - destruct Hs as (Hr & Hi & Ht & Hc). cbn [Timer.fireAll].
    assert (Hfire : exists tm1, Timer.fire ev tm = (tm1, [])
                                /\ Spec.stopped tm1).
    { destruct ev as [now|now]; cbn [Timer.fire].
      - rewrite Hi. exists tm. split; [reflexivity|].
        repeat split; assumption.
      - destruct (Timer.pendingTimeouts tm) eqn:Hp.
        + exists tm. split; [reflexivity|]. repeat split; assumption.
        + unfold Timer.handleTimerComplete. cbn. rewrite Hc. cbn.
          eexists. split; [reflexivity|]. repeat split. }
    destruct Hfire as (tm1 & E & Hs1). rewrite E.
    destruct (IH tm1 Hs1) as (Hcalls & Hrun).
    destruct (Timer.fireAll evs tm1) as [tm2 calls2]. cbn in *.
    subst calls2. split; [reflexivity | exact Hrun].
Qed.

Lemma stop_stopped (tm : Timer.t callback) : Spec.stopped (Timer.stop tm).
Proof. repeat split. Qed.

(** One interval firing of a counting timer: it reports the remaining
    whole seconds, and completes when none is left. *)
Lemma fire_interval_counting (d s now : Z) (tm : Timer.t callback) :
  Spec.counting onComplete onTick d s tm ->
  let remaining := Z.max 0 (d - (now - s) / 1000) in
  exists tm1,
    Timer.fire (Timer.IntervalFires now) tm
    = (tm1, if remaining <=? 0
            then [Timer.TickCall onTick remaining;
                  Timer.CompleteCall onComplete]
            else [Timer.TickCall onTick remaining])
    /\ (if remaining <=? 0 then Spec.stopped tm1
        else Spec.counting onComplete onTick d s tm1).
Proof.
  intros (Hr & Hp & Hi & Ht & Hc & Hd & Hs & Hn) remaining.
  destruct tm as [d' rem iv run onT onC s' pt pa pend].
  cbn in Hr, Hp, Hi, Ht, Hc, Hd, Hs, Hn. subst.
  cbn [Timer.fire Timer.intervalId]. unfold Timer.tick. cbn.
  fold remaining. destruct (remaining <=? 0); cbn.
  - eexists. split; [reflexivity|]. repeat split.
  - eexists. split; [reflexivity|]. repeat split.
Qed.

Lemma fire_timeout_counting (d s now : Z) (tm : Timer.t callback) :
  Spec.counting onComplete onTick d s tm ->
  Timer.fire (Timer.TimeoutFires now) tm = (tm, []).
Proof.
  intros (_ & _ & _ & _ & _ & _ & _ & Hn). cbn. now rewrite Hn.
Qed.

Lemma descending_snoc_zero (prev : Z) : 0 <= prev -> Spec.descending prev [0].
Proof. intros H. split; [exact H | exact I]. Qed.

(** A counting timer whose clock does not go back, and whose interval
    eventually fires [d] seconds after the start, reports a descending
    sequence of remaining times that ends with 0, then completes
    once and stops. *)
Lemma fireAll_counting (d s : Z) (evs : list Timer.Fire) :
  0 < d ->
  forall (tm : Timer.t callback) (lo prev : Z),
    Spec.counting onComplete onTick d s tm ->
    s <= lo ->
    Spec.clockFrom lo evs ->
    existsb (Spec.completing d s) evs = true ->
    Z.max 0 (d - (lo - s) / 1000) <= prev ->
    exists rest,
      snd (Timer.fireAll evs tm)
      = map (Timer.TickCall onTick) (rest ++ [0])
        ++ [Timer.CompleteCall onComplete]
      /\ Spec.descending prev (rest ++ [0])
      /\ Timer.isRunning (fst (Timer.fireAll evs tm)) = false.
Proof.
  intros Hd. induction evs as [|ev evs IH];
    intros tm lo prev Hc Hlo Hclock Hex Hprev; [discriminate|].
  cbn [Spec.clockFrom] in Hclock. destruct Hclock as [Hle Hclock].
  cbn [existsb] in Hex. cbn [Timer.fireAll].
  assert (Hmono : forall now, lo <= now ->
            Z.max 0 (d - (now - s) / 1000) <= prev).
  { intros now Hnow.
    assert ((lo - s) / 1000 <= (now - s) / 1000)
      by (apply Z.div_le_mono; lia).
    lia. }
  destruct ev as [now|now]; cbn [QuizGame.fireTime] in Hle, Hclock.
  - destruct (fire_interval_counting d s now tm Hc) as (tm1 & E & Hnext).
    cbn zeta in E, Hnext. rewrite E. clear E.
    specialize (Hmono now Hle).
    destruct (Z.max 0 (d - (now - s) / 1000) <=? 0) eqn:Hz.
    + apply Z.leb_le in Hz.
      assert (Hr0 : Z.max 0 (d - (now - s) / 1000) = 0) by lia.
      rewrite Hr0 in *.
      destruct (fireAll_stopped evs tm1 Hnext) as (Hcalls & Hrun).
      destruct (Timer.fireAll evs tm1) as [tm2 calls2]. cbn in *.
      subst calls2. exists []. cbn.
      split; [reflexivity|]. split; [|exact Hrun].
      split; [lia | exact I].
    + apply Z.leb_gt in Hz.
      assert (Hnot : Spec.completing d s (Timer.IntervalFires now) = false).
      { unfold Spec.completing. apply andb_false_iff. right.
        apply Z.leb_gt.
        assert ((now - s) / 1000 < d) by lia.
        assert (Hdiv : now - s < 1000 * d).
        { destruct (Z_lt_le_dec (now - s) (1000 * d)) as [Hlt|Hge];
            [exact Hlt|].
          apply Z.div_le_lower_bound in Hge; lia. }
        lia. }
      rewrite Hnot in Hex. cbn in Hex.
      assert (Hs : s <= now) by lia.
      destruct (IH tm1 now (Z.max 0 (d - (now - s) / 1000)) Hnext Hs
                   Hclock Hex (Z.le_refl _)) as (rest & Hcalls & Hdesc & Hrun).
      destruct (Timer.fireAll evs tm1) as [tm2 calls2]. cbn in *.
      subst calls2.
      exists (Z.max 0 (d - (now - s) / 1000) :: rest). cbn.
      split; [reflexivity|]. split; [|exact Hrun].
      split; [exact Hmono | exact Hdesc].
  - rewrite (fire_timeout_counting d s now tm Hc).
    assert (Hnot : Spec.completing d s (Timer.TimeoutFires now) = false)
      by (unfold Spec.completing; apply Z.leb_gt; lia).
    rewrite Hnot in Hex. cbn in Hex.
    assert (Hs : s <= now) by lia.
    destruct (IH tm now prev Hc Hs Hclock Hex (Hmono now Hle))
      as (rest & Hcalls & Hdesc & Hrun).
    destruct (Timer.fireAll evs tm) as [tm2 calls2]. cbn in *.
    exists rest. auto.
Qed.

(** A timer started with a duration of 0 waits for its deferred
    completion; an interval left armed may report 0 once more before
    it. *)
Lemma fireAll_deferred (s : Z) (evs : list Timer.Fire) :
  forall (tm : Timer.t callback),
    Timer.isRunning tm = true ->
    Timer.isPaused tm = false ->
    Timer.onTickCallback tm = Some onTick ->
    Timer.onCompleteCallback tm = Some onComplete ->
    Timer.duration tm = 0 ->
    Timer.startTime tm = s ->
    (0 < Timer.pendingTimeouts tm)%nat ->
    Spec.clockFrom s evs ->
    existsb (Spec.completing 0 s) evs = true ->
    exists rest,
      snd (Timer.fireAll evs tm)
      = map (Timer.TickCall onTick) rest ++ [Timer.CompleteCall onComplete]
      /\ Spec.descending 0 rest
      /\ last (0 :: rest) 0 = 0
      /\ Timer.isRunning (fst (Timer.fireAll evs tm)) = false.
Proof.
  induction evs as [|ev evs IH];
    intros tm Hr Hp Ht Hc Hd Hs Hn Hclock Hex; [discriminate|].
  cbn [Spec.clockFrom] in Hclock. destruct Hclock as [Hle Hclock].
  cbn [existsb] in Hex. cbn [Timer.fireAll].
  assert (Hclock' : Spec.clockFrom s evs).
  { destruct evs as [|ev' evs']; [exact I|].
    cbn [Spec.clockFrom] in *. split; [lia | apply Hclock]. }
  destruct tm as [d' rem iv run onT onC s' pt pa pend].
  cbn in Hr, Hp, Ht, Hc, Hd, Hs, Hn. subst.
  destruct ev as [now|now]; cbn [QuizGame.fireTime] in Hle.
  - cbn [Timer.fire Timer.intervalId]. destruct iv.
    + unfold Timer.tick. cbn -[Z.max Z.sub Z.div Z.leb].
      assert (Hz : Z.max 0 (0 - (now - s) / 1000) = 0).
      { assert (0 <= (now - s) / 1000) by (apply Z.div_pos; lia). lia. }
      rewrite Hz. cbn.
      match goal with
      | |- context [Timer.fireAll evs ?t] =>
          destruct (fireAll_stopped evs t) as (Hcalls & Hrun);
          [repeat split|];
          destruct (Timer.fireAll evs t) as [tm2 calls2]
      end.
      cbn in *. subst calls2. exists [0]. cbn.
      repeat split; try lia. exact Hrun.
    + cbn in Hex.
      match goal with
      | |- context [Timer.fireAll evs ?t] =>
          destruct (IH t) as (rest & Hcalls & Hdesc & Hlast & Hrun);
          try reflexivity; try assumption;
          destruct (Timer.fireAll evs t) as [tm2 calls2]
      end.
      cbn in *. exists rest. auto.
  - cbn [Timer.fire Timer.pendingTimeouts]. destruct pend as [|pend]; [lia|].
    unfold Timer.handleTimerComplete. cbn.
    match goal with
    | |- context [Timer.fireAll evs ?t] =>
        destruct (fireAll_stopped evs t) as (Hcalls & Hrun);
        [repeat split|];
        destruct (Timer.fireAll evs t) as [tm2 calls2]
    end.
    cbn in *. subst calls2. exists []. cbn.
    repeat split. exact Hrun.
Qed.

End TimerRun.

Lemma tickValues_ticks_then_complete {callback : Type} (c k : callback)
    (vs : list Z) :
  Timer.tickValues (map (Timer.TickCall k) vs ++ [Timer.CompleteCall c]) = vs
  /\ Timer.completions (map (Timer.TickCall k) vs ++ [Timer.CompleteCall c])
     = 1%nat.
Proof.
  unfold Timer.tickValues, Timer.completions.
  induction vs as [|v vs [IH1 IH2]]; cbn; [split; reflexivity|].
  cbn in IH1, IH2. rewrite IH1, IH2. split; reflexivity.
Qed.

Lemma start_pendingTimeouts {callback : Type} (tm : Timer.t callback) :
  Timer.pendingTimeouts (if Timer.isRunning tm then Timer.stop tm else tm)
  = Timer.pendingTimeouts tm.
Proof. destruct (Timer.isRunning tm); reflexivity. Qed.

(** X24. A run started with [start(d, onComplete, onTick)], [d >= 0],
    while no closure of an earlier zero-duration start is pending, and
    then left to the scheduler (a clock that does not go back, and the
    completing closure eventually run) makes these calls and no other:
    [onTick(d)] inside [start], then [onTick] with values that never
    increase and end with 0, then [onComplete] once; the timer is
    stopped afterwards. *)
Theorem timer_run_to_zero (callback : Type) (onComplete onTick : callback)
    (d now0 : Z) (evs : list Timer.Fire) (tm : Timer.t callback) :
  0 <= d ->
  Timer.pendingTimeouts tm = 0%nat ->
  Spec.clockFrom now0 evs ->
  existsb (Spec.completing d now0) evs = true ->
  let run :=
    Timer.runFrom d (Some onComplete) (Some onTick) now0 evs tm in
  exists rest,
    snd run = map (Timer.TickCall onTick) (d :: rest)
              ++ [Timer.CompleteCall onComplete]
    /\ Timer.tickValues (snd run) = d :: rest
    /\ Spec.descending d rest
    /\ last (d :: rest) d = 0
    /\ Timer.completions (snd run) = 1%nat
    /\ Timer.isRunning (fst run) = false.
Proof.
  intros Hd Hpend Hclock Hex run. subst run.
  unfold Timer.runFrom, Timer.start.
  pose proof (start_pendingTimeouts tm) as Hp0. rewrite Hpend in Hp0.
  set (tm0 := if Timer.isRunning tm then Timer.stop tm else tm) in *.
  cbn [Timer.tickCalls].
  assert (Hshape : forall (tm2 : Timer.t callback)
                          (calls2 : list (Timer.Call callback))
                          (rest : list Z),
            calls2 = map (Timer.TickCall onTick) rest
                     ++ [Timer.CompleteCall onComplete] ->
            Spec.descending d rest -> last (d :: rest) d = 0 ->
            Timer.isRunning tm2 = false ->
            exists rest0,
              snd (tm2, [Timer.TickCall onTick d] ++ calls2)
              = map (Timer.TickCall onTick) (d :: rest0)
                ++ [Timer.CompleteCall onComplete]
              /\ Timer.tickValues (snd (tm2, [Timer.TickCall onTick d] ++ calls2))
                 = d :: rest0
              /\ Spec.descending d rest0
              /\ last (d :: rest0) d = 0
              /\ Timer.completions
                   (snd (tm2, [Timer.TickCall onTick d] ++ calls2)) = 1%nat
              /\ Timer.isRunning (fst (tm2, [Timer.TickCall onTick d] ++ calls2))
                 = false).
  { intros tm2 calls2 rest -> Hdesc Hlast Hrun. exists rest.
    cbn [fst snd].
    change ([Timer.TickCall onTick d]
            ++ map (Timer.TickCall onTick) rest
            ++ [Timer.CompleteCall onComplete])
      with (map (Timer.TickCall onTick) (d :: rest)
            ++ [Timer.CompleteCall onComplete]).
    destruct (tickValues_ticks_then_complete onComplete onTick (d :: rest))
      as [E1 E2].
    rewrite E1, E2. repeat split; assumption. }
  destruct (Z.leb_spec d 0) as [Hzero|Hpos].
  - assert (d = 0) by lia. subst d.
    match goal with
    | |- context [Timer.fireAll evs ?t] =>
        destruct (fireAll_deferred callback onComplete onTick now0 evs t)
          as (rest & Hcalls & Hdesc & Hlast & Hrun);
        try reflexivity; try assumption; [cbn; lia|];
        destruct (Timer.fireAll evs t) as [tm2 calls2]
    end.
    cbn [fst snd] in Hcalls, Hrun.
    apply (Hshape tm2 calls2 rest); assumption.
  - match goal with
    | |- context [Timer.fireAll evs ?t] =>
        destruct (fireAll_counting callback onComplete onTick d now0 evs
                    Hpos t now0 d)
          as (rest & Hcalls & Hdesc & Hrun);
        [ repeat split; try reflexivity; cbn; exact Hp0
        | lia | exact Hclock | exact Hex
        | rewrite Z.sub_diag; cbn; lia
        | destruct (Timer.fireAll evs t) as [tm2 calls2] ]
    end.
    cbn [fst snd] in Hcalls, Hrun.
    apply (Hshape tm2 calls2 (rest ++ [0])); try assumption.
    change (d :: rest ++ [0]) with ((d :: rest) ++ [0]).
    apply last_last.
Qed.

Lemma timer_run_to_zero_witness :
  let evs := [Timer.IntervalFires 1100; Timer.IntervalFires 2099;
              Timer.TimeoutFires 2500; Timer.IntervalFires 3200;
              Timer.IntervalFires 4200] in
  let run := Timer.runFrom 3 (Some 1%nat) (Some 2%nat) 100 evs
                           (Timer.new nat) in
  exists rest,
    Timer.tickValues (snd run) = 3 :: rest
    /\ last (3 :: rest) 3 = 0
    /\ Timer.completions (snd run) = 1%nat.
Proof.
  intros evs run.
  destruct (timer_run_to_zero nat 1%nat 2%nat 3 100 evs (Timer.new nat))
    as (rest & _ & H1 & _ & H2 & H3 & _).
  - lia.
  - reflexivity.
  - cbn. lia.
  - reflexivity.
  - exists rest. auto.
Defined.

(** C2, at a run started while the closure of an earlier zero-duration
    start is pending.  [start(0, ...)] arms a zero-delay closure that
    completes the timer, and [stop()] clears the interval but never
    that closure.  When [start(5, onComplete, onTick)] follows on the
    same timer before the scheduler has run it, the closure completes
    the new run: nobody stops, pauses or restarts that run, the clock
    does not go back and the firings would take a run of 5 seconds to
    its end, yet the run calls [onTick(5)] and then [onComplete], so
    that its last tick is 5 and not 0. *)
Theorem C2_stale_completion :
  let earlier :=
    fst (Timer.start 0 (Some "onComplete0") (Some "onTick0") 0
                     (Timer.new string)) in
  let evs := [Timer.TimeoutFires 0; Timer.IntervalFires 1000;
              Timer.IntervalFires 2000; Timer.IntervalFires 3000;
              Timer.IntervalFires 4000; Timer.IntervalFires 5000] in
  let run :=
    Timer.runFrom 5 (Some "onComplete") (Some "onTick") 0 evs earlier in
  Timer.pendingTimeouts earlier = 1%nat
  /\ Spec.clockFrom 0 evs
  /\ existsb (Spec.completing 5 0) evs = true
  /\ snd run = [Timer.TickCall "onTick" 5; Timer.CompleteCall "onComplete"]
  /\ Timer.tickValues (snd run) = [5]
  /\ last (Timer.tickValues (snd run)) 0 <> 0
  /\ Timer.completions (snd run) = 1%nat
  /\ Timer.isRunning (fst run) = false.
Proof.
  cbn zeta.
  split; [reflexivity|]. split; [cbn; lia|]. split; [reflexivity|].
  split; [reflexivity|]. split; [reflexivity|].
  split; [vm_compute; discriminate|]. split; reflexivity.
Qed.


(** ** The controller: the two paths that record an answer *)

Lemma blocked_waiting (g : QuizGame.t) :
  QuizGame.isWaitingForNextQuestion g = true -> QuizGame.blocked g = true.
Proof. unfold QuizGame.blocked. now intros ->. Qed.

Lemma blocked_false (g : QuizGame.t) :
  QuizGame.blocked g = false ->
  QuizGame.isWaitingForNextQuestion g = false
  /\ QuizGame.status (QuizGame.gameState g) = QuizGame.Active
  /\ exists q, QuizGame.currentQuestion g = Some q.
Proof.
  unfold QuizGame.blocked. rewrite !orb_false_iff, !negb_false_iff.
  intros [[Hw Hs] Hq]. split; [exact Hw|]. split.
  - destruct (QuizGame.status (QuizGame.gameState g)); try discriminate.
    reflexivity.
  - destruct (QuizGame.currentQuestion g) as [q|]; [eauto | discriminate].
Qed.

(** The timeout handler either does nothing, or appends the record of
    a timeout and closes the latch, leaving the timer, the session and
    the question alone. *)
Lemma handleTimerComplete_cases (now : Z) (g : QuizGame.t) :
  (QuizGame.blocked g = true /\ QuizGame.handleTimerComplete now g = g)
  \/ (QuizGame.blocked g = false
      /\ exists r,
           QuizGame.records (QuizGame.handleTimerComplete now g)
           = QuizGame.records g ++ [r]
           /\ AnswerRecord.timedOut r = true
           /\ AnswerRecord.isCorrect r = false
           /\ AnswerRecord.userAnswer r = ""
           /\ AnswerRecord.timeUsed r = CONFIG.QUESTION_TIME_LIMIT
           /\ QuizGame.isWaitingForNextQuestion
                (QuizGame.handleTimerComplete now g) = true
           /\ QuizGame.timer (QuizGame.handleTimerComplete now g)
              = QuizGame.timer g
           /\ QuizGame.gameState (QuizGame.handleTimerComplete now g)
              = QuizGame.gameState g
           /\ QuizGame.currentQuestion (QuizGame.handleTimerComplete now g)
              = QuizGame.currentQuestion g).
Proof.
  unfold QuizGame.handleTimerComplete.
  destruct (QuizGame.blocked g) eqn:Hb; [left; split; reflexivity|].
  right. split; [reflexivity|].
  destruct (blocked_false g Hb) as (_ & _ & q & Hq). rewrite Hq.
  destruct (recordAnswer_some (QuizGame.scoreTracker g) q (Some "") false
              CONFIG.QUESTION_TIME_LIMIT true now)
    as (r & E & Hc & Ht & Hu & Htime).
  rewrite E. exists r. cbn. repeat split; assumption.
Qed.

(** The four ways [submitAnswer] can go. *)
Lemma submitAnswer_cases (answer : Js.value) (now : Z) (g : QuizGame.t) :
  QuizGame.submitAnswer answer now g = g
  \/ (QuizGame.blocked g = false
      /\ Timer.isActive (QuizGame.timer g) = true
      /\ 0 < Timer.getTimeRemaining (QuizGame.timer g)
      /\ exists q,
           QuizGame.currentQuestion g = Some q
           /\ let validation :=
                QuestionGenerator.validateInput answer
                  (QuizGame.expectedTypeOf q) in
              (QuestionGenerator.isValid validation = false
               /\ QuizGame.submitAnswer answer now g
                  = QuizGame.ui
                      (QuizGame.ShowInputError
                         (QuestionGenerator.errorMessage validation)) g)
              \/ (QuestionGenerator.isValid validation = true
                  /\ exists r,
                       QuizGame.records (QuizGame.submitAnswer answer now g)
                       = QuizGame.records g ++ [r]
                       /\ AnswerRecord.timedOut r = false
                       /\ QuizGame.isWaitingForNextQuestion
                            (QuizGame.submitAnswer answer now g) = true
                       /\ QuizGame.timer (QuizGame.submitAnswer answer now g)
                          = Timer.stop (QuizGame.timer g)
                       /\ QuizGame.gameState
                            (QuizGame.submitAnswer answer now g)
                          = QuizGame.gameState g
                       /\ QuizGame.currentQuestion
                            (QuizGame.submitAnswer answer now g)
                          = QuizGame.currentQuestion g)).
Proof.
  unfold QuizGame.submitAnswer.
  destruct (QuizGame.blocked g) eqn:Hb; [left; reflexivity|].
  destruct (Timer.isActive (QuizGame.timer g)) eqn:Ha; cbn [negb orb];
    [|left; reflexivity].
  destruct (Z.leb_spec (Timer.getTimeRemaining (QuizGame.timer g)) 0)
    as [Hle|Hgt]; [left; reflexivity|].
  destruct (blocked_false g Hb) as (_ & _ & q & Hq). rewrite Hq.
  right. split; [reflexivity|]. split; [reflexivity|]. split; [exact Hgt|].
  exists q. split; [reflexivity|]. cbn zeta.
  destruct (QuestionGenerator.isValid
              (QuestionGenerator.validateInput answer
                 (QuizGame.expectedTypeOf q))) eqn:Hv; cbn [negb].
  - right. split; [reflexivity|].
    cbn [QuizGame.currentQuestion QuizGame.setTimer QuizGame.scoreTracker].
    rewrite Hq.
    match goal with
    | |- context [ScoreTracker.recordAnswer (Some q) ?a ?c ?t false now ?st] =>
        destruct (recordAnswer_some st q a c t false now)
          as (r & E & _ & Ht & _)
    end.
    rewrite E. exists r. cbn. repeat split; assumption.
  - left. split; reflexivity.
Qed.

Lemma atMostOneMore_refl (g : QuizGame.t) : Spec.atMostOneMore g g.
Proof. left. split; reflexivity. Qed.

Lemma atMostOneMore_trans (g1 g2 g3 : QuizGame.t) :
  Spec.atMostOneMore g1 g2 -> Spec.atMostOneMore g2 g3 ->
  Spec.atMostOneMore g1 g3.
Proof.
  intros [[R1 W1] | (W1 & W1' & r1 & R1)] [[R2 W2] | (W2 & W2' & r2 & R2)].
  - left. split; congruence.
  - right. split; [congruence|]. split; [assumption|].
    exists r2. congruence.
  - right. split; [assumption|]. split; [congruence|].
    exists r1. congruence.
  - congruence.
Qed.

Lemma atMostOneMore_same (g g' : QuizGame.t) :
  QuizGame.scoreTracker g' = QuizGame.scoreTracker g ->
  QuizGame.isWaitingForNextQuestion g' = QuizGame.isWaitingForNextQuestion g ->
  Spec.atMostOneMore g g'.
Proof. intros Hs Hw. left. unfold QuizGame.records. now rewrite Hs, Hw. Qed.

Lemma handleTimerComplete_atMostOneMore (now : Z) (g : QuizGame.t) :
  Spec.atMostOneMore g (QuizGame.handleTimerComplete now g).
Proof.
  destruct (handleTimerComplete_cases now g)
    as [[_ E] | (Hb & r & Hr & _ & _ & _ & _ & Hw & _)].
  - rewrite E. apply atMostOneMore_refl.
  - right. split; [apply (blocked_false g Hb)|]. split; [exact Hw|].
    exists r. exact Hr.
Qed.

Lemma submitAnswer_atMostOneMore (answer : Js.value) (now : Z)
    (g : QuizGame.t) :
  Spec.atMostOneMore g (QuizGame.submitAnswer answer now g).
Proof.
  destruct (submitAnswer_cases answer now g)
    as [E | (Hb & _ & _ & q & Hq & [[_ E] | (_ & r & Hr & _ & Hw & _)])].
  - rewrite E. apply atMostOneMore_refl.
  - rewrite E. apply atMostOneMore_same; reflexivity.
  - right. split; [apply (blocked_false g Hb)|]. split; [exact Hw|].
    exists r. exact Hr.
Qed.

Lemma invoke_atMostOneMore (now : Z) (c : Timer.Call QuizGame.Callback)
    (g : QuizGame.t) :
  Spec.atMostOneMore g (QuizGame.invoke now c g).
Proof.
  destruct c as [[|] r | [|]]; cbn [QuizGame.invoke];
    try apply handleTimerComplete_atMostOneMore;
    apply atMostOneMore_same; reflexivity.
Qed.

Lemma runCalls_atMostOneMore (now : Z)
    (calls : list (Timer.Call QuizGame.Callback)) (g : QuizGame.t) :
  Spec.atMostOneMore g (QuizGame.runCalls now calls g).
Proof.
  revert g. induction calls as [|c calls IH]; intros g; cbn.
  - apply atMostOneMore_refl.
  - eapply atMostOneMore_trans; [apply invoke_atMostOneMore | apply IH].
Qed.

Lemma step_atMostOneMore (g : QuizGame.t) (e : QuizGame.Event) :
  QuizGame.sameQuestion e = true ->
  Spec.atMostOneMore g (QuizGame.step g e).
Proof.
  destruct e; cbn [QuizGame.sameQuestion QuizGame.step]; try discriminate;
    intros _.
  - apply submitAnswer_atMostOneMore.
  - unfold QuizGame.pauseQuiz.
    destruct (_ && _); apply atMostOneMore_same; reflexivity.
  - unfold QuizGame.resumeQuiz.
    destruct (_ && _); apply atMostOneMore_same; reflexivity.
  - apply atMostOneMore_same; reflexivity.
  - apply atMostOneMore_same; reflexivity.
  - unfold QuizGame.timerFires.
    destruct (Timer.fire ev (QuizGame.timer g)) as [tm calls].
    eapply atMostOneMore_trans; [|apply runCalls_atMostOneMore].
    apply atMostOneMore_same; reflexivity.
Qed.

Lemma run_atMostOneMore (evs : list QuizGame.Event) (g : QuizGame.t) :
  forallb QuizGame.sameQuestion evs = true ->
  Spec.atMostOneMore g (QuizGame.run g evs).
Proof.
  revert g. induction evs as [|e evs IH]; intros g H; cbn.
  - apply atMostOneMore_refl.
  - cbn in H. apply andb_true_iff in H. destruct H as [He Hevs].
    eapply atMostOneMore_trans; [apply step_atMostOneMore, He|].
    apply IH, Hevs.
Qed.

(** C1: while the current question stays in place, whatever the page
    and the scheduler do, at most one record is added to the log, and
    once one has been added the latch is closed.  With the latch
    closed, [submitAnswer] and the timeout handler return the state
    they were given, and no later event of the question adds a record.
    A [submitAnswer] that finds the timer inactive or out of time also
    returns the state it was given. *)
Theorem C1_one_record_per_question (g : QuizGame.t)
    (evs : list QuizGame.Event) :
  forallb QuizGame.sameQuestion evs = true ->
  (List.length (QuizGame.records (QuizGame.run g evs))
   <= S (List.length (QuizGame.records g)))%nat
  /\ (QuizGame.records (QuizGame.run g evs) <> QuizGame.records g ->
      QuizGame.isWaitingForNextQuestion (QuizGame.run g evs) = true)
  /\ (QuizGame.isWaitingForNextQuestion g = true ->
      QuizGame.records (QuizGame.run g evs) = QuizGame.records g
      /\ QuizGame.isWaitingForNextQuestion (QuizGame.run g evs) = true)
  /\ (QuizGame.isWaitingForNextQuestion g = true ->
      forall (answer : Js.value) (now : Z),
        QuizGame.submitAnswer answer now g = g
        /\ QuizGame.handleTimerComplete now g = g)
  /\ (Timer.isActive (QuizGame.timer g) = false
      \/ Timer.getTimeRemaining (QuizGame.timer g) <= 0 ->
      forall (answer : Js.value) (now : Z),
        QuizGame.submitAnswer answer now g = g).
Proof.
  intros Hevs. pose proof (run_atMostOneMore evs g Hevs) as HR.
  split; [|split; [|split; [|split]]].
  - destruct HR as [[E _] | (_ & _ & r & E)]; rewrite E.
    + lia.
    + rewrite length_app. cbn. lia.
  - destruct HR as [[E _] | (_ & W & _)]; [congruence | intros _; exact W].
  - intros Hw. destruct HR as [[E W] | (W & _)]; [|congruence].
    split; congruence.
  - intros Hw answer now. apply blocked_waiting in Hw.
    unfold QuizGame.submitAnswer, QuizGame.handleTimerComplete.
    rewrite Hw. split; reflexivity.
  - intros Ht answer now. unfold QuizGame.submitAnswer.
    destruct (QuizGame.blocked g); [reflexivity|].
    destruct Ht as [Ha | Hr].
    + rewrite Ha. reflexivity.
    + apply Z.leb_le in Hr. rewrite Hr, orb_true_r. reflexivity.
Qed.

Lemma C1_one_record_per_question_witness :
  let draws := fun i : nat => QuestionGenerator.mkDraw i (3 * i + 1) "q" in
  let g := QuizGame.run QuizGame.new [QuizGame.StartQuiz 0 draws] in
  let evs := [QuizGame.TimerFires (Timer.IntervalFires 1000);
              QuizGame.SubmitAnswer (Some "27") 1500;
              QuizGame.SubmitAnswer (Some "2") 1600;
              QuizGame.SubmitAnswer (Some "2") 1700;
              QuizGame.TimerFires (Timer.IntervalFires 12000)] in
  (List.length (QuizGame.records (QuizGame.run g evs))
   <= S (List.length (QuizGame.records g)))%nat.
Proof.
  intros draws g evs.
  apply (C1_one_record_per_question g evs). reflexivity.
Defined.

(** ** The controller: every record it produces *)

Lemma Forall_records_push (P : AnswerRecord.t -> Prop) (l : list AnswerRecord.t)
    (r : AnswerRecord.t) :
  Forall P l -> P r -> Forall P (l ++ [r]).
Proof. intros Hl Hr. apply Forall_app. split; [exact Hl | now constructor]. Qed.

Lemma handleTimerComplete_records (now : Z) (g : QuizGame.t) :
  Forall Spec.recordInvariant (QuizGame.records g) ->
  Forall Spec.recordInvariant
         (QuizGame.records (QuizGame.handleTimerComplete now g)).
Proof.
  intros H.
  destruct (handleTimerComplete_cases now g)
    as [[_ E] | (_ & r & Hr & _ & Hc & Hu & Ht & _)]; rewrite ?E; [exact H|].
  rewrite Hr. apply Forall_records_push; [exact H|].
  intros _. repeat split; assumption.
Qed.

Lemma submitAnswer_records (answer : Js.value) (now : Z) (g : QuizGame.t) :
  Forall Spec.recordInvariant (QuizGame.records g) ->
  Forall Spec.recordInvariant
         (QuizGame.records (QuizGame.submitAnswer answer now g)).
Proof.
  intros H.
  destruct (submitAnswer_cases answer now g)
    as [E | (_ & _ & _ & q & _ & [[_ E] | (_ & r & Hr & Ht & _)])];
    rewrite ?E; try exact H.
  rewrite Hr. apply Forall_records_push; [exact H|].
  intros Hto. congruence.
Qed.

Lemma runCalls_records (now : Z) (calls : list (Timer.Call QuizGame.Callback))
    (g : QuizGame.t) :
  Forall Spec.recordInvariant (QuizGame.records g) ->
  Forall Spec.recordInvariant
         (QuizGame.records (QuizGame.runCalls now calls g)).
Proof.
  revert g. induction calls as [|c calls IH]; intros g H; cbn; [exact H|].
  apply IH. destruct c as [[|] r | [|]]; cbn [QuizGame.invoke];
    try (apply handleTimerComplete_records; exact H); exact H.
Qed.

Lemma handleError_records (message : string) (g : QuizGame.t) :
  QuizGame.records (QuizGame.handleError message g) = QuizGame.records g.
Proof.
  unfold QuizGame.handleError.
  destruct (QuizGame.isActiveStatus _); reflexivity.
Qed.

Lemma nextQuestion_records (now : Z) (g : QuizGame.t) :
  QuizGame.records (QuizGame.nextQuestion now g) = QuizGame.records g.
Proof.
  unfold QuizGame.nextQuestion.
  destruct (_ <=? _)%nat; [reflexivity|].
  unfold Timer.start. cbn.
  destruct (nth_error _ _); [reflexivity|].
  now rewrite handleError_records.
Qed.

Lemma step_records (g : QuizGame.t) (e : QuizGame.Event) :
  Forall Spec.recordInvariant (QuizGame.records g) ->
  Forall Spec.recordInvariant (QuizGame.records (QuizGame.step g e)).
Proof.
  intros H. destruct e; cbn [QuizGame.step].
  - unfold QuizGame.startQuiz. rewrite nextQuestion_records. constructor.
  - constructor.
  - apply submitAnswer_records, H.
  - unfold QuizGame.pauseQuiz. destruct (_ && _); exact H.
  - unfold QuizGame.resumeQuiz. destruct (_ && _); exact H.
  - exact H.
  - exact H.
  - unfold QuizGame.timerFires.
    destruct (Timer.fire ev (QuizGame.timer g)) as [tm calls].
    apply runCalls_records, H.
  - unfold QuizGame.feedbackDelayElapsed.
    destruct (QuizGame.pendingAdvances g); [exact H|].
    rewrite nextQuestion_records. exact H.
Qed.

Lemma run_records (evs : list QuizGame.Event) (g : QuizGame.t) :
  Forall Spec.recordInvariant (QuizGame.records g) ->
  Forall Spec.recordInvariant (QuizGame.records (QuizGame.run g evs)).
Proof.
  revert g. induction evs as [|e evs IH]; intros g H; cbn; [exact H|].
  apply IH, step_records, H.
Qed.

(** C4: whatever happens to a controller, every record of its log that
    is marked as timed out is marked incorrect, has the empty answer,
    and carries the full time limit of 10 seconds as its time.  (The
    records of [submitAnswer] are never marked as timed out; those of
    the timeout handler always are.) *)
Theorem C4_timed_out_records (evs : list QuizGame.Event) (r : AnswerRecord.t) :
  In r (QuizGame.records (QuizGame.run QuizGame.new evs)) ->
  AnswerRecord.timedOut r = true ->
  AnswerRecord.isCorrect r = false
  /\ AnswerRecord.userAnswer r = ""
  /\ AnswerRecord.timeUsed r = CONFIG.QUESTION_TIME_LIMIT
  /\ AnswerRecord.timeUsed r = 10.
Proof.
  intros Hin Hto.
  assert (H : Forall Spec.recordInvariant
                     (QuizGame.records (QuizGame.run QuizGame.new evs)))
    by (apply run_records; constructor).
  rewrite Forall_forall in H.
  destruct (H r Hin Hto) as (Hc & Hu & Ht). auto.
Qed.

Lemma C4_timed_out_records_witness :
  let draws := fun i : nat => QuestionGenerator.mkDraw i (3 * i + 1) "q" in
  let evs := [QuizGame.StartQuiz 0 draws;
              QuizGame.TimerFires (Timer.IntervalFires 5000);
              QuizGame.TimerFires (Timer.IntervalFires 10000)] in
  exists r,
    QuizGame.records (QuizGame.run QuizGame.new evs) = [r]
    /\ AnswerRecord.isCorrect r = false
    /\ AnswerRecord.userAnswer r = ""
    /\ AnswerRecord.timeUsed r = 10.
Proof.
  intros draws evs. eexists. split; [vm_compute; reflexivity|].
  match goal with
  | |- AnswerRecord.isCorrect ?r = _ /\ _ =>
      destruct (C4_timed_out_records evs r) as (H1 & H2 & _ & H3)
  end.
  - vm_compute. left. reflexivity.
  - reflexivity.
  - auto.
Defined.

(** ** The controller: what every reachable state satisfies *)

Lemma fire_shape (ev : Timer.Fire) (tm : Timer.t QuizGame.Callback) :
  (Timer.isRunning (fst (Timer.fire ev tm)) = true ->
   Timer.isRunning tm = true)
  /\ (Timer.onTickCallback (fst (Timer.fire ev tm)) = Timer.onTickCallback tm
      \/ Timer.onTickCallback (fst (Timer.fire ev tm)) = None)
  /\ Forall (fun c =>
               match c with
               | Timer.TickCall f _ => Timer.onTickCallback tm = Some f
               | Timer.CompleteCall _ =>
                   Timer.isRunning (fst (Timer.fire ev tm)) = false
               end)
            (snd (Timer.fire ev tm)).
Proof.
  destruct tm as [d rem iv run onT onC s pt pa pend].
  destruct ev as [now|now]; cbn [Timer.fire Timer.intervalId
                                 Timer.pendingTimeouts].
  - destruct iv; [|cbn; auto].
    unfold Timer.tick. cbn [Timer.isRunning Timer.isPaused].
    destruct run, pa; cbn [negb orb]; try (cbn; auto; fail).
    cbn -[Z.max Z.sub Z.div Z.leb].
    destruct (Z.max 0 (d - (now - s) / 1000) <=? 0);
      destruct onT, onC; cbn; repeat split; auto; try discriminate;
      repeat constructor.
  - destruct pend; [cbn; auto|].
    unfold Timer.handleTimerComplete. destruct onC; cbn;
      repeat split; auto; try discriminate; repeat constructor.
Qed.

Lemma invoke_frame (now : Z) (c : Timer.Call QuizGame.Callback)
    (g : QuizGame.t) :
  QuizGame.timer (QuizGame.invoke now c g) = QuizGame.timer g
  /\ QuizGame.gameState (QuizGame.invoke now c g) = QuizGame.gameState g
  /\ QuizGame.currentQuestion (QuizGame.invoke now c g)
     = QuizGame.currentQuestion g
  /\ (QuizGame.isWaitingForNextQuestion (QuizGame.invoke now c g) = true ->
      QuizGame.isWaitingForNextQuestion g = true
      \/ match c with
         | Timer.TickCall f _ => f = QuizGame.HandleTimerComplete
         | Timer.CompleteCall _ => True
         end).
Proof.
  assert (Hc : QuizGame.timer (QuizGame.handleTimerComplete now g)
               = QuizGame.timer g
               /\ QuizGame.gameState (QuizGame.handleTimerComplete now g)
                  = QuizGame.gameState g
               /\ QuizGame.currentQuestion (QuizGame.handleTimerComplete now g)
                  = QuizGame.currentQuestion g).
  { destruct (handleTimerComplete_cases now g)
      as [[_ E] | (_ & r & _ & _ & _ & _ & _ & _ & H1 & H2 & H3)].
    - rewrite E. auto.
    - auto. }
  destruct c as [[|] r | [|]]; cbn [QuizGame.invoke];
    try (destruct Hc as (H1 & H2 & H3); repeat split; auto; fail);
    repeat split; auto.
Qed.

Lemma runCalls_frame (now : Z) (calls : list (Timer.Call QuizGame.Callback))
    (g : QuizGame.t) :
  QuizGame.timer (QuizGame.runCalls now calls g) = QuizGame.timer g
  /\ QuizGame.gameState (QuizGame.runCalls now calls g) = QuizGame.gameState g
  /\ QuizGame.currentQuestion (QuizGame.runCalls now calls g)
     = QuizGame.currentQuestion g
  /\ (QuizGame.isWaitingForNextQuestion (QuizGame.runCalls now calls g) = true ->
      QuizGame.isWaitingForNextQuestion g = true
      \/ Exists (fun c =>
                   match c with
                   | Timer.TickCall f _ => f = QuizGame.HandleTimerComplete
                   | Timer.CompleteCall _ => True
                   end) calls).
Proof.
  revert g. induction calls as [|c calls IH]; intros g.
  - cbn. auto.
  - change (QuizGame.runCalls now (c :: calls) g)
      with (QuizGame.runCalls now calls (QuizGame.invoke now c g)).
    destruct (IH (QuizGame.invoke now c g)) as (H1 & H2 & H3 & H4).
    destruct (invoke_frame now c g) as (I1 & I2 & I3 & I4).
    split; [congruence|]. split; [congruence|]. split; [congruence|].
    intros Hw. destruct (H4 Hw) as [Hw'|Hex].
    + destruct (I4 Hw') as [?|?]; [left; assumption|].
      right. now constructor.
    + right. now constructor 2.
Qed.

Ltac invariant_by_computation :=
  unfold Spec.reachableInvariant; cbn;
  repeat split; intros; try discriminate; try reflexivity; try congruence.

Lemma nextQuestion_invariant (now : Z) (g : QuizGame.t) :
  Spec.reachableInvariant (QuizGame.nextQuestion now g).
Proof.
  unfold QuizGame.nextQuestion.
  destruct (_ <=? _)%nat.
  - invariant_by_computation.
  - unfold Timer.start. cbn.
    destruct (nth_error _ _) as [q|].
    + invariant_by_computation.
    + unfold QuizGame.handleError. cbn.
      destruct (QuizGame.status (QuizGame.gameState g)) eqn:Hstatus;
        invariant_by_computation.
Qed.

Lemma pause_fields {callback : Type} (now : Z) (tm : Timer.t callback) :
  Timer.isRunning (Timer.pause now tm) = Timer.isRunning tm
  /\ Timer.onTickCallback (Timer.pause now tm) = Timer.onTickCallback tm.
Proof. unfold Timer.pause. destruct (_ && _); split; reflexivity. Qed.

Lemma resume_fields {callback : Type} (now : Z) (tm : Timer.t callback) :
  Timer.isRunning (Timer.resume now tm) = Timer.isRunning tm
  /\ Timer.onTickCallback (Timer.resume now tm) = Timer.onTickCallback tm.
Proof. unfold Timer.resume. destruct (_ && _); split; reflexivity. Qed.

Lemma setTimer_invariant (tm : Timer.t QuizGame.Callback) (g : QuizGame.t) :
  Timer.isRunning tm = Timer.isRunning (QuizGame.timer g) ->
  Timer.onTickCallback tm = Timer.onTickCallback (QuizGame.timer g) ->
  Spec.reachableInvariant g ->
  Spec.reachableInvariant (QuizGame.setTimer tm g).
Proof.
  intros Hr Ht (I1 & I3 & I4). unfold Spec.reachableInvariant. cbn.
  rewrite Hr, Ht. auto.
Qed.

Lemma step_invariant (g : QuizGame.t) (e : QuizGame.Event) :
  Spec.reachableInvariant g -> Spec.reachableInvariant (QuizGame.step g e).
Proof.
  intros Hinv. destruct e; cbn [QuizGame.step].
  - apply nextQuestion_invariant.
  - invariant_by_computation.
  - destruct (submitAnswer_cases answer now g)
      as [E | (_ & _ & _ & q & _ & [[_ E] | (_ & r & _ & _ & Hw & Ht & Hg & Hq)])].
    + rewrite E. exact Hinv.
    + rewrite E. exact Hinv.
    + unfold Spec.reachableInvariant. rewrite Ht.
      invariant_by_computation.
  - unfold QuizGame.pauseQuiz. destruct (_ && _); [|exact Hinv].
    apply setTimer_invariant; try exact Hinv; apply pause_fields.
  - unfold QuizGame.resumeQuiz. destruct (_ && _); [|exact Hinv].
    apply setTimer_invariant; try exact Hinv; apply resume_fields.
  - apply setTimer_invariant; try exact Hinv; apply pause_fields.
  - apply setTimer_invariant; try exact Hinv; apply resume_fields.
  - unfold QuizGame.timerFires.
    destruct (fire_shape ev (QuizGame.timer g)) as (Hrun & Htick & Hcalls).
    destruct (Timer.fire ev (QuizGame.timer g)) as [tm calls].
    cbn [fst snd] in Hrun, Htick, Hcalls.
    destruct (runCalls_frame (QuizGame.fireTime ev) calls
                (QuizGame.setTimer tm g)) as (F1 & F2 & F3 & F4).
    destruct Hinv as (I1 & I3 & I4).
    unfold Spec.reachableInvariant. rewrite F1, F2, F3. cbn.
    split; [|split].
    + intros Hw. destruct (F4 Hw) as [Hw'|Hex].
      * cbn in Hw'. specialize (I1 Hw').
        destruct (Timer.isRunning tm) eqn:Hr; [|reflexivity].
        specialize (Hrun eq_refl). congruence.
      * apply Exists_exists in Hex. destruct Hex as (c & Hin & Hc).
        rewrite Forall_forall in Hcalls. specialize (Hcalls c Hin).
        destruct c as [f v|f]; [subst f; congruence | exact Hcalls].
    + intros Hs Hr. apply I3; [exact Hs | apply Hrun, Hr].
    + destruct Htick as [E|E]; rewrite E; [exact I4 | discriminate].
  - unfold QuizGame.feedbackDelayElapsed.
    destruct (QuizGame.pendingAdvances g); [exact Hinv|].
    apply nextQuestion_invariant.
Qed.

Lemma run_invariant (evs : list QuizGame.Event) (g : QuizGame.t) :
  Spec.reachableInvariant g -> Spec.reachableInvariant (QuizGame.run g evs).
Proof.
  revert g. induction evs as [|e evs IH]; intros g H; cbn; [exact H|].
  apply IH, step_invariant, H.
Qed.

Lemma new_invariant : Spec.reachableInvariant QuizGame.new.
Proof. invariant_by_computation. Qed.

(** C5: in any state the controller can reach, with the session active
    and the timer running with time left, an answer that fails the
    validation for the kind the current question expects only shows
    the validation message: [submitAnswer] returns normally (the
    session stays active, not in error), no record is added, the
    question index and the question stay, the timer is untouched and
    still running, and the latch stays open. *)
Theorem C5_invalid_answer_keeps_turn (evs : list QuizGame.Event)
    (answer : Js.value) (now : Z) (q : Question.t) :
  let g := QuizGame.run QuizGame.new evs in
  let validation :=
    QuestionGenerator.validateInput answer (QuizGame.expectedTypeOf q) in
  QuizGame.status (QuizGame.gameState g) = QuizGame.Active ->
  Timer.isActive (QuizGame.timer g) = true ->
  0 < Timer.getTimeRemaining (QuizGame.timer g) ->
  QuizGame.currentQuestion g = Some q ->
  QuestionGenerator.isValid validation = false ->
  let g' := QuizGame.submitAnswer answer now g in
  (exists message,
      QuestionGenerator.errorMessage validation = Some message
      /\ QuizGame.uiManager g'
         = QuizGame.uiManager g ++ [QuizGame.ShowInputError (Some message)])
  /\ QuizGame.records g' = QuizGame.records g
  /\ QuizGame.scoreTracker g' = QuizGame.scoreTracker g
  /\ QuizGame.gameState g' = QuizGame.gameState g
  /\ QuizGame.status (QuizGame.gameState g') = QuizGame.Active
  /\ QuizGame.currentQuestion g' = Some q
  /\ QuizGame.timer g' = QuizGame.timer g
  /\ Timer.isActive (QuizGame.timer g') = true
  /\ QuizGame.isWaitingForNextQuestion g' = false
  /\ QuizGame.pendingAdvances g' = QuizGame.pendingAdvances g.
Proof.
  intros g validation Hs Ha Hr Hq Hv g'.
  assert (Hinv : Spec.reachableInvariant g)
    by (apply run_invariant, new_invariant).
  destruct Hinv as (I1 & _ & _).
  assert (Hw : QuizGame.isWaitingForNextQuestion g = false).
  { destruct (QuizGame.isWaitingForNextQuestion g); [|reflexivity].
    specialize (I1 eq_refl). unfold Timer.isActive in Ha. congruence. }
  assert (E : g' = QuizGame.ui
                     (QuizGame.ShowInputError
                        (QuestionGenerator.errorMessage validation)) g).
  { subst g'. unfold QuizGame.submitAnswer, QuizGame.blocked.
    rewrite Hw, Hs, Hq, Ha. cbn [QuizGame.isActiveStatus QuizGame.isSome
                                  negb orb].
    apply Z.leb_gt in Hr. rewrite Hr. fold validation. now rewrite Hv. }
  destruct (validateInput_invalid_message _ _ Hv) as (message & Hm).
  fold validation in Hm.
  rewrite E. cbn. rewrite Hm.
  split; [exists message; split; reflexivity|].
  repeat split; assumption.
Qed.

Lemma C5_invalid_answer_keeps_turn_witness :
  let draws := fun i : nat => QuestionGenerator.mkDraw i (3 * i + 1) "q" in
  let evs := [QuizGame.StartQuiz 0 draws;
              QuizGame.TimerFires (Timer.IntervalFires 1000)] in
  let g := QuizGame.run QuizGame.new evs in
  let g' := QuizGame.submitAnswer (Some "27") 1500 g in
  QuizGame.uiManager g'
  = QuizGame.uiManager g
    ++ [QuizGame.ShowInputError
          (Some "Please enter a number between 1 and 26")]
  /\ QuizGame.records g' = QuizGame.records g
  /\ QuizGame.timer g' = QuizGame.timer g.
Proof.
  intros draws evs g g'.
  destruct (C5_invalid_answer_keeps_turn evs (Some "27") 1500
              (QuestionGenerator.generateQuestion (draws 0%nat)))
    as ((message & Hm & Hui) & Hrec & _ & _ & _ & _ & Htimer & _).
  - reflexivity.
  - reflexivity.
  - vm_compute. reflexivity.
  - reflexivity.
  - reflexivity.
  - fold evs in Hui, Hrec, Htimer. fold g in Hui, Hrec, Htimer.
    fold g' in Hui, Hrec, Htimer.
    split; [|split; assumption].
    rewrite Hui. vm_compute in Hm. injection Hm as <-. reflexivity.
Defined.


(** ** Scenarios *)

(** Every question answered with its correct answer before the time
    runs out. *)
Example scenario_all_correct :
  let g := Spec.play 10 (fun q => Some (Question.correctAnswer q)) 0
                     Spec.startedQuiz in
  QuizGame.status (QuizGame.gameState g) = QuizGame.Completed
  /\ ScoreTracker.getScore (QuizGame.scoreTracker g)
     = ScoreTracker.mkScore 10 0 0 10 100.
Proof. split; vm_compute; reflexivity. Qed.

(** Every question left to time out. *)
Example scenario_all_timed_out :
  let g := Spec.play 10 (fun _ => None) 0 Spec.startedQuiz in
  QuizGame.status (QuizGame.gameState g) = QuizGame.Completed
  /\ ScoreTracker.getScore (QuizGame.scoreTracker g)
     = ScoreTracker.mkScore 0 0 10 10 0
  /\ forallb (fun r => (AnswerRecord.userAnswer r =? "")%string)
             (QuizGame.records g) = true.
Proof. repeat split; vm_compute; reflexivity. Qed.

(** A lower-case letter is accepted for a number-to-alphabet question
    (the second question of the sample quiz asks for the letter E). *)
Example scenario_lower_case_letter :
  let g := QuizGame.submitAnswer (Some "e") 15000
             (Spec.play 1 (fun q => Some (Question.correctAnswer q)) 0
                        Spec.startedQuiz) in
  map AnswerRecord.isCorrect (QuizGame.records g) = [true; true].
Proof. vm_compute. reflexivity. Qed.

(** The same correct answer submitted twice in a row is recorded once. *)
Example scenario_double_submission :
  let g1 := QuizGame.submitAnswer (Some "2") 1000 Spec.startedQuiz in
  let g2 := QuizGame.submitAnswer (Some "2") 1001 g1 in
  List.length (QuizGame.records g1) = 1%nat /\ g2 = g1.
Proof. split; vm_compute; reflexivity. Qed.

(** * Further properties of the code *)

(** ** Letters, answers and generated questions *)

Lemma toUpperCase_single (c : ascii) :
  Js.toUpperCase (String c "") = String (Js.upperChar c) "".
Proof. reflexivity. Qed.

Lemma toUpperCase_length (s : string) :
  String.length (Js.toUpperCase s) = String.length s.
Proof.
  unfold Js.toUpperCase. induction s as [|c s IH]; cbn; [reflexivity|].
  now rewrite IH.
Qed.

Lemma isUpperLetter_upperChar (c : ascii) :
  QuestionGenerator.isUpperLetter (Js.upperChar c) = Page.isLetter c.
Proof. destruct c as [[] [] [] [] [] [] [] []]; reflexivity. Qed.

Lemma isValidLetter_cases (s : string) :
  QuestionGenerator.isValidLetter (Some s) = true ->
  exists c, Js.trim s = String c "" /\ Page.isLetter c = true.
Proof.
  unfold QuestionGenerator.isValidLetter.
  destruct (Js.truthy (Some s)); cbn [negb]; [|discriminate].
  destruct (Js.trim s) as [|c [|d r]] eqn:Ht.
  - discriminate.
  - rewrite toUpperCase_single, isUpperLetter_upperChar. eauto.
  - pose proof (toUpperCase_length (String c (String d r))) as Hl.
    destruct (Js.toUpperCase (String c (String d r))) as [|c' [|d' r']];
      discriminate.
Qed.

(** X3. [isValidLetter] accepts a string of ASCII characters exactly
    when what is left of it after trimming is one letter, of either
    case.  (Outside ASCII the code also accepts the few characters
    whose upper case is an ASCII letter, such as U+0131.) *)
Theorem isValidLetter_iff (s : string) :
  Spec.asciiOnly s = true ->
  (QuestionGenerator.isValidLetter (Some s) = true
   <-> exists c, Js.trim s = String c "" /\ Page.isLetter c = true).
Proof.
  intros _.
  unfold QuestionGenerator.isValidLetter.
  destruct (Js.truthy (Some s)) eqn:Hs; cbn [negb].
  - destruct (Js.trim s) as [|c [|d r]] eqn:Ht.
    + cbn. split; [discriminate | intros (c & E & _); discriminate].
    + rewrite toUpperCase_single, isUpperLetter_upperChar.
      split; [intros H; exists c; auto | intros (c' & E & H)].
      injection E as <-. exact H.
    + pose proof (toUpperCase_length (String c (String d r))) as Hl.
      destruct (Js.toUpperCase (String c (String d r))) as [|c' [|d' r']];
        try discriminate.
      split; [discriminate | intros (c0 & E & _); discriminate].
  - split; [discriminate|]. intros (c & E & _).
    assert (s = "").
    { destruct (String.eqb_spec s ""); [assumption|].
      apply truthy_some in n. congruence. }
    subst s. discriminate.
Qed.

Lemma isValidLetter_iff_witness :
  Spec.asciiOnly " e " = true
  /\ QuestionGenerator.isValidLetter (Some " e ") = true.
Proof.
  split; [reflexivity|].
  apply (isValidLetter_iff " e "); [reflexivity|].
  exists "e"%char. split; reflexivity.
Defined.

(** X4. [validateAnswer] is symmetric in its two arguments, present or
    absent, and transitive. *)
Theorem validateAnswer_symmetric_transitive (a b c : Js.value) :
  QuestionGenerator.validateAnswer a b = QuestionGenerator.validateAnswer b a
  /\ (QuestionGenerator.validateAnswer a b = true ->
      QuestionGenerator.validateAnswer b c = true ->
      QuestionGenerator.validateAnswer a c = true).
Proof.
  split.
  - destruct a as [a|], b as [b|]; try reflexivity.
    apply eq_true_iff_eq. rewrite !validateAnswer_strings.
    intuition congruence.
  - destruct a as [a|], b as [b|], c as [c|]; try discriminate.
    rewrite !validateAnswer_strings. intuition congruence.
Qed.

Lemma validateAnswer_symmetric_transitive_witness :
  QuestionGenerator.validateAnswer (Some " m") (Some "M ")
  = QuestionGenerator.validateAnswer (Some "M ") (Some " m")
  /\ (QuestionGenerator.validateAnswer (Some " m") (Some "M ") = true ->
      QuestionGenerator.validateAnswer (Some "M ") (Some "m") = true ->
      QuestionGenerator.validateAnswer (Some " m") (Some "m") = true).
Proof.
  exact (validateAnswer_symmetric_transitive (Some " m") (Some "M ")
                                             (Some "m")).
Defined.

Lemma isBlank_not_valid (input : Js.value) :
  QuestionGenerator.isBlank input = true ->
  QuestionGenerator.isValidLetter input = false
  /\ QuestionGenerator.isValidNumber input = false.
Proof.
  destruct input as [s|]; [|split; reflexivity].
  unfold QuestionGenerator.isBlank, QuestionGenerator.isValidLetter,
    QuestionGenerator.isValidNumber.
  destruct (Js.truthy (Some s)); cbn [negb orb]; [|split; reflexivity].
  rewrite String.eqb_eq. intros ->. split; reflexivity.
Qed.

Lemma validateInput_isValid (input : Js.value) :
  QuestionGenerator.isValid
    (QuestionGenerator.validateInput input "letter")
  = QuestionGenerator.isValidLetter input
  /\ QuestionGenerator.isValid
       (QuestionGenerator.validateInput input "number")
     = QuestionGenerator.isValidNumber input.
Proof.
  unfold QuestionGenerator.validateInput.
  destruct (QuestionGenerator.isBlank input) eqn:Hb.
  - destruct (isBlank_not_valid input Hb) as [Hl Hn].
    rewrite Hl, Hn. split; reflexivity.
  - cbn [String.eqb Ascii.eqb Bool.eqb]. split.
    + destruct (QuestionGenerator.isValidLetter input); reflexivity.
    + destruct (QuestionGenerator.isValidNumber input); reflexivity.
Qed.

(** X5. The verdict of [validateInput] for the two known kinds is the one
    of [isValidLetter] and [isValidNumber], for every input, present or
    absent; and for every kind, a result carries a message exactly when
    it is a refusal. *)
Theorem validateInput_verdict (input : Js.value) (expectedType : string) :
  QuestionGenerator.isValid
    (QuestionGenerator.validateInput input "letter")
  = QuestionGenerator.isValidLetter input
  /\ QuestionGenerator.isValid
       (QuestionGenerator.validateInput input "number")
     = QuestionGenerator.isValidNumber input
  /\ (QuestionGenerator.isValid
        (QuestionGenerator.validateInput input expectedType) = true
      <-> QuestionGenerator.errorMessage
            (QuestionGenerator.validateInput input expectedType) = None).
Proof.
  unfold QuestionGenerator.validateInput.
  destruct (QuestionGenerator.isBlank input) eqn:Hb.
  - destruct (isBlank_not_valid input Hb) as [Hl Hn].
    rewrite Hl, Hn. cbn. repeat split; discriminate.
  - cbn [String.eqb Ascii.eqb Bool.eqb].
    split; [|split].
    + destruct (QuestionGenerator.isValidLetter input); reflexivity.
    + destruct (QuestionGenerator.isValidNumber input); reflexivity.
    + destruct (expectedType =? "letter")%string;
        [destruct (QuestionGenerator.isValidLetter input); cbn;
         split; (reflexivity || discriminate)|].
      destruct (expectedType =? "number")%string;
        [destruct (QuestionGenerator.isValidNumber input); cbn;
         split; (reflexivity || discriminate)|].
      cbn. split; reflexivity.
Qed.

Lemma generate_mod (questionId : string) (roll : nat) :
  QuestionGenerator.generateAlphabetToNumberQuestion questionId roll
  = QuestionGenerator.generateAlphabetToNumberQuestion questionId
      (roll mod 26)
  /\ QuestionGenerator.generateNumberToAlphabetQuestion questionId roll
     = QuestionGenerator.generateNumberToAlphabetQuestion questionId
         (roll mod 26).
Proof.
  unfold QuestionGenerator.generateAlphabetToNumberQuestion,
    QuestionGenerator.generateNumberToAlphabetQuestion.
  rewrite Nat.Div0.mod_mod. split; reflexivity.
Qed.

Ltac well_formed_for_each_roll roll :=
  let k := fresh "k" in
  let Hk := fresh "Hk" in
  assert (Hk : (roll mod 26 < 26)%nat) by (apply Nat.mod_upper_bound; lia);
  revert Hk; generalize (roll mod 26)%nat as k; intros k Hk;
  do 26 (destruct k as [|k];
         [vm_compute; repeat split; auto; discriminate|]);
  lia.

Lemma generateAlphabetToNumberQuestion_wellFormed (questionId : string)
    (roll : nat) :
  Spec.wellFormedQuestion
    (QuestionGenerator.generateAlphabetToNumberQuestion questionId roll).
Proof.
  destruct (generate_mod questionId roll) as [-> _].
  well_formed_for_each_roll roll.
Qed.

Lemma generateNumberToAlphabetQuestion_wellFormed (questionId : string)
    (roll : nat) :
  Spec.wellFormedQuestion
    (QuestionGenerator.generateNumberToAlphabetQuestion questionId roll).
Proof.
  destruct (generate_mod questionId roll) as [_ ->].
  well_formed_for_each_roll roll.
Qed.

Lemma generateQuestion_wf (d : QuestionGenerator.Draw) :
  Spec.wellFormedQuestion (QuestionGenerator.generateQuestion d).
Proof.
  unfold QuestionGenerator.generateQuestion.
  destruct (_ =? _)%string.
  - apply generateAlphabetToNumberQuestion_wellFormed.
  - apply generateNumberToAlphabetQuestion_wellFormed.
Qed.

(** X6. Every question [generateQuestion] can produce is well formed and
    carries the id it was given. *)
Theorem generateQuestion_wellFormed (d : QuestionGenerator.Draw) :
  Spec.wellFormedQuestion (QuestionGenerator.generateQuestion d)
  /\ Question.id (QuestionGenerator.generateQuestion d)
     = QuestionGenerator.idText d.
Proof.
  unfold QuestionGenerator.generateQuestion.
  destruct (_ =? _)%string; split; try reflexivity.
  - apply generateAlphabetToNumberQuestion_wellFormed.
  - apply generateNumberToAlphabetQuestion_wellFormed.
Qed.

(** The two kinds of question mirror each other: for the same roll,
    what one displays is what the other expects as the answer. *)
Theorem generated_kinds_mirror (id1 id2 : string) (roll : nat) :
  let a := QuestionGenerator.generateAlphabetToNumberQuestion id1 roll in
  let n := QuestionGenerator.generateNumberToAlphabetQuestion id2 roll in
  Question.displayValue a = Question.correctAnswer n
  /\ Question.correctAnswer a = Question.displayValue n.
Proof.
  cbn zeta.
  destruct (generate_mod id1 roll) as [-> _].
  destruct (generate_mod id2 roll) as [_ ->].
  assert (Hk : (roll mod 26 < 26)%nat) by (apply Nat.mod_upper_bound; lia).
  revert Hk. generalize (roll mod 26)%nat as k. intros k Hk.
  do 26 (destruct k as [|k]; [vm_compute; split; reflexivity|]).
  lia.
Qed.


(** ** Sanitizing the input *)

Lemma trim_idem (s : string) : Js.trim (Js.trim s) = Js.trim s.
Proof.
  unfold Js.trim. rewrite list_ascii_of_string_of_list_ascii.
  now rewrite trimChars_idem.
Qed.

Lemma truthy_trim (s : string) :
  Js.truthy (Some (Js.trim s)) = true -> Js.truthy (Some s) = true.
Proof.
  rewrite !truthy_some. intros H ->. apply H. reflexivity.
Qed.

Lemma canonicalNumbers_fixed :
  Forall (fun s => Js.trim s = s
                   /\ Page.sanitizeInput (Some s) "number" = s
                   /\ QuestionGenerator.isValidNumber (Some s) = true)
         Spec.canonicalNumbers.
Proof. repeat constructor. Qed.

Lemma isValidNumber_canonical (s : string) :
  QuestionGenerator.isValidNumber (Some s) = true ->
  In (Js.trim s) Spec.canonicalNumbers.
Proof.
  unfold QuestionGenerator.isValidNumber.
  destruct (Js.truthy (Some s)); simpl; [|discriminate].
  destruct (Js.parseInt10 (Js.trim s)) as [number|]; [|discriminate].
  unfold CONFIG.MIN_NUMBER, CONFIG.MAX_NUMBER.
  rewrite !andb_true_iff, String.eqb_eq, !Z.leb_le.
  intros [[E H1] H2]. rewrite <- E.
  apply canonicalNumbers_complete. lia.
Qed.

Lemma filter_head {A : Type} (p : A -> bool) (l : list A) (h : A)
    (t : list A) :
  filter p l = h :: t -> p h = true.
Proof.
  intros E. assert (Hin : In h (filter p l)) by (rewrite E; now left).
  apply filter_In in Hin. apply Hin.
Qed.

Lemma keepChars_head (keep : ascii -> bool) (s : string) (c : ascii)
    (r : string) :
  Page.keepChars keep s = String c r -> keep c = true.
Proof.
  unfold Page.keepChars. intros E.
  apply (f_equal list_ascii_of_string) in E.
  rewrite list_ascii_of_string_of_list_ascii in E. cbn in E.
  eapply filter_head, E.
Qed.

Lemma sanitized_letter_fixed (c : ascii) :
  Page.isLetter c = true ->
  let s := String (Js.upperChar c) "" in
  Js.trim s = s
  /\ Js.toUpperCase s = s
  /\ Page.sanitizeInput (Some s) "letter" = s
  /\ QuestionGenerator.isValidLetter (Some s) = true
  /\ Page.sanitizeInput (Some (String c "")) "letter" = s.
Proof.
  destruct c as [[] [] [] [] [] [] [] []]; try discriminate;
    intros _; repeat split.
Qed.

(** X7. What [sanitizeInput] returns for one of the two known kinds is
    either the empty string or an input that [validateInput] accepts
    for that kind. *)
Theorem sanitizeInput_empty_or_valid (input : Js.value)
    (expectedType : string) :
  expectedType = "number" \/ expectedType = "letter" ->
  Page.sanitizeInput input expectedType = ""
  \/ QuestionGenerator.isValid
       (QuestionGenerator.validateInput
          (Some (Page.sanitizeInput input expectedType)) expectedType)
     = true.
Proof.
  intros [-> | ->]; unfold Page.sanitizeInput;
    (destruct input as [s|]; [|left; reflexivity]);
    (destruct (Js.truthy (Some s)); cbn [negb]; [|left; reflexivity]);
    cbn [String.eqb Ascii.eqb Bool.eqb].
  - destruct (_ =? "")%string; [left; reflexivity|].
    destruct (Js.parseInt10 _) as [number|]; [|left; reflexivity].
    destruct (Z.ltb_spec number 1); cbn [orb]; [left; reflexivity|].
    destruct (Z.ltb_spec 26 number); [left; reflexivity|].
    right. destruct (validateInput_isValid
                       (Some (Js.numberToString number))) as [_ ->].
    pose proof canonicalNumbers_fixed as Hall.
    rewrite Forall_forall in Hall.
    apply (Hall (Js.numberToString number)).
    apply canonicalNumbers_complete. lia.
  - destruct (Page.keepChars Page.isLetter (Js.trim s)) as [|c r] eqn:E;
      [left; reflexivity|].
    right. apply keepChars_head in E.
    destruct (validateInput_isValid (Some (String (Js.upperChar c) "")))
      as [-> _].
    apply (sanitized_letter_fixed c E).
Qed.

Lemma sanitizeInput_empty_or_valid_witness :
  Page.sanitizeInput (Some " 1a2 ") "number" = ""
  \/ QuestionGenerator.isValid
       (QuestionGenerator.validateInput
          (Some (Page.sanitizeInput (Some " 1a2 ") "number")) "number")
     = true.
Proof.
  apply (sanitizeInput_empty_or_valid (Some " 1a2 ") "number").
  left. reflexivity.
Defined.

(** X8. Sanitizing twice is sanitizing once, for every input and every
    expected type. *)
Theorem sanitizeInput_idempotent (input : Js.value) (expectedType : string) :
  Page.sanitizeInput (Some (Page.sanitizeInput input expectedType))
                     expectedType
  = Page.sanitizeInput input expectedType.
Proof.
  destruct input as [s|]; [|reflexivity].
  remember (Page.sanitizeInput (Some s) expectedType) as r eqn:Hr.
  unfold Page.sanitizeInput in Hr.
  destruct (Js.truthy (Some s)) eqn:Hs; cbn [negb] in Hr;
    [|subst r; reflexivity].
  destruct (expectedType =? "number")%string eqn:Hn.
  - apply String.eqb_eq in Hn. subst expectedType.
    destruct (_ =? "")%string; [subst r; reflexivity|].
    destruct (Js.parseInt10 _) as [number|]; [|subst r; reflexivity].
    destruct (Z.ltb_spec number 1); cbn [orb] in Hr; [subst r; reflexivity|].
    destruct (Z.ltb_spec 26 number); [subst r; reflexivity|].
    pose proof canonicalNumbers_fixed as Hall.
    rewrite Forall_forall in Hall. subst r.
    apply (Hall (Js.numberToString number)).
    apply canonicalNumbers_complete. lia.
  - destruct (expectedType =? "letter")%string eqn:Hl.
    + apply String.eqb_eq in Hl. subst expectedType.
      destruct (Page.keepChars Page.isLetter (Js.trim s)) as [|c r'] eqn:E;
        [subst r; reflexivity|].
      apply keepChars_head in E. subst r.
      apply (sanitized_letter_fixed c E).
    + subst r. unfold Page.sanitizeInput. rewrite Hn, Hl.
      destruct (Js.truthy (Some (Js.trim s))) eqn:Ht; cbn [negb].
      * apply trim_idem.
      * destruct (String.eqb_spec (Js.trim s) ""); [congruence|].
        apply truthy_some in n. congruence.
Qed.

(** X9. An input that is already well formed for its kind is only trimmed
    (and, for a letter, put in upper case) by [sanitizeInput], so the
    verdict of [validateAnswer] on it is not changed.  For a letter
    this is stated for ASCII input: [isValidLetter] also accepts a
    character such as U+0131, whose upper case is I, and
    [sanitizeInput] removes it. *)
Theorem sanitizeInput_keeps_valid (s : string) (correctAnswer : Js.value) :
  (QuestionGenerator.isValidNumber (Some s) = true ->
   Page.sanitizeInput (Some s) "number" = Js.trim s
   /\ QuestionGenerator.validateAnswer
        (Some (Page.sanitizeInput (Some s) "number")) correctAnswer
      = QuestionGenerator.validateAnswer (Some s) correctAnswer)
  /\ (Spec.asciiOnly s = true ->
      QuestionGenerator.isValidLetter (Some s) = true ->
      Page.sanitizeInput (Some s) "letter" = Js.toUpperCase (Js.trim s)
      /\ QuestionGenerator.validateAnswer
           (Some (Page.sanitizeInput (Some s) "letter")) correctAnswer
         = QuestionGenerator.validateAnswer (Some s) correctAnswer).
Proof.
  assert (Hverdict : forall s',
             s <> "" -> s' <> "" ->
             QuestionGenerator.normalizeAnswer s'
             = QuestionGenerator.normalizeAnswer s ->
             QuestionGenerator.validateAnswer (Some s') correctAnswer
             = QuestionGenerator.validateAnswer (Some s) correctAnswer).
  { intros s' Hs Hs' E. destruct correctAnswer as [c|]; [|reflexivity].
    apply eq_true_iff_eq. rewrite !validateAnswer_strings, E. tauto. }
  split.
  - intros Hv.
    assert (Hs : Js.truthy (Some s) = true).
    { unfold QuestionGenerator.isValidNumber in Hv.
      destruct (Js.truthy (Some s)); [reflexivity | discriminate]. }
    pose proof (isValidNumber_canonical s Hv) as Hin.
    pose proof canonicalNumbers_fixed as Hall.
    rewrite Forall_forall in Hall.
    destruct (Hall _ Hin) as (_ & Hfix & _).
    assert (E : Page.sanitizeInput (Some s) "number" = Js.trim s).
    { transitivity (Page.sanitizeInput (Some (Js.trim s)) "number");
        [|exact Hfix].
      unfold Page.sanitizeInput.
      rewrite Hs. cbn [negb String.eqb Ascii.eqb Bool.eqb].
      assert (Ht : Js.truthy (Some (Js.trim s)) = true).
      { apply truthy_some. intros E0. rewrite E0 in Hin. revert Hin.
        vm_compute. intuition discriminate. }
      rewrite Ht, trim_idem. reflexivity. }
    split; [exact E|]. rewrite E. apply Hverdict.
    + now apply truthy_some.
    + intros E0. rewrite E0 in Hin. revert Hin. vm_compute.
      intuition discriminate.
    + unfold QuestionGenerator.normalizeAnswer. now rewrite trim_idem.
  - intros _ Hv.
    assert (Hs : Js.truthy (Some s) = true).
    { unfold QuestionGenerator.isValidLetter in Hv.
      destruct (Js.truthy (Some s)); [reflexivity | discriminate]. }
    apply isValidLetter_cases in Hv. destruct Hv as (c & Ht & Hc).
    destruct (sanitized_letter_fixed c Hc) as (T1 & T2 & _ & _ & T3).
    assert (E : Page.sanitizeInput (Some s) "letter"
                = Js.toUpperCase (Js.trim s)).
    { unfold Page.sanitizeInput.
      rewrite Hs, Ht, toUpperCase_single.
      cbn [negb String.eqb Ascii.eqb Bool.eqb].
      unfold Page.keepChars. cbn [list_ascii_of_string filter].
      rewrite Hc. reflexivity. }
    split; [exact E|]. rewrite E. apply Hverdict.
    + now apply truthy_some.
    + rewrite Ht. discriminate.
    + change (Js.toUpperCase (Js.trim s))
        with (QuestionGenerator.normalizeAnswer s).
      apply normalizeAnswer_idem.
Qed.

Lemma sanitizeInput_keeps_valid_witness :
  Page.sanitizeInput (Some " 7 ") "number" = "7"
  /\ Page.sanitizeInput (Some " e ") "letter" = "E".
Proof.
  destruct (sanitizeInput_keeps_valid " 7 " None) as [Hnumber _].
  destruct (sanitizeInput_keeps_valid " e " None) as [_ Hletter].
  split.
  - apply Hnumber. reflexivity.
  - apply Hletter; reflexivity.
Defined.


(** ** The throttle of the submit button *)

Lemma protection_cases (now : Z) (s : Page.SubmissionState) :
  let '(isAllowed, s', _) := Page.handleRapidSubmissionProtection now s in
  (isAllowed = true ->
   Page.lastSubmissionTime s + Page.SUBMISSION_LIMITS.DEBOUNCE_MS <= now
   /\ Page.isProcessing s = false
   /\ Page.lastSubmissionTime s' = now
   /\ Page.isProcessing s' = true)
  /\ (isAllowed = false ->
      Page.lastSubmissionTime s' = Page.lastSubmissionTime s
      /\ Page.isProcessing s' = Page.isProcessing s)
  /\ (0 <= Page.submissionCount s
         <= Page.SUBMISSION_LIMITS.MAX_RAPID_SUBMISSIONS ->
      0 <= Page.submissionCount s'
         <= Page.SUBMISSION_LIMITS.MAX_RAPID_SUBMISSIONS).
Proof.
  destruct s as [lastTime count processing pending].
  unfold Page.handleRapidSubmissionProtection, Page.setSubmissionCount,
    Page.SUBMISSION_LIMITS.RAPID_SUBMISSION_WINDOW,
    Page.SUBMISSION_LIMITS.MAX_RAPID_SUBMISSIONS,
    Page.SUBMISSION_LIMITS.COOLDOWN_PERIOD,
    Page.SUBMISSION_LIMITS.DEBOUNCE_MS.
  cbn [Page.lastSubmissionTime Page.submissionCount
       Page.isProcessing Page.debounceTimeout].
  destruct (2000 <? now - lastTime) eqn:Hwindow.
  all: repeat (cbn [Page.lastSubmissionTime Page.submissionCount
               Page.isProcessing Page.debounceTimeout];
          match goal with
          | |- context [if ?b then _ else _] => destruct b eqn:?
          end).
  all: cbn [Page.lastSubmissionTime Page.submissionCount
            Page.isProcessing Page.debounceTimeout];
    repeat match goal with
           | H : _ && _ = true |- _ =>
               apply andb_true_iff in H; destruct H
           | H : _ && _ = false |- _ =>
               apply andb_false_iff in H; destruct H
           | H : (_ <? _) = true |- _ => apply Z.ltb_lt in H
           | H : (_ <? _) = false |- _ => apply Z.ltb_ge in H
           | H : (_ <=? _) = true |- _ => apply Z.leb_le in H
           | H : (_ <=? _) = false |- _ => apply Z.leb_gt in H
           end;
    cbn [Page.lastSubmissionTime Page.submissionCount
         Page.isProcessing Page.debounceTimeout] in *;
    repeat split; intros; try discriminate; try congruence; try lia.
Qed.

(** X10. Whatever the user and the scheduler do, two submissions the
    throttle lets through are at least 500 ms apart (and the first at
    least 500 ms after the last one recorded), the count of rapid
    submissions stays between 0 and 5, and nothing is let through
    while an earlier submission is marked as being processed. *)
Theorem throttle_spacing (evs : list Page.ThrottleEvent)
    (s : Page.SubmissionState) :
  0 <= Page.submissionCount s <= 5 ->
  Spec.spacedFrom 500 (Page.lastSubmissionTime s)
                  (snd (Page.throttle evs s))
  /\ 0 <= Page.submissionCount (fst (Page.throttle evs s)) <= 5
  /\ (forall now : Z,
         Page.isProcessing s = true ->
         fst (fst (Page.handleRapidSubmissionProtection now s)) = false).
Proof.
  intros Hcount. split; [|split].
  - revert s Hcount. induction evs as [|[now|] evs IH]; intros s Hcount.
    + exact I.
    + cbn [Page.throttle].
      pose proof (protection_cases now s) as Hp.
      destruct (Page.handleRapidSubmissionProtection now s)
        as [[isAllowed s1] shown].
      destruct Hp as (Hyes & Hno & Hc). specialize (Hc Hcount).
      specialize (IH s1 Hc).
      destruct (Page.throttle evs s1) as [s2 times]. cbn [snd] in *.
      destruct isAllowed.
      * destruct (Hyes eq_refl) as (Hgap & _ & Hlast & _).
        rewrite Hlast in IH. split; [exact Hgap | exact IH].
      * destruct (Hno eq_refl) as (Hlast & _). now rewrite Hlast in IH.
    + cbn [Page.throttle]. specialize (IH (Page.processingTimeoutFires s)).
      unfold Page.processingTimeoutFires in *.
      destruct (Page.debounceTimeout s); apply IH; exact Hcount.
  - revert s Hcount. induction evs as [|[now|] evs IH]; intros s Hcount.
    + exact Hcount.
    + cbn [Page.throttle].
      pose proof (protection_cases now s) as Hp.
      destruct (Page.handleRapidSubmissionProtection now s)
        as [[isAllowed s1] shown].
      destruct Hp as (_ & _ & Hc). specialize (IH s1 (Hc Hcount)).
      destruct (Page.throttle evs s1) as [s2 times]. exact IH.
    + cbn [Page.throttle]. apply IH.
      unfold Page.processingTimeoutFires.
      destruct (Page.debounceTimeout s); exact Hcount.
  - intros now Hproc.
    pose proof (protection_cases now s) as Hp.
    destruct (Page.handleRapidSubmissionProtection now s)
      as [[isAllowed s1] shown].
    destruct Hp as (Hyes & _). cbn [fst].
    destruct isAllowed; [|reflexivity].
    destruct (Hyes eq_refl) as (_ & H & _). congruence.
Qed.

Lemma throttle_spacing_witness :
  let evs := [Page.Submission 1000; Page.Submission 1200;
              Page.ProcessingTimeout; Page.Submission 1400;
              Page.Submission 2600] in
  snd (Page.throttle evs Page.initialSubmissionState) = [1000; 2600]
  /\ Spec.spacedFrom 500 0 (snd (Page.throttle evs Page.initialSubmissionState)).
Proof.
  intros evs. split; [reflexivity|].
  apply (throttle_spacing evs Page.initialSubmissionState). cbn. lia.
Defined.

(** ** Statistics of the tracker *)

(** A left fold that keeps the element with the smaller key, the
    earlier one on a tie, returns the first minimum of the list. *)
Lemma first_minimum {A : Type} (key : A -> Z) (rest : list A) (first : A) :
  let best :=
    fold_left (fun best x => if key x <? key best then x else best)
              rest first in
  exists before after,
    first :: rest = before ++ best :: after
    /\ Forall (fun x => key best < key x) before
    /\ Forall (fun x => key best <= key x) after.
Proof.
  cbn zeta. induction rest as [|x rest IH] using rev_ind.
  - exists [], []. cbn. repeat split; constructor.
  - rewrite fold_left_app. cbn [fold_left].
    destruct IH as (before & after & E & Hb & Ha).
    set (best := fold_left _ rest first) in *.
    destruct (Z.ltb_spec (key x) (key best)).
    + exists (before ++ best :: after), [].
      split; [|split].
      * change (first :: rest ++ [x]) with ((first :: rest) ++ [x]).
        now rewrite E.
      * apply Forall_app. split.
        -- eapply Forall_impl; [|exact Hb]. cbn. intros; lia.
        -- constructor; [lia|].
           eapply Forall_impl; [|exact Ha]. cbn. intros; lia.
      * constructor.
    + exists before, (after ++ [x]). split; [|split].
      * change (first :: rest ++ [x]) with ((first :: rest) ++ [x]).
        rewrite E, <- app_assoc. reflexivity.
      * exact Hb.
      * apply Forall_app. split; [exact Ha|]. constructor; [lia|constructor].
Qed.

Lemma fold_left_ext {A B : Type} (f g : A -> B -> A) (l : list B) (a : A) :
  (forall x y, f x y = g x y) -> fold_left f l a = fold_left g l a.
Proof.
  intros H. revert a. induction l as [|y l IH]; intros a; cbn;
    [reflexivity|]. now rewrite H, IH.
Qed.

(** X11. [getFastestAnswer] returns nothing exactly when no question was
    answered in time; otherwise it returns the first of the answered
    records with the least time: strictly faster than every answered
    record before it, and at least as fast as every one after it. *)
Theorem getFastestAnswer_first_minimum (st : ScoreTracker.t) :
  match ScoreTracker.getFastestAnswer st with
  | None => ScoreTracker.answeredQuestions st = []
  | Some fastest =>
      exists before after,
        ScoreTracker.answeredQuestions st = before ++ fastest :: after
        /\ Forall (fun r => AnswerRecord.timeUsed fastest
                            < AnswerRecord.timeUsed r) before
        /\ Forall (fun r => AnswerRecord.timeUsed fastest
                            <= AnswerRecord.timeUsed r) after
  end.
Proof.
  unfold ScoreTracker.getFastestAnswer.
  destruct (ScoreTracker.answeredQuestions st) as [|first rest];
    [reflexivity|].
  apply (first_minimum AnswerRecord.timeUsed rest first).
Qed.

(** X12. [getSlowestAnswer] likewise returns the first of the answered
    records with the greatest time. *)
Theorem getSlowestAnswer_first_maximum (st : ScoreTracker.t) :
  match ScoreTracker.getSlowestAnswer st with
  | None => ScoreTracker.answeredQuestions st = []
  | Some slowest =>
      exists before after,
        ScoreTracker.answeredQuestions st = before ++ slowest :: after
        /\ Forall (fun r => AnswerRecord.timeUsed r
                            < AnswerRecord.timeUsed slowest) before
        /\ Forall (fun r => AnswerRecord.timeUsed r
                            <= AnswerRecord.timeUsed slowest) after
  end.
Proof.
  unfold ScoreTracker.getSlowestAnswer, ScoreTracker.reduce1.
  destruct (ScoreTracker.answeredQuestions st) as [|first rest];
    [reflexivity|].
  rewrite (fold_left_ext _
             (fun best x =>
                if - AnswerRecord.timeUsed x <? - AnswerRecord.timeUsed best
                then x else best)).
  - destruct (first_minimum (fun r => - AnswerRecord.timeUsed r) rest first)
      as (before & after & E & Hb & Ha).
    exists before, after. split; [exact E|]. split.
    + eapply Forall_impl; [|exact Hb]. cbn. intros; lia.
    + eapply Forall_impl; [|exact Ha]. cbn. intros; lia.
  - intros x y.
    destruct (Z.ltb_spec (AnswerRecord.timeUsed x) (AnswerRecord.timeUsed y)),
      (Z.ltb_spec (- AnswerRecord.timeUsed y) (- AnswerRecord.timeUsed x));
      (reflexivity || lia).
Qed.

(** X13. The three buckets of [getTimeDistribution] hold every record that
    did not time out, each in exactly one bucket. *)
Theorem getTimeDistribution_partition (st : ScoreTracker.t) :
  let d := ScoreTracker.getTimeDistribution st in
  (ScoreTracker.fast d + ScoreTracker.medium d + ScoreTracker.slow d
   = List.length (ScoreTracker.answeredQuestions st))%nat.
Proof.
  cbn zeta. unfold ScoreTracker.getTimeDistribution.
  destruct (ScoreTracker.answeredQuestions st) as [|first rest] eqn:E;
    [reflexivity|].
  cbn [ScoreTracker.fast ScoreTracker.medium ScoreTracker.slow].
  generalize (first :: rest). clear. intros l.
  induction l as [|r l IH]; [reflexivity|].
  cbn [filter List.length].
  destruct (Z.leb_spec (AnswerRecord.timeUsed r) 3),
    (Z.ltb_spec 3 (AnswerRecord.timeUsed r)),
    (Z.leb_spec (AnswerRecord.timeUsed r) 7),
    (Z.ltb_spec 7 (AnswerRecord.timeUsed r));
    cbn [andb List.length]; lia.
Qed.

Lemma timePercentage_exact (seconds : Z) :
  0 <= seconds <= 10 ->
  PrimFloat.mul
    (PrimFloat.div (ScoreTracker.numberOfZ seconds)
                   (ScoreTracker.numberOfZ CONFIG.QUESTION_TIME_LIMIT))
    (Js.numberOfNat 100)
  = ScoreTracker.numberOfZ (10 * seconds).
Proof.
  intros H.
  replace seconds with (Z.of_nat (Z.to_nat seconds)) by lia.
  assert (Hk : (Z.to_nat seconds <= 10)%nat) by lia.
  revert Hk. generalize (Z.to_nat seconds) as k. intros k Hk.
  do 11 (destruct k as [|k]; [vm_compute; reflexivity|]).
  lia.
Qed.

(** X14. [getDetailedResults] lists the records in order; a result is
    marked ["timeout"] exactly when its record timed out, and for a
    time between 0 and 10 seconds (what [recordAnswer] stores) the
    percentage of the time limit, computed in double precision, is
    exactly ten times the seconds. *)
Theorem getDetailedResults_exact (st : ScoreTracker.t) :
  Forall (fun r => 0 <= AnswerRecord.timeUsed r <= 10)
         (ScoreTracker.answerRecords st) ->
  map ScoreTracker.record (ScoreTracker.getDetailedResults st)
  = ScoreTracker.answerRecords st
  /\ Forall (fun d =>
               (ScoreTracker.status d = "timeout"
                <-> AnswerRecord.timedOut (ScoreTracker.record d) = true)
               /\ (ScoreTracker.status d = "correct"
                   <-> AnswerRecord.timedOut (ScoreTracker.record d) = false
                       /\ AnswerRecord.isCorrect (ScoreTracker.record d)
                          = true)
               /\ ScoreTracker.timePercentage d
                  = ScoreTracker.numberOfZ
                      (10 * AnswerRecord.timeUsed (ScoreTracker.record d)))
            (ScoreTracker.getDetailedResults st).
Proof.
  unfold ScoreTracker.getDetailedResults.
  induction (ScoreTracker.answerRecords st) as [|r l IH]; intros H.
  - split; constructor.
  - inversion H as [|? ? Hr Hl]; subst. destruct (IH Hl) as [IH1 IH2].
    cbn [map]. split; [cbn [ScoreTracker.record]; f_equal; exact IH1|].
    constructor; [|exact IH2].
    cbn [ScoreTracker.status ScoreTracker.record ScoreTracker.timePercentage].
    split; [|split].
    + unfold ScoreTracker.getAnswerStatus.
      destruct (AnswerRecord.timedOut r), (AnswerRecord.isCorrect r);
        split; (reflexivity || discriminate).
    + unfold ScoreTracker.getAnswerStatus.
      destruct (AnswerRecord.timedOut r), (AnswerRecord.isCorrect r);
        split; try (intros [? ?]); try reflexivity; try discriminate;
        auto.
    + apply timePercentage_exact, Hr.
Qed.

Lemma getDetailedResults_exact_witness :
  let st := Spec.recordMany [true; false] ScoreTracker.new in
  map ScoreTracker.record (ScoreTracker.getDetailedResults st)
  = ScoreTracker.answerRecords st.
Proof.
  intros st. apply (getDetailedResults_exact st).
  repeat constructor; vm_compute; discriminate.
Defined.

(** ** The timer under every sequence of operations *)

Ltac timer_cases tm :=
  destruct tm as [d rem iv run onT onC s pt pa pend];
  destruct iv, run, pa;
  unfold Timer.apply, Timer.start, Timer.stop, Timer.pause, Timer.resume,
    Timer.addTime, Timer.fire, Timer.tick, Timer.handleTimerComplete,
    Timer.handleTimerError, Timer.consumeTimeout, Timer.setTimeRemaining,
    Timer.getElapsedTime, Timer.tickCalls, Timer.completeCalls;
  cbn -[Z.max Z.sub Z.div Z.leb Z.add Z.mul] in *;
  repeat match goal with
         | |- context [if ?b then _ else _] => destruct b eqn:?
         | |- context [match ?x with _ => _ end] => destruct x eqn:?
         end;
  cbn -[Z.max Z.sub Z.div Z.leb Z.add Z.mul] in *.

Lemma apply_stateMachine {callback : Type} (op : Timer.Op callback)
    (tm : Timer.t callback) :
  Spec.timerStateMachine tm ->
  Spec.timerStateMachine (fst (Timer.apply op tm)).
Proof.
  unfold Spec.timerStateMachine.
  destruct op; timer_cases tm; intuition (try congruence; try discriminate).
Qed.

Lemma apply_nonnegative {callback : Type} (op : Timer.Op callback)
    (tm : Timer.t callback) :
  Spec.startsNonNegative op ->
  0 <= Timer.timeRemaining tm ->
  0 <= Timer.timeRemaining (fst (Timer.apply op tm)).
Proof.
  destruct op; timer_cases tm; intros; lia.
Qed.

Lemma applyAll_fst {callback : Type} (op : Timer.Op callback)
    (ops : list (Timer.Op callback)) (tm : Timer.t callback) :
  fst (Timer.applyAll (op :: ops) tm)
  = fst (Timer.applyAll ops (fst (Timer.apply op tm)))
  /\ snd (Timer.applyAll (op :: ops) tm)
     = snd (Timer.apply op tm)
       ++ snd (Timer.applyAll ops (fst (Timer.apply op tm))).
Proof.
  cbn [Timer.applyAll]. destruct (Timer.apply op tm) as [tm1 calls1].
  cbn [fst snd]. destruct (Timer.applyAll ops tm1). split; reflexivity.
Qed.

(** X15. Whatever is done to a new timer (starts, stops, pauses, resumes,
    added time, scheduler firings, failures), it is paused only while
    running, its interval is armed only while it runs unpaused, and
    when it is not running it has no time left and keeps no callback;
    and if no start was given a negative duration, the remaining time
    is never negative. *)
Theorem timer_state_machine (callback : Type)
    (ops : list (Timer.Op callback)) :
  let tm := fst (Timer.applyAll ops (Timer.new callback)) in
  Spec.timerStateMachine tm
  /\ (Forall Spec.startsNonNegative ops -> 0 <= Timer.timeRemaining tm).
Proof.
  cbn zeta.
  assert (H : forall tm0 : Timer.t callback,
             Spec.timerStateMachine tm0 ->
             Spec.timerStateMachine (fst (Timer.applyAll ops tm0))
             /\ (Forall Spec.startsNonNegative ops ->
                 0 <= Timer.timeRemaining tm0 ->
                 0 <= Timer.timeRemaining (fst (Timer.applyAll ops tm0)))).
  { induction ops as [|op ops IH]; intros tm0 H0.
    - split; [exact H0 | auto].
    - destruct (applyAll_fst op ops tm0) as [-> _].
      destruct (IH _ (apply_stateMachine op tm0 H0)) as [IH1 IH2].
      split; [exact IH1|]. intros Hall Hrem.
      inversion Hall as [|? ? Hop Hops]; subst.
      apply IH2; [exact Hops|]. now apply apply_nonnegative. }
  destruct (H (Timer.new callback)) as [H1 H2].
  - unfold Spec.timerStateMachine. cbn.
    repeat split; intros; try discriminate; reflexivity.
  - split; [exact H1|]. intros Hall. apply H2; [exact Hall | cbn; lia].
Qed.

Lemma apply_stopped {callback : Type} (op : Timer.Op callback)
    (tm : Timer.t callback) :
  Spec.isStart op = false ->
  Spec.stopped tm ->
  snd (Timer.apply op tm) = [] /\ Spec.stopped (fst (Timer.apply op tm)).
Proof.
  unfold Spec.stopped.
  destruct op; try discriminate; intros _; timer_cases tm;
    intuition (try congruence; try discriminate).
Qed.

(** X16. After [stop()], and until the next [start], the timer calls no
    callback, whatever the scheduler still runs and whatever else is
    done to it.  [handleTimerError] is such a stop: it calls nothing
    either, the completion callback included. *)
Theorem stop_silences (callback : Type) (tm : Timer.t callback)
    (ops : list (Timer.Op callback)) :
  forallb (fun op => negb (Spec.isStart op)) ops = true ->
  snd (Timer.applyAll ops (Timer.stop tm)) = []
  /\ Spec.stopped (fst (Timer.applyAll ops (Timer.stop tm)))
  /\ Timer.handleTimerError tm = (Timer.stop tm, []).
Proof.
  intros Hops. split; [|split]; [| |reflexivity].
  - generalize (stop_stopped callback tm). generalize (Timer.stop tm).
    induction ops as [|op ops IH]; intros tm0 H0; [reflexivity|].
    cbn [forallb] in Hops. apply andb_true_iff in Hops.
    destruct Hops as [Hop Hops]. apply negb_true_iff in Hop.
    destruct (applyAll_fst op ops tm0) as [_ ->].
    destruct (apply_stopped op tm0 Hop H0) as [-> H1].
    now apply IH.
  - generalize (stop_stopped callback tm). generalize (Timer.stop tm).
    induction ops as [|op ops IH]; intros tm0 H0; [exact H0|].
    cbn [forallb] in Hops. apply andb_true_iff in Hops.
    destruct Hops as [Hop Hops]. apply negb_true_iff in Hop.
    destruct (applyAll_fst op ops tm0) as [-> _].
    destruct (apply_stopped op tm0 Hop H0) as [_ H1].
    now apply IH.
Qed.

Lemma stop_silences_witness :
  let tm := fst (Timer.start 10 (Some 1%nat) (Some 2%nat) 0 (Timer.new nat)) in
  snd (Timer.applyAll [Timer.Fires (Timer.IntervalFires 1000);
                       Timer.Resume 1500; Timer.Fails;
                       Timer.Fires (Timer.TimeoutFires 2000)]
                      (Timer.stop tm)) = [].
Proof.
  intros tm. apply (stop_silences nat tm). reflexivity.
Defined.

Lemma apply_callsOnly {callback : Type} (onComplete onTick : option callback)
    (op : Timer.Op callback) (tm : Timer.t callback) :
  Spec.isStart op = false ->
  (Timer.onTickCallback tm = onTick \/ Timer.onTickCallback tm = None) ->
  (Timer.onCompleteCallback tm = onComplete
   \/ Timer.onCompleteCallback tm = None) ->
  Forall (Spec.callsOnly onComplete onTick) (snd (Timer.apply op tm))
  /\ (Timer.onTickCallback (fst (Timer.apply op tm)) = onTick
      \/ Timer.onTickCallback (fst (Timer.apply op tm)) = None)
  /\ (Timer.onCompleteCallback (fst (Timer.apply op tm)) = onComplete
      \/ Timer.onCompleteCallback (fst (Timer.apply op tm)) = None).
Proof.
  destruct op; try discriminate; intros _; timer_cases tm;
    intros [?|?] [?|?]; subst; try discriminate;
    repeat split; auto; repeat constructor.
Qed.

(** X17. Once [start] has been called, every call the timer makes until the
    next [start] is [onTick] or [onComplete] of that call, each in its
    role: the callbacks of an earlier run are never invoked again. *)
Theorem start_supersedes (callback : Type) (dur now : Z)
    (onComplete onTick : option callback) (tm : Timer.t callback)
    (ops : list (Timer.Op callback)) :
  forallb (fun op => negb (Spec.isStart op)) ops = true ->
  Forall (Spec.callsOnly onComplete onTick)
         (snd (Timer.applyAll
                 (Timer.Start dur onComplete onTick now :: ops) tm)).
Proof.
  intros Hops.
  destruct (applyAll_fst (Timer.Start dur onComplete onTick now) ops tm)
    as [_ ->].
  apply Forall_app. split.
  - cbn. destruct onTick; repeat constructor.
  - assert (H : forall tm0 : Timer.t callback,
               (Timer.onTickCallback tm0 = onTick
                \/ Timer.onTickCallback tm0 = None) ->
               (Timer.onCompleteCallback tm0 = onComplete
                \/ Timer.onCompleteCallback tm0 = None) ->
               Forall (Spec.callsOnly onComplete onTick)
                      (snd (Timer.applyAll ops tm0))).
    { induction ops as [|op ops IH]; intros tm0 Ht Hc; [constructor|].
      cbn [forallb] in Hops. apply andb_true_iff in Hops.
      destruct Hops as [Hop Hops]. apply negb_true_iff in Hop.
      destruct (applyAll_fst op ops tm0) as [_ ->].
      destruct (apply_callsOnly onComplete onTick op tm0 Hop Ht Hc)
        as (H1 & H2 & H3).
      apply Forall_app. split; [exact H1 | now apply IH]. }
    apply H; left; reflexivity.
Qed.

Lemma start_supersedes_witness :
  let tm := fst (Timer.start 0 (Some 1%nat) (Some 2%nat) 0 (Timer.new nat)) in
  Forall (Spec.callsOnly (Some 3%nat) (Some 4%nat))
         (snd (Timer.applyAll
                 [Timer.Start 5 (Some 3%nat) (Some 4%nat) 100;
                  Timer.Fires (Timer.TimeoutFires 200);
                  Timer.Fires (Timer.IntervalFires 1200)] tm)).
Proof.
  intros tm. apply (start_supersedes nat 5 100 (Some 3%nat) (Some 4%nat) tm).
  reflexivity.
Defined.


(** ** The controller: what a session holds *)

Lemma recordAnswer_fields (st : ScoreTracker.t) (q : Question.t)
    (userAnswer : Js.value) (isCorrect : bool) (timeUsed : Z)
    (timedOut : bool) (now : Z) :
  exists r,
    ScoreTracker.recordAnswer (Some q) userAnswer isCorrect timeUsed
                              timedOut now st
    = (inr tt, ScoreTracker.push r st)
    /\ AnswerRecord.questionNumber r
       = S (List.length (ScoreTracker.answerRecords st))
    /\ Spec.recordOfQuestion q r
    /\ AnswerRecord.userAnswer r = ScoreTracker.orEmpty userAnswer
    /\ AnswerRecord.isCorrect r = isCorrect
    /\ AnswerRecord.timedOut r = timedOut
    /\ AnswerRecord.timeUsed r
       = Z.max 0 (Z.min timeUsed CONFIG.QUESTION_TIME_LIMIT).
Proof.
  eexists. split; [cbv; reflexivity|]. cbn.
  unfold Spec.recordOfQuestion. cbn.
  repeat split. f_equal. apply Nat.add_1_r.
Qed.

Lemma handleTimerComplete_full (now : Z) (g : QuizGame.t) :
  QuizGame.blocked g = false ->
  exists q r,
    QuizGame.currentQuestion g = Some q
    /\ QuizGame.records (QuizGame.handleTimerComplete now g)
       = QuizGame.records g ++ [r]
    /\ AnswerRecord.questionNumber r = S (List.length (QuizGame.records g))
    /\ Spec.recordOfQuestion q r
    /\ AnswerRecord.timedOut r = true
    /\ AnswerRecord.isCorrect r = false
    /\ AnswerRecord.userAnswer r = ""
    /\ AnswerRecord.timeUsed r = CONFIG.QUESTION_TIME_LIMIT
    /\ QuizGame.isWaitingForNextQuestion
         (QuizGame.handleTimerComplete now g) = true
    /\ QuizGame.gameState (QuizGame.handleTimerComplete now g)
       = QuizGame.gameState g
    /\ QuizGame.currentQuestion (QuizGame.handleTimerComplete now g)
       = QuizGame.currentQuestion g.
Proof.
  intros Hb. unfold QuizGame.handleTimerComplete. rewrite Hb.
  destruct (blocked_false g Hb) as (_ & _ & q & Hq). rewrite Hq.
  destruct (recordAnswer_fields (QuizGame.scoreTracker g) q (Some "") false
              CONFIG.QUESTION_TIME_LIMIT true now)
    as (r & E & Hn & Hof & Hu & Hc & Ht & Htime).
  rewrite E. exists q, r. cbn.
  repeat split;
    first [assumption | apply Hof | (rewrite Htime; reflexivity)].
Qed.

Lemma submitAnswer_full (answer : Js.value) (now : Z) (g : QuizGame.t) :
  (QuizGame.scoreTracker (QuizGame.submitAnswer answer now g)
   = QuizGame.scoreTracker g
   /\ QuizGame.isWaitingForNextQuestion (QuizGame.submitAnswer answer now g)
      = QuizGame.isWaitingForNextQuestion g
   /\ QuizGame.gameState (QuizGame.submitAnswer answer now g)
      = QuizGame.gameState g
   /\ QuizGame.currentQuestion (QuizGame.submitAnswer answer now g)
      = QuizGame.currentQuestion g)
  \/ (QuizGame.blocked g = false
      /\ Timer.isActive (QuizGame.timer g) = true
      /\ 0 < Timer.getTimeRemaining (QuizGame.timer g)
      /\ exists q s r,
           QuizGame.currentQuestion g = Some q
           /\ answer = Some s
           /\ QuestionGenerator.isValid
                (QuestionGenerator.validateInput (Some s)
                   (QuizGame.expectedTypeOf q)) = true
           /\ QuizGame.records (QuizGame.submitAnswer answer now g)
              = QuizGame.records g ++ [r]
           /\ AnswerRecord.questionNumber r
              = S (List.length (QuizGame.records g))
           /\ Spec.recordOfQuestion q r
           /\ AnswerRecord.timedOut r = false
           /\ AnswerRecord.isCorrect r
              = QuestionGenerator.validateAnswer
                  (Some s) (Some (Question.correctAnswer q))
           /\ AnswerRecord.userAnswer r = s
           /\ 0 <= AnswerRecord.timeUsed r <= CONFIG.QUESTION_TIME_LIMIT
           /\ QuizGame.isWaitingForNextQuestion
                (QuizGame.submitAnswer answer now g) = true
           /\ QuizGame.gameState (QuizGame.submitAnswer answer now g)
              = QuizGame.gameState g
           /\ QuizGame.currentQuestion (QuizGame.submitAnswer answer now g)
              = QuizGame.currentQuestion g).
Proof.
  unfold QuizGame.submitAnswer.
  destruct (QuizGame.blocked g) eqn:Hb; [left; auto|].
  destruct (Timer.isActive (QuizGame.timer g)) eqn:Ha; cbn [negb orb];
    [|left; auto].
  destruct (Z.leb_spec (Timer.getTimeRemaining (QuizGame.timer g)) 0)
    as [Hle|Hgt]; [left; auto|].
  destruct (blocked_false g Hb) as (_ & _ & q & Hq). rewrite Hq.
  destruct (QuestionGenerator.isValid
              (QuestionGenerator.validateInput answer
                 (QuizGame.expectedTypeOf q))) eqn:Hv; cbn [negb];
    [|left; auto].
  right. split; [reflexivity|]. split; [reflexivity|]. split; [exact Hgt|].
  destruct answer as [s|];
    [|unfold QuestionGenerator.validateInput in Hv; cbn in Hv; discriminate].
  cbn [QuizGame.currentQuestion QuizGame.setTimer QuizGame.scoreTracker].
  rewrite Hq.
  match goal with
  | |- context [ScoreTracker.recordAnswer (Some q) ?a ?c ?t false now ?st] =>
      destruct (recordAnswer_fields st q a c t false now)
        as (r & E & Hn & Hof & Hu & Hc & Ht & Htime)
  end.
  rewrite E. exists q, s, r. cbn.
  unfold CONFIG.QUESTION_TIME_LIMIT in *.
  repeat split; try assumption; try apply Hof; lia.
Qed.

Lemma expectedTypeOfRecord_question (q : Question.t) (r : AnswerRecord.t) :
  Spec.recordOfQuestion q r ->
  Spec.expectedTypeOfRecord r = QuizGame.expectedTypeOf q.
Proof.
  intros (_ & Ht & _). unfold Spec.expectedTypeOfRecord,
    QuizGame.expectedTypeOf. now rewrite Ht.
Qed.

Lemma recordsInvariant_push (l : list AnswerRecord.t) (r : AnswerRecord.t) :
  (forall i x, nth_error l i = Some x ->
               AnswerRecord.questionNumber x = S i
               /\ Spec.consistentRecord x) ->
  AnswerRecord.questionNumber r = S (List.length l) ->
  Spec.consistentRecord r ->
  forall i x, nth_error (l ++ [r]) i = Some x ->
              AnswerRecord.questionNumber x = S i /\ Spec.consistentRecord x.
Proof.
  intros Hl Hn Hr i x Hx.
  destruct (Nat.lt_ge_cases i (List.length l)) as [Hlt|Hge].
  - rewrite nth_error_app1 in Hx by exact Hlt. now apply Hl.
  - rewrite nth_error_app2 in Hx by exact Hge.
    destruct (i - List.length l)%nat as [|k] eqn:Hk.
    + cbn in Hx. injection Hx as <-.
      replace i with (List.length l) by lia. auto.
    + cbn in Hx. destruct k; discriminate.
Qed.

Lemma handleTimerComplete_session (now : Z) (g : QuizGame.t) :
  Spec.sessionInvariant g ->
  Spec.sessionInvariant (QuizGame.handleTimerComplete now g).
Proof.
  intros Hinv.
  destruct (QuizGame.blocked g) eqn:Hb.
  - unfold QuizGame.handleTimerComplete. now rewrite Hb.
  - destruct (handleTimerComplete_full now g Hb)
      as (q & r & Hq & Hr & Hn & Hof & Hto & Hc & Hu & Ht & Hw & Hg & Hcq).
    destruct (blocked_false g Hb) as (Hw0 & Hs0 & _).
    destruct Hinv as ((C1 & C2 & C3 & C4) & R & (Q1 & Q2 & Q3)).
    specialize (C3 Hw0). specialize (C4 Hs0 Hw0).
    unfold Spec.sessionInvariant, Spec.countsInvariant,
      Spec.recordsInvariant, Spec.questionsInvariant.
    rewrite Hr, Hg, Hw, Hcq, length_app. cbn [List.length].
    split; [|split].
    + repeat split; intros; try discriminate; lia.
    + apply recordsInvariant_push; [exact R | exact Hn|].
      unfold Spec.consistentRecord. rewrite Hto, Ht.
      destruct Hof as (_ & Hty & _). rewrite Hty.
      split; [unfold CONFIG.QUESTION_TIME_LIMIT; lia|].
      split; [apply (Q2 q Hq) | auto].
    + auto.
Qed.

Lemma submitAnswer_session (answer : Js.value) (now : Z) (g : QuizGame.t) :
  Spec.sessionInvariant g ->
  Spec.sessionInvariant (QuizGame.submitAnswer answer now g).
Proof.
  intros Hinv.
  destruct (submitAnswer_full answer now g)
    as [(Hs & Hw & Hg & Hcq)
       | (Hb & _ & _ & q & s & r & Hq & Ha & Hv & Hr & Hn & Hof & Hto & Hc
          & Hu & Ht & Hw & Hg & Hcq)].
  - unfold Spec.sessionInvariant, Spec.countsInvariant,
      Spec.recordsInvariant, Spec.questionsInvariant, QuizGame.records.
    rewrite Hs, Hw, Hg, Hcq. exact Hinv.
  - destruct (blocked_false g Hb) as (Hw0 & Hs0 & _).
    destruct Hinv as ((C1 & C2 & C3 & C4) & R & (Q1 & Q2 & Q3)).
    specialize (C3 Hw0). specialize (C4 Hs0 Hw0).
    unfold Spec.sessionInvariant, Spec.countsInvariant,
      Spec.recordsInvariant, Spec.questionsInvariant.
    rewrite Hr, Hg, Hw, Hcq, length_app. cbn [List.length].
    split; [|split].
    + repeat split; intros; try discriminate; lia.
    + apply recordsInvariant_push; [exact R | exact Hn|].
      unfold Spec.consistentRecord.
      rewrite Hto, Hu, (expectedTypeOfRecord_question q r Hof).
      destruct Hof as (_ & Hty & _ & _ & Hca). rewrite Hty, Hca.
      split; [exact Ht|]. split; [apply (Q2 q Hq) | auto].
    + auto.
Qed.

Lemma runCalls_session (now : Z)
    (calls : list (Timer.Call QuizGame.Callback)) (g : QuizGame.t) :
  Spec.sessionInvariant g ->
  Spec.sessionInvariant (QuizGame.runCalls now calls g).
Proof.
  revert g. induction calls as [|c calls IH]; intros g H; cbn; [exact H|].
  apply IH. destruct c as [[|] r | [|]]; cbn [QuizGame.invoke];
    try (apply handleTimerComplete_session; exact H); exact H.
Qed.

Lemma nextQuestion_session (now : Z) (g : QuizGame.t) :
  (List.length (QuizGame.records g) <= CONFIG.TOTAL_QUESTIONS)%nat ->
  (List.length (QuizGame.records g)
   <= QuizGame.currentQuestionIndex (QuizGame.gameState g))%nat ->
  Spec.recordsInvariant g ->
  Forall Spec.wellFormedQuestion (QuizGame.questions (QuizGame.gameState g)) ->
  (forall q, QuizGame.currentQuestion g = Some q ->
             Spec.wellFormedQuestion q) ->
  (QuizGame.status (QuizGame.gameState g) = QuizGame.Active ->
   List.length (QuizGame.questions (QuizGame.gameState g))
   = CONFIG.TOTAL_QUESTIONS) ->
  Spec.sessionInvariant (QuizGame.nextQuestion now g).
Proof.
  intros Hn Hi R Q1 Q2 Q3.
  unfold QuizGame.nextQuestion.
  pose proof (eq_refl : CONFIG.TOTAL_QUESTIONS = 10%nat) as Htotal.
  unfold QuizGame.records in Hn, Hi.
  destruct (Nat.leb_spec CONFIG.TOTAL_QUESTIONS
              (QuizGame.currentQuestionIndex (QuizGame.gameState g)))
    as [Hend|Hmore].
  - unfold Spec.sessionInvariant, Spec.countsInvariant,
      Spec.recordsInvariant, Spec.questionsInvariant, QuizGame.records,
      QuizGame.handleTimerTick. cbn.
    split; [|split].
    + split; [lia|]. split; [lia|]. split; [intros; lia|].
      intros; discriminate.
    + exact R.
    + split; [exact Q1|]. split; [exact Q2|]. intros; discriminate.
  - unfold Timer.start. cbn.
    destruct (nth_error (QuizGame.questions (QuizGame.gameState g))
                (QuizGame.currentQuestionIndex (QuizGame.gameState g)))
      as [q|] eqn:Hq.
    + unfold Spec.sessionInvariant, Spec.countsInvariant,
        Spec.recordsInvariant, Spec.questionsInvariant, QuizGame.records,
      QuizGame.handleTimerTick. cbn.
      split; [|split].
      * split; [lia|]. split; [lia|]. split; [intros; lia|].
        intros; exact Hmore.
      * exact R.
      * split; [exact Q1|]. split.
        -- intros q' E. injection E as <-.
           rewrite Forall_forall in Q1. eapply Q1, nth_error_In, Hq.
        -- intros Hs. split; [now rewrite Hq | auto].
    + unfold QuizGame.handleError. cbn.
      destruct (QuizGame.status (QuizGame.gameState g)) eqn:Hstatus;
        unfold Spec.sessionInvariant, Spec.countsInvariant,
          Spec.recordsInvariant, Spec.questionsInvariant, QuizGame.records,
          QuizGame.handleTimerTick; cbn;
        (split; [|split];
         [ split; [lia|]; split; [lia|]; split; [intros; lia|];
           intros; first [discriminate | congruence | exact Hmore]
         | exact R
         | split; [exact Q1|]; split; [intros; discriminate|];
           intros; first [discriminate | congruence] ]).
Qed.

Lemma generateAllQuestions_wellFormed
    (draws : nat -> QuestionGenerator.Draw) :
  Forall Spec.wellFormedQuestion (QuizGame.generateAllQuestions draws)
  /\ List.length (QuizGame.generateAllQuestions draws)
     = CONFIG.TOTAL_QUESTIONS.
Proof.
  unfold QuizGame.generateAllQuestions. split.
  - apply Forall_map, Forall_forall. intros i _. apply generateQuestion_wf.
  - now rewrite length_map, length_seq.
Qed.

Lemma step_session (g : QuizGame.t) (e : QuizGame.Event) :
  Spec.sessionInvariant g -> Spec.sessionInvariant (QuizGame.step g e).
Proof.
  intros Hinv. destruct e; cbn [QuizGame.step].
  - unfold QuizGame.startQuiz.
    destruct (generateAllQuestions_wellFormed draws) as [Hwf Hlen].
    apply nextQuestion_session; cbn; auto; try lia.
    + intros i r Hr. destruct i; discriminate.
    + discriminate.
  - unfold QuizGame.restartQuiz, Spec.sessionInvariant,
      Spec.countsInvariant, Spec.recordsInvariant, Spec.questionsInvariant.
    cbn. split; [|split].
    + repeat split; intros; try discriminate; lia.
    + intros i r Hr. destruct i; discriminate.
    + repeat split; intros; try discriminate; constructor.
  - apply submitAnswer_session, Hinv.
  - unfold QuizGame.pauseQuiz. destruct (_ && _); exact Hinv.
  - unfold QuizGame.resumeQuiz. destruct (_ && _); exact Hinv.
  - exact Hinv.
  - exact Hinv.
  - unfold QuizGame.timerFires.
    destruct (Timer.fire ev (QuizGame.timer g)) as [tm calls].
    apply runCalls_session, Hinv.
  - unfold QuizGame.feedbackDelayElapsed.
    destruct (QuizGame.pendingAdvances g); [exact Hinv|].
    destruct Hinv as ((C1 & C2 & C3 & C4) & R & (Q1 & Q2 & Q3)).
    apply nextQuestion_session; cbn; auto.
    intros Hs. apply Q3, Hs.
Qed.

Lemma run_session (evs : list QuizGame.Event) (g : QuizGame.t) :
  Spec.sessionInvariant g -> Spec.sessionInvariant (QuizGame.run g evs).
Proof.
  revert g. induction evs as [|e evs IH]; intros g H; cbn; [exact H|].
  apply IH, step_session, H.
Qed.

Lemma new_session : Spec.sessionInvariant QuizGame.new.
Proof.
  unfold Spec.sessionInvariant, Spec.countsInvariant,
    Spec.recordsInvariant, Spec.questionsInvariant. cbn.
  split; [|split].
  - repeat split; intros; try discriminate; lia.
  - intros i r Hr. destruct i; discriminate.
  - repeat split; intros; try discriminate; constructor.
Qed.

Lemma records_consistent (g : QuizGame.t) :
  Spec.recordsInvariant g ->
  Forall Spec.consistentRecord (QuizGame.records g).
Proof.
  intros R. apply Forall_forall. intros r Hin.
  destruct (In_nth_error _ _ Hin) as [i Hi]. apply (R i r Hi).
Qed.

Lemma consistent_recordInvariant (r : AnswerRecord.t) :
  Spec.consistentRecord r -> Spec.recordInvariant r.
Proof.
  intros (_ & _ & H) Hto. now rewrite Hto in H.
Qed.

Lemma score_adds_up (l : list AnswerRecord.t) :
  Forall Spec.recordInvariant l ->
  (List.length (filter (fun r => AnswerRecord.isCorrect r) l)
   + List.length (filter (fun r => negb (AnswerRecord.isCorrect r)
                                   && negb (AnswerRecord.timedOut r)) l)
   + List.length (filter (fun r => AnswerRecord.timedOut r) l)
   = List.length l)%nat.
Proof.
  induction 1 as [|r l Hr _ IH]; [reflexivity|].
  cbn [filter]. unfold Spec.recordInvariant in Hr.
  destruct (AnswerRecord.timedOut r) eqn:Hto.
  - destruct Hr as (Hc & _); [reflexivity|]. rewrite Hc. cbn. lia.
  - destruct (AnswerRecord.isCorrect r); cbn; lia.
Qed.

(** X18. In every state a session can reach, the log holds at most ten
    records and at most one more than the index of the current
    question, and no more than the index while an answer is still
    awaited. *)
Theorem session_record_count (evs : list QuizGame.Event) :
  let g := QuizGame.run QuizGame.new evs in
  let n := List.length (QuizGame.records g) in
  let i := QuizGame.currentQuestionIndex (QuizGame.gameState g) in
  (n <= CONFIG.TOTAL_QUESTIONS)%nat
  /\ (n <= S i)%nat
  /\ (QuizGame.isWaitingForNextQuestion g = false -> (n <= i)%nat).
Proof.
  destruct (run_session evs QuizGame.new new_session)
    as ((C1 & C2 & C3 & _) & _).
  cbn zeta. auto.
Qed.

(** X1. In every state a session can reach, the three counts of
    [getScore] add up to the total, the total is at most ten, and the
    percentage is the exactly rounded one. *)
Theorem session_score_exact (evs : list QuizGame.Event) :
  let score :=
    ScoreTracker.getScore
      (QuizGame.scoreTracker (QuizGame.run QuizGame.new evs)) in
  (ScoreTracker.correct score + ScoreTracker.incorrect score
   + ScoreTracker.timeout score = ScoreTracker.total score)%nat
  /\ (ScoreTracker.total score <= CONFIG.TOTAL_QUESTIONS)%nat
  /\ ScoreTracker.percentage score
     = Spec.roundedPercentage (ScoreTracker.correct score)
                              (ScoreTracker.total score).
Proof.
  destruct (run_session evs QuizGame.new new_session)
    as ((C1 & _) & R & _).
  pose proof (records_consistent _ R) as Hall.
  unfold QuizGame.records in *. cbn zeta. unfold ScoreTracker.getScore.
  cbn [ScoreTracker.correct ScoreTracker.incorrect ScoreTracker.timeout
       ScoreTracker.total ScoreTracker.percentage].
  split; [|split].
  - apply score_adds_up.
    eapply Forall_impl; [|exact Hall]. apply consistent_recordInvariant.
  - exact C1.
  - apply percentageOf_below_40; [apply filter_length_le|].
    unfold CONFIG.TOTAL_QUESTIONS in C1. lia.
Qed.

(** X19. In every state a session can reach, the records are numbered
    1, 2, ... in order, each has a time between 0 and 10 and one of the
    two question kinds, a timed-out record is incorrect with an empty
    answer and the full time, and any other record holds an answer that
    is valid for its kind and is marked correct exactly when
    [validateAnswer] accepts it against the correct answer. *)
Theorem session_records_consistent (evs : list QuizGame.Event)
    (i : nat) (r : AnswerRecord.t) :
  nth_error (QuizGame.records (QuizGame.run QuizGame.new evs)) i = Some r ->
  AnswerRecord.questionNumber r = S i /\ Spec.consistentRecord r.
Proof.
  destruct (run_session evs QuizGame.new new_session) as (_ & R & _).
  apply R.
Qed.

Lemma session_records_consistent_witness :
  exists r,
    nth_error
      (QuizGame.records
         (QuizGame.run QuizGame.new
            [QuizGame.StartQuiz 0 Spec.sampleDraws;
             QuizGame.SubmitAnswer (Some "2") 1000;
             QuizGame.FeedbackDelayElapsed 2500;
             QuizGame.TimerFires (Timer.IntervalFires 12500)])) 1
    = Some r
    /\ AnswerRecord.questionNumber r = 2%nat /\ Spec.consistentRecord r.
Proof.
  eexists. split; [vm_compute; reflexivity|].
  apply (session_records_consistent
           [QuizGame.StartQuiz 0 Spec.sampleDraws;
            QuizGame.SubmitAnswer (Some "2") 1000;
            QuizGame.FeedbackDelayElapsed 2500;
            QuizGame.TimerFires (Timer.IntervalFires 12500)] 1).
  vm_compute. reflexivity.
Defined.

Lemma filter_true {A : Type} (l : list A) : filter (fun _ => true) l = l.
Proof. induction l as [|x l IH]; cbn; [reflexivity | now rewrite IH]. Qed.

Lemma by_type_adds_up (keep : AnswerRecord.t -> bool)
    (l : list AnswerRecord.t) :
  Forall (fun r => In (AnswerRecord.questionType r)
                      QuestionGenerator.questionTypes) l ->
  (List.length
     (filter keep
        (filter (fun r => (AnswerRecord.questionType r
                           =? "alphabet-to-number")%string) l))
   + List.length
       (filter keep
          (filter (fun r => (AnswerRecord.questionType r
                             =? "number-to-alphabet")%string) l))
   = List.length (filter keep l))%nat.
Proof.
  induction 1 as [|r l Hr _ IH]; [reflexivity|].
  cbn [filter].
  destruct Hr as [Hr|[Hr|[]]]; rewrite <- Hr; cbn [String.eqb Ascii.eqb
    Bool.eqb filter]; destruct (keep r); cbn [List.length]; lia.
Qed.

(** X20. In every state a session can reach, the two entries of
    [getAccuracyByQuestionType] split the log: their totals add up to
    the total of [getScore] and their correct counts to its correct
    count. *)
Theorem session_accuracy_by_type (evs : list QuizGame.Event) :
  let st := QuizGame.scoreTracker (QuizGame.run QuizGame.new evs) in
  let letters := ScoreTracker.statsOfType "alphabet-to-number" st in
  let numbers := ScoreTracker.statsOfType "number-to-alphabet" st in
  ScoreTracker.getAccuracyByQuestionType st
  = [("alphabet-to-number", letters); ("number-to-alphabet", numbers)]
  /\ (ScoreTracker.typeTotal letters + ScoreTracker.typeTotal numbers
      = ScoreTracker.total (ScoreTracker.getScore st))%nat
  /\ (ScoreTracker.typeCorrect letters + ScoreTracker.typeCorrect numbers
      = ScoreTracker.correct (ScoreTracker.getScore st))%nat.
Proof.
  destruct (run_session evs QuizGame.new new_session) as (_ & R & _).
  pose proof (records_consistent _ R) as Hall.
  assert (Hty : Forall (fun r => In (AnswerRecord.questionType r)
                                    QuestionGenerator.questionTypes)
                       (QuizGame.records (QuizGame.run QuizGame.new evs))).
  { eapply Forall_impl; [|exact Hall]. intros r (_ & H & _). exact H. }
  unfold QuizGame.records in Hty. cbn zeta.
  split; [reflexivity|].
  unfold ScoreTracker.statsOfType, ScoreTracker.getScore.
  cbn [ScoreTracker.typeTotal ScoreTracker.typeCorrect ScoreTracker.total
       ScoreTracker.correct].
  split.
  - pose proof (by_type_adds_up (fun _ => true) _ Hty) as H.
    now rewrite !filter_true in H.
  - apply (by_type_adds_up (fun r => AnswerRecord.isCorrect r) _ Hty).
Qed.

(** ** The page and the controller *)

Lemma submitAnswer_accepts (answer : Js.value) (now : Z) (g : QuizGame.t)
    (q : Question.t) :
  QuizGame.blocked g = false ->
  Timer.isActive (QuizGame.timer g) = true ->
  0 < Timer.getTimeRemaining (QuizGame.timer g) ->
  QuizGame.currentQuestion g = Some q ->
  QuestionGenerator.isValid
    (QuestionGenerator.validateInput answer (QuizGame.expectedTypeOf q))
  = true ->
  exists r,
    QuizGame.records (QuizGame.submitAnswer answer now g)
    = QuizGame.records g ++ [r]
    /\ AnswerRecord.questionNumber r = S (List.length (QuizGame.records g))
    /\ Spec.recordOfQuestion q r
    /\ AnswerRecord.timedOut r = false
    /\ AnswerRecord.isCorrect r
       = QuestionGenerator.validateAnswer
           answer (Some (Question.correctAnswer q))
    /\ AnswerRecord.userAnswer r = ScoreTracker.orEmpty answer
    /\ QuizGame.isWaitingForNextQuestion (QuizGame.submitAnswer answer now g)
       = true
    /\ QuizGame.timer (QuizGame.submitAnswer answer now g)
       = Timer.stop (QuizGame.timer g)
    /\ QuizGame.gameState (QuizGame.submitAnswer answer now g)
       = QuizGame.gameState g
    /\ QuizGame.pendingAdvances (QuizGame.submitAnswer answer now g)
       = S (QuizGame.pendingAdvances g)
    /\ AnswerRecord.timeUsed r
       = Z.max 0 (Z.min ((now - QuizGame.orZero
                                  (QuizGame.currentQuestionStartTime g))
                         / 1000)
                        CONFIG.QUESTION_TIME_LIMIT).
Proof.
  intros Hb Ha Hgt Hq Hv. unfold QuizGame.submitAnswer.
  rewrite Hb, Ha. cbn [negb orb].
  destruct (Z.leb_spec (Timer.getTimeRemaining (QuizGame.timer g)) 0)
    as [Hle|_]; [lia|].
  rewrite Hq, Hv. cbn [negb].
  cbn [QuizGame.currentQuestion QuizGame.setTimer QuizGame.scoreTracker].
  rewrite Hq.
  match goal with
  | |- context [ScoreTracker.recordAnswer (Some q) ?a ?c ?t false now ?st] =>
      destruct (recordAnswer_fields st q a c t false now)
        as (r & E & Hn & Hof & Hu & Hc & Ht & Htime)
  end.
  rewrite E. exists r. cbn.
  repeat split; first [assumption | apply Hof].
Qed.

Lemma isActiveStatus_true (s : QuizGame.Status) :
  QuizGame.isActiveStatus s = true -> s = QuizGame.Active.
Proof. destruct s; intros H; try discriminate; reflexivity. Qed.

(** X21. The script declares [getCurrentQuestion] twice.  In every
    state a session can reach, the declaration that is replaced (it
    reads [gameState]) and the one that runs (it reads the controller)
    return the same question while the quiz is active; outside an
    active quiz the replaced one returns nothing.  A current question
    is always a well-formed one. *)
Theorem session_current_question (evs : list QuizGame.Event) :
  let g := QuizGame.run QuizGame.new evs in
  Page.getCurrentQuestionShadowed g
  = (if QuizGame.isActiveStatus (QuizGame.status (QuizGame.gameState g))
     then Page.getCurrentQuestion g else None)
  /\ forall q, Page.getCurrentQuestion g = Some q ->
               Spec.wellFormedQuestion q.
Proof.
  destruct (run_session evs QuizGame.new new_session)
    as (_ & _ & (Q1 & Q2 & Q3)).
  cbn zeta. split; [|exact Q2].
  unfold Page.getCurrentQuestionShadowed, Page.getCurrentQuestion.
  destruct (QuizGame.status _) eqn:Hs; cbn [QuizGame.isActiveStatus negb orb];
    try reflexivity.
  destruct (Q3 eq_refl) as [Hq _]. rewrite Hq.
  destruct (_ <=? _)%nat eqn:Hle; [|reflexivity].
  apply Nat.leb_le in Hle. symmetry. now apply nth_error_None.
Qed.

(** X22. From every state a session can reach, [processAnswerSubmission]
    either leaves the controller as it is and shows one error message,
    or clears the message and the controller appends one record for the
    current question, holding the sanitized answer, marked correct
    exactly when [validateAnswer] accepts the sanitized answer, not
    timed out; the controller then waits for the next question with
    its timer stopped.  The controller never rejects what the page
    passes on. *)
Theorem processAnswerSubmission_outcome (evs : list QuizGame.Event)
    (rawAnswer : string) (now : Z) :
  let g := QuizGame.run QuizGame.new evs in
  let g' := fst (Page.processAnswerSubmission rawAnswer now g) in
  let shown := snd (Page.processAnswerSubmission rawAnswer now g) in
  (g' = g
   /\ exists message,
        shown = [Page.ShowInputValidationFeedback message "error"])
  \/ (shown = [Page.ClearInputValidationFeedback]
      /\ exists q r,
           QuizGame.currentQuestion g = Some q
           /\ QuizGame.records g' = QuizGame.records g ++ [r]
           /\ AnswerRecord.questionNumber r
              = S (List.length (QuizGame.records g))
           /\ Spec.recordOfQuestion q r
           /\ AnswerRecord.userAnswer r
              = Page.sanitizeInput (Some rawAnswer)
                                   (QuizGame.expectedTypeOf q)
           /\ AnswerRecord.isCorrect r
              = QuestionGenerator.validateAnswer
                  (Some (AnswerRecord.userAnswer r))
                  (Some (Question.correctAnswer q))
           /\ AnswerRecord.timedOut r = false
           /\ QuizGame.isWaitingForNextQuestion g' = true
           /\ Timer.isActive (QuizGame.timer g') = false).
Proof.
  destruct (run_invariant evs QuizGame.new new_invariant) as (I1 & _).
  cbn zeta. remember (QuizGame.run QuizGame.new evs) as g eqn:Hg. clear Hg.
  unfold Page.processAnswerSubmission.
  destruct (negb _ || negb _);
    [left; split; [reflexivity | eexists; reflexivity]|].
  unfold Page.getCurrentQuestion.
  destruct (QuizGame.currentQuestion g) as [q|] eqn:Hq;
    [|left; split; [reflexivity | eexists; reflexivity]].
  destruct (QuizGame.isActiveStatus _) eqn:Hs; cbn [negb];
    [|left; split; [reflexivity | eexists; reflexivity]].
  destruct (Timer.isActive (QuizGame.timer g)) eqn:Ha; cbn [negb orb];
    [|left; split; [reflexivity | eexists; reflexivity]].
  destruct (Z.leb_spec (Timer.getTimeRemaining (QuizGame.timer g)) 0)
    as [Hle|Hgt]; [left; split; [reflexivity | eexists; reflexivity]|].
  destruct (QuestionGenerator.isValid _) eqn:Hv; cbn [negb];
    [|left; split; [reflexivity | eexists; reflexivity]].
  right. cbn [fst snd]. split; [reflexivity|].
  assert (Hw : QuizGame.isWaitingForNextQuestion g = false).
  { destruct (QuizGame.isWaitingForNextQuestion g); [|reflexivity].
    unfold Timer.isActive in Ha. rewrite (I1 eq_refl) in Ha. discriminate. }
  assert (Hb : QuizGame.blocked g = false).
  { unfold QuizGame.blocked. now rewrite Hw, Hs, Hq. }
  destruct (submitAnswer_accepts _ now g q Hb Ha Hgt Hq Hv)
    as (r & Hr & Hn & Hof & Hto & Hc & Hu & Hw' & Ht & _).
  exists q, r. cbn [ScoreTracker.orEmpty] in Hu.
  rewrite Hw', Ht, Hu.
  repeat split; first [assumption | apply Hof].
Qed.

(** ** A whole quiz *)

Lemma tick_at_limit {callback : Type} (onComplete onTick : callback)
    (d s : Z) (tm : Timer.t callback) :
  Spec.counting onComplete onTick d s tm -> 0 <= d ->
  Timer.fire (Timer.IntervalFires (s + 1000 * d)) tm
  = (Timer.stop tm,
     [Timer.TickCall onTick 0; Timer.CompleteCall onComplete]).
Proof.
  intros (Hr & Hp & Hi & Ht & Hc & Hd & Hs & _) Hpos.
  unfold Timer.fire, Timer.tick. rewrite Hi, Hr, Hp, Hd, Hs.
  cbn [negb orb].
  replace (s + 1000 * d - s) with (d * 1000) by lia.
  rewrite Z.div_mul by lia. rewrite Z.sub_diag. cbn [Z.max Z.compare Z.leb].
  unfold Timer.handleTimerComplete, Timer.setTimeRemaining.
  cbn [Timer.onTickCallback Timer.onCompleteCallback].
  rewrite Ht, Hc. reflexivity.
Qed.

Lemma handleTimerComplete_pending (now : Z) (g : QuizGame.t) :
  QuizGame.blocked g = false ->
  QuizGame.pendingAdvances (QuizGame.handleTimerComplete now g)
  = S (QuizGame.pendingAdvances g)
  /\ QuizGame.timer (QuizGame.handleTimerComplete now g) = QuizGame.timer g.
Proof.
  intros Hb. unfold QuizGame.handleTimerComplete. rewrite Hb.
  destruct (blocked_false g Hb) as (_ & _ & q & Hq). rewrite Hq.
  destruct (recordAnswer_fields (QuizGame.scoreTracker g) q (Some "") false
              CONFIG.QUESTION_TIME_LIMIT true now) as (r & E & _).
  rewrite E. split; reflexivity.
Qed.

Lemma nextQuestion_completes (now : Z) (g : QuizGame.t) :
  (CONFIG.TOTAL_QUESTIONS
   <= QuizGame.currentQuestionIndex (QuizGame.gameState g))%nat ->
  QuizGame.status (QuizGame.gameState (QuizGame.nextQuestion now g))
  = QuizGame.Completed
  /\ QuizGame.records (QuizGame.nextQuestion now g) = QuizGame.records g
  /\ Timer.isActive (QuizGame.timer (QuizGame.nextQuestion now g)) = false.
Proof.
  intros H. unfold QuizGame.nextQuestion.
  apply Nat.leb_le in H. rewrite H. repeat split.
Qed.

Lemma nextQuestion_awaiting (answer : Question.t -> Js.value)
    (questions : list Question.t) (k : nat) (now : Z) (g : QuizGame.t)
    (q : Question.t) :
  QuizGame.status (QuizGame.gameState g) = QuizGame.Active ->
  QuizGame.currentQuestionIndex (QuizGame.gameState g) = k ->
  QuizGame.questions (QuizGame.gameState g) = questions ->
  (k < CONFIG.TOTAL_QUESTIONS)%nat ->
  nth_error questions k = Some q ->
  QuizGame.pendingAdvances g = 0%nat ->
  Timer.pendingTimeouts (QuizGame.timer g) = 0%nat ->
  Forall2 (Spec.playedRecord answer) (firstn k questions)
          (QuizGame.records g) ->
  map AnswerRecord.questionNumber (QuizGame.records g) = seq 1 k ->
  Spec.awaiting answer questions k now (QuizGame.nextQuestion now g).
Proof.
  intros Hs Hi Hqs Hk Hq Hp Hpt Hrec Hnum.
  unfold QuizGame.nextQuestion. rewrite Hi.
  apply Nat.leb_gt in Hk. rewrite Hk.
  unfold Timer.start. cbn. rewrite Hqs, Hi, Hq.
  unfold Spec.awaiting, Spec.counting, QuizGame.records,
    QuizGame.handleTimerTick in *. cbn.
  rewrite Hs, Hi, Hqs, Hq, Hp.
  repeat split; assumption.
Qed.

Lemma firstn_snoc {A : Type} (l : list A) (k : nat) (x : A) :
  nth_error l k = Some x -> firstn (S k) l = firstn k l ++ [x].
Proof.
  revert k. induction l as [|y l IH]; intros [|k] H; try discriminate.
  - injection H as <-. reflexivity.
  - cbn [firstn app]. f_equal. apply IH, H.
Qed.

Lemma awaiting_blocked (answer : Question.t -> Js.value)
    (questions : list Question.t) (k : nat) (now : Z) (g : QuizGame.t)
    (q : Question.t) :
  Spec.awaiting answer questions k now g ->
  nth_error questions k = Some q ->
  QuizGame.blocked g = false.
Proof.
  intros (Hs & _ & _ & Hw & Hcq & _) Hq.
  unfold QuizGame.blocked. now rewrite Hw, Hs, Hcq, Hq.
Qed.

Lemma feedbackDelayElapsed_advances (now : Z) (g : QuizGame.t) (n : nat) :
  QuizGame.pendingAdvances g = S n ->
  QuizGame.feedbackDelayElapsed now g
  = QuizGame.nextQuestion now
      (QuizGame.setIndex
         (S (QuizGame.currentQuestionIndex (QuizGame.gameState g)))
         (QuizGame.setPendingAdvances n g)).
Proof.
  intros H. unfold QuizGame.feedbackDelayElapsed. now rewrite H.
Qed.

(** One question played from a state that awaits its answer. *)
Lemma play_answers (answer : Question.t -> Js.value)
    (questions : list Question.t) (k : nat) (now : Z) (g : QuizGame.t)
    (q : Question.t) :
  Spec.awaiting answer questions k now g ->
  nth_error questions k = Some q ->
  (forall a, answer q = Some a ->
             QuestionGenerator.isValid
               (QuestionGenerator.validateInput
                  (Some a) (QuizGame.expectedTypeOf q)) = true) ->
  exists g1,
    Spec.play 1 answer now g
    = QuizGame.nextQuestion (now + 12000)
        (QuizGame.setIndex (S k) (QuizGame.setPendingAdvances 0 g1))
    /\ QuizGame.gameState g1 = QuizGame.gameState g
    /\ Timer.pendingTimeouts (QuizGame.timer g1) = 0%nat
    /\ Forall2 (Spec.playedRecord answer) (firstn (S k) questions)
               (QuizGame.records g1)
    /\ map AnswerRecord.questionNumber (QuizGame.records g1) = seq 1 (S k).
Proof.
  intros Haw Hq Hvalid.
  pose proof (awaiting_blocked _ _ _ _ _ _ Haw Hq) as Hb.
  destruct Haw as (Hs & Hi & Hqs & Hw & Hcq & Hst & Hp & Hcount & Hrem
                   & Hrec & Hnum).
  rewrite Hq in Hcq.
  assert (Hlen : List.length (QuizGame.records g) = k).
  { rewrite <- (length_map AnswerRecord.questionNumber), Hnum.
    apply length_seq. }
  cbn [Spec.play]. rewrite Hcq.
  destruct (answer q) as [a|] eqn:Ha.
  - destruct (submitAnswer_accepts (Some a) (now + 3000) g q Hb)
      as (r & Hr & Hn & Hof & Hto & Hc & Hu & Hw' & Ht & Hg & Hp' & Htime);
      [apply Hcount | unfold Timer.getTimeRemaining; rewrite Hrem; reflexivity
      | exact Hcq | apply Hvalid; reflexivity |].
    exists (QuizGame.submitAnswer (Some a) (now + 3000) g).
    rewrite Hp in Hp'.
    rewrite (feedbackDelayElapsed_advances _ _ _ Hp'), Hg, Hi.
    split; [reflexivity|]. split; [reflexivity|].
    rewrite Ht, Hr, map_app, Hnum. cbn [map].
    rewrite Hn, Hlen, (firstn_snoc _ _ _ Hq).
    split; [apply Hcount|]. split.
    + apply Forall2_app; [exact Hrec|]. constructor; [|constructor].
      unfold Spec.playedRecord. rewrite Ha.
      split; [exact Hof|]. repeat split; try assumption.
      rewrite Htime, Hst. cbn [QuizGame.orZero].
      replace (now + 3000 - now) with 3000 by lia. reflexivity.
    + now rewrite seq_S.
  - pose proof (tick_at_limit _ _ _ _ _ Hcount) as Hfire.
    specialize (Hfire ltac:(discriminate)).
    change (now + 1000 * CONFIG.QUESTION_TIME_LIMIT) with (now + 10000)
      in Hfire.
    unfold QuizGame.timerFires. rewrite Hfire.
    cbn [QuizGame.runCalls fold_left QuizGame.invoke QuizGame.fireTime].
    set (g0 := QuizGame.handleTimerTick (Some 0)
                 (QuizGame.setTimer (Timer.stop (QuizGame.timer g)) g)).
    assert (Hb0 : QuizGame.blocked g0 = false) by exact Hb.
    destruct (handleTimerComplete_full (now + 10000) g0 Hb0)
      as (q' & r & Hq' & Hr & Hn & Hof & Hto & Hc & Hu & Ht & Hw' & Hg
          & _).
    destruct (handleTimerComplete_pending (now + 10000) g0 Hb0)
      as (Hp' & Htm).
    change (QuizGame.currentQuestion g0) with (QuizGame.currentQuestion g)
      in Hq'.
    rewrite Hcq in Hq'. injection Hq' as <-.
    change (QuizGame.records g0) with (QuizGame.records g) in Hr, Hn.
    change (QuizGame.gameState g0) with (QuizGame.gameState g) in Hg.
    change (QuizGame.pendingAdvances g0) with (QuizGame.pendingAdvances g)
      in Hp'.
    change (QuizGame.timer g0) with (Timer.stop (QuizGame.timer g)) in Htm.
    exists (QuizGame.handleTimerComplete (now + 10000) g0).
    rewrite Hp in Hp'.
    rewrite (feedbackDelayElapsed_advances _ _ _ Hp'), Hg, Hi.
    split; [reflexivity|]. split; [reflexivity|].
    rewrite Htm, Hr, map_app, Hnum. cbn [map].
    rewrite Hn, Hlen, (firstn_snoc _ _ _ Hq).
    split; [apply Hcount|]. split.
    + apply Forall2_app; [exact Hrec|]. constructor; [|constructor].
      unfold Spec.playedRecord. rewrite Ha.
      split; [exact Hof|]. repeat split; assumption.
    + now rewrite seq_S.
Qed.

Lemma play_to_the_end (answer : Question.t -> Js.value)
    (questions : list Question.t) :
  List.length questions = CONFIG.TOTAL_QUESTIONS ->
  Spec.answersValidly answer questions ->
  forall (n k : nat) (now : Z) (g : QuizGame.t),
    (k + S n = CONFIG.TOTAL_QUESTIONS)%nat ->
    Spec.awaiting answer questions k now g ->
    let g' := Spec.play (S n) answer now g in
    QuizGame.status (QuizGame.gameState g') = QuizGame.Completed
    /\ Timer.isActive (QuizGame.timer g') = false
    /\ Forall2 (Spec.playedRecord answer) questions (QuizGame.records g')
    /\ map AnswerRecord.questionNumber (QuizGame.records g')
       = seq 1 CONFIG.TOTAL_QUESTIONS.
Proof.
  intros Hlen Hvalid.
  induction n as [|n IH]; intros k now g Hk Haw.
  - destruct (nth_error questions k) as [q|] eqn:Hq;
      [|apply nth_error_None in Hq; lia].
    destruct (play_answers answer questions k now g q Haw Hq)
      as (g1 & Hplay & Hg & Hpt & Hrec & Hnum).
    { unfold Spec.answersValidly in Hvalid. rewrite Forall_forall in Hvalid.
      eapply Hvalid, nth_error_In, Hq. }
    cbn zeta. rewrite Hplay.
    destruct (nextQuestion_completes (now + 12000)
                (QuizGame.setIndex (S k) (QuizGame.setPendingAdvances 0 g1)))
      as (Hs' & Hr' & Ha'); [cbn; lia|].
    rewrite Hs', Hr', Ha'.
    change (QuizGame.records
              (QuizGame.setIndex (S k) (QuizGame.setPendingAdvances 0 g1)))
      with (QuizGame.records g1).
    replace (S k) with (List.length questions) in Hrec, Hnum by lia.
    rewrite firstn_all in Hrec. rewrite Hlen in Hnum. auto.
  - destruct (nth_error questions k) as [q|] eqn:Hq;
      [|apply nth_error_None in Hq; lia].
    destruct (nth_error questions (S k)) as [q'|] eqn:Hq';
      [|apply nth_error_None in Hq'; lia].
    destruct (play_answers answer questions k now g q Haw Hq)
      as (g1 & Hplay & Hg & Hpt & Hrec & Hnum).
    { unfold Spec.answersValidly in Hvalid. rewrite Forall_forall in Hvalid.
      eapply Hvalid, nth_error_In, Hq. }
    change (Spec.play (S (S n)) answer now g)
      with (Spec.play (S n) answer (now + 12000) (Spec.play 1 answer now g)).
    apply (IH (S k)); [lia|].
    rewrite Hplay.
    destruct Haw as (Hs & Hi & Hqs & _).
    apply nextQuestion_awaiting with (q := q'); cbn;
      try rewrite Hg; try assumption; try reflexivity; lia.
Qed.

Lemma play_all (answer : Question.t -> Js.value)
    (questions : list Question.t) :
  List.length questions = CONFIG.TOTAL_QUESTIONS ->
  Spec.answersValidly answer questions ->
  forall (m k : nat) (now : Z) (g : QuizGame.t),
    (k + m = CONFIG.TOTAL_QUESTIONS)%nat -> m <> 0%nat ->
    Spec.awaiting answer questions k now g ->
    let g' := Spec.play m answer now g in
    QuizGame.status (QuizGame.gameState g') = QuizGame.Completed
    /\ Timer.isActive (QuizGame.timer g') = false
    /\ Forall2 (Spec.playedRecord answer) questions (QuizGame.records g')
    /\ map AnswerRecord.questionNumber (QuizGame.records g')
       = seq 1 CONFIG.TOTAL_QUESTIONS.
Proof.
  intros Hlen Hvalid m k now g Hk Hm Haw.
  destruct m as [|n]; [congruence|].
  exact (play_to_the_end answer questions Hlen Hvalid n k now g Hk Haw).
Qed.

Lemma played_score (answer : Question.t -> Js.value)
    (questions : list Question.t) (records : list AnswerRecord.t) :
  Forall2 (Spec.playedRecord answer) questions records ->
  List.length (filter (fun r => AnswerRecord.isCorrect r) records)
  = List.length (filter (Spec.answeredCorrectly answer) questions)
  /\ List.length (filter (fun r => AnswerRecord.timedOut r) records)
     = List.length
         (filter (fun q => negb (QuizGame.isSome (answer q))) questions)
  /\ List.length records = List.length questions.
Proof.
  induction 1 as [|q r qs rs (_ & Hr) _ (IH1 & IH2 & IH3)];
    [repeat split|].
  cbn [filter List.length]. unfold Spec.answeredCorrectly at 1.
  destruct (answer q) as [a|]; destruct Hr as (Hto & _ & Hc & _);
    rewrite Hto, Hc; cbn [QuizGame.isSome negb].
  - destruct (QuestionGenerator.validateAnswer _ _); cbn [List.length];
      auto.
  - cbn [List.length]. auto.
Qed.

Lemma played_game_score (answer : Question.t -> Js.value)
    (questions : list Question.t) (g : QuizGame.t) :
  Forall2 (Spec.playedRecord answer) questions (QuizGame.records g) ->
  let score := ScoreTracker.getScore (QuizGame.scoreTracker g) in
  ScoreTracker.correct score
  = List.length (filter (Spec.answeredCorrectly answer) questions)
  /\ ScoreTracker.timeout score
     = List.length
         (filter (fun q => negb (QuizGame.isSome (answer q))) questions)
  /\ ScoreTracker.total score = List.length questions.
Proof.
  intros H. apply played_score in H. exact H.
Qed.

Lemma startQuiz_awaiting (draws : nat -> QuestionGenerator.Draw)
    (answer : Question.t -> Js.value) (now : Z) (g0 : QuizGame.t) :
  QuizGame.pendingAdvances g0 = 0%nat ->
  Timer.pendingTimeouts (QuizGame.timer g0) = 0%nat ->
  Spec.awaiting answer (QuizGame.generateAllQuestions draws) 0 now
                (QuizGame.startQuiz now draws g0).
Proof.
  intros Hp Hpt.
  assert (Hfirst : nth_error (QuizGame.generateAllQuestions draws) 0
                   = Some (QuestionGenerator.generateQuestion
                             (draws 0%nat))) by reflexivity.
  unfold QuizGame.startQuiz.
  generalize dependent (QuizGame.generateAllQuestions draws).
  intros questions Hfirst.
  apply nextQuestion_awaiting
    with (q := QuestionGenerator.generateQuestion (draws 0%nat)).
  - reflexivity.
  - reflexivity.
  - reflexivity.
  - unfold CONFIG.TOTAL_QUESTIONS. lia.
  - exact Hfirst.
  - exact Hp.
  - exact Hpt.
  - constructor.
  - reflexivity.
Qed.

(** X23. A whole quiz.  Started from a controller with nothing pending,
    with any draws for the questions, and played to the end by a player
    who answers each question validly after three seconds or lets it
    time out, the quiz ends completed with the timer stopped and ten
    records numbered 1 to 10, one per question in order: the record of
    a question holds the player's answer, is correct exactly when
    [validateAnswer] accepts it, and is a timeout exactly when the
    player gave none.  [getScore] then counts as correct the questions
    answered correctly, as timed out the questions left alone, and ten
    in total. *)
Theorem whole_quiz (draws : nat -> QuestionGenerator.Draw)
    (answer : Question.t -> Js.value) (now : Z) (g0 : QuizGame.t) :
  Spec.answersValidly answer (QuizGame.generateAllQuestions draws) ->
  QuizGame.pendingAdvances g0 = 0%nat ->
  Timer.pendingTimeouts (QuizGame.timer g0) = 0%nat ->
  let questions := QuizGame.generateAllQuestions draws in
  let g := Spec.play CONFIG.TOTAL_QUESTIONS answer now
                     (QuizGame.startQuiz now draws g0) in
  let score := ScoreTracker.getScore (QuizGame.scoreTracker g) in
  QuizGame.status (QuizGame.gameState g) = QuizGame.Completed
  /\ Timer.isActive (QuizGame.timer g) = false
  /\ Forall2 (Spec.playedRecord answer) questions (QuizGame.records g)
  /\ map AnswerRecord.questionNumber (QuizGame.records g)
     = seq 1 CONFIG.TOTAL_QUESTIONS
  /\ ScoreTracker.correct score
     = List.length (filter (Spec.answeredCorrectly answer) questions)
  /\ ScoreTracker.timeout score
     = List.length
         (filter (fun q => negb (QuizGame.isSome (answer q))) questions)
  /\ ScoreTracker.total score = CONFIG.TOTAL_QUESTIONS.
Proof.
  intros Hvalid Hp Hpt questions g score.
  destruct (generateAllQuestions_wellFormed draws) as [_ Hlen].
  pose proof (startQuiz_awaiting draws answer now g0 Hp Hpt) as Haw.
  pose proof (play_all answer _ Hlen Hvalid CONFIG.TOTAL_QUESTIONS 0
                now _ eq_refl ltac:(discriminate) Haw) as H.
  cbn zeta in H. destruct H as (Hs & Ha & Hrec & Hnum).
  destruct (played_game_score answer _ _ Hrec) as (Hc & Hto & Htotal).
  subst questions g score.
  split; [exact Hs|]. split; [exact Ha|]. split; [exact Hrec|].
  split; [exact Hnum|]. split; [exact Hc|]. split; [exact Hto|].
  rewrite <- Hlen. exact Htotal.
Qed.

Lemma whole_quiz_witness :
  Spec.answersValidly Spec.answersLetters
                      (QuizGame.generateAllQuestions Spec.sampleDraws)
  /\ QuizGame.pendingAdvances QuizGame.new = 0%nat
  /\ Timer.pendingTimeouts (QuizGame.timer QuizGame.new) = 0%nat
  /\ let g := Spec.play CONFIG.TOTAL_QUESTIONS Spec.answersLetters 0
                (QuizGame.startQuiz 0 Spec.sampleDraws QuizGame.new) in
     QuizGame.status (QuizGame.gameState g) = QuizGame.Completed
     /\ ScoreTracker.total (ScoreTracker.getScore (QuizGame.scoreTracker g))
        = CONFIG.TOTAL_QUESTIONS.
Proof.
  assert (Hvalid :
    Spec.answersValidly Spec.answersLetters
                        (QuizGame.generateAllQuestions Spec.sampleDraws)).
  { unfold Spec.answersValidly, QuizGame.generateAllQuestions.
    apply Forall_map, Forall_forall. intros i _ a.
    pose proof (generateQuestion_wf (Spec.sampleDraws i)) as (_ & Hv & _).
    unfold Spec.answersLetters.
    destruct (_ =? _)%string; [|discriminate].
    intros E. injection E as <-. exact Hv. }
  split; [exact Hvalid|]. split; [reflexivity|]. split; [reflexivity|].
  pose proof (whole_quiz Spec.sampleDraws Spec.answersLetters 0 QuizGame.new
                Hvalid eq_refl eq_refl) as H.
  cbn zeta in H. cbn zeta.
  destruct H as (Hs & _ & _ & _ & _ & _ & Ht).
  split; [exact Hs | exact Ht].
Defined.
